(** * WeatherAnalyzer: a shallow embedding of [weather.py]

    The Python classes [DailyWeather], [HistoricalWeather] and [Country] and
    the function [load_data] are embedded as Rocq definitions, and the
    statements of the specification are proved about them.

    Conventions of the embedding.
    - Python numbers are exact rationals ([Q]); rounding and the special
      values of binary floating point are outside the model.
    - A Python [dict] is an insertion-ordered association list: iteration
      follows insertion order, lookup finds the entry of the key.
    - A method is a computation over the state of [self] which may end in
      an exception; the state is kept when an exception is raised, as a
      mutation made before a [raise] stays visible in Python.
    - [float(s)] and [int(s)] on strings are parameters of [load_data]'s
      model: [None] stands for [ValueError]. *)

From Stdlib Require Import List String Ascii ZArith QArith Bool Arith Lia Lqa.
Import ListNotations.

Set Implicit Arguments.

(** ** Exceptions and outcomes *)

Inductive exn : Type :=
| ValueError
| IndexError
| KeyError
| TypeError
| ZeroDivisionError
| OverflowError.

(** [OutOfFuel] is not a Python exception: it marks a [while] loop whose
    iteration bound was exhausted. *)
Inductive outcome (A : Type) : Type :=
| Ok (a : A)
| Raise (e : exn)
| OutOfFuel.

Arguments Ok {A} a.
Arguments Raise {A} e.
Arguments OutOfFuel {A}.

(** ** Computations over a mutable object *)

Definition M (S A : Type) : Type := S -> outcome A * S.

Definition ret {S A : Type} (a : A) : M S A := fun s => (Ok a, s).

Definition bind {S A B : Type} (c : M S A) (k : A -> M S B) : M S B :=
  fun s =>
    let (o, s') := c s in
    match o with
    | Ok a => k a s'
    | Raise e => (Raise e, s')
    | OutOfFuel => (OutOfFuel, s')
    end.

Definition get {S : Type} : M S S := fun s => (Ok s, s).
Definition gets {S A : Type} (f : S -> A) : M S A := fun s => (Ok (f s), s).
Definition put {S : Type} (s' : S) : M S unit := fun _ => (Ok tt, s').
Definition lift {S A : Type} (o : outcome A) : M S A := fun s => (o, s).

Declare Scope monad_scope.
Delimit Scope monad_scope with monad.
Notation "x <- c ;; k" := (bind c (fun x => k))
  (at level 100, c at next level, right associativity) : monad_scope.
Notation "' p <- c ;; k" := (bind c (fun x => let 'p := x in k))
  (at level 100, p pattern, c at next level, right associativity) : monad_scope.
Notation "c ;;; k" := (bind c (fun _ => k))
  (at level 100, right associativity) : monad_scope.
Local Open Scope monad_scope.

(** [for x in xs: body], the loop-carried local variables in [acc]. *)
Fixpoint for_each {S X A : Type} (xs : list X) (body : X -> A -> M S A)
    (acc : A) : M S A :=
  match xs with
  | [] => ret acc
  | x :: xs' => acc' <- body x acc ;; for_each xs' body acc'
  end.

(** A computation that leaves the object as it found it. *)
Definition read_only {S A : Type} (c : M S A) : Prop :=
  forall s, snd (c s) = s.

(** ** Python built-ins used by the program *)

Definition Qlt_bool (x y : Q) : bool := negb (Qle_bool y x).

(** [max(l)]: the first item that no later item exceeds; [ValueError] on
    an empty list. [gtb item best] is [item > best]. *)
Fixpoint max_from {A : Type} (gtb : A -> A -> bool) (best : A) (l : list A) : A :=
  match l with
  | [] => best
  | item :: l' => max_from gtb (if gtb item best then item else best) l'
  end.

Definition py_max {A : Type} (gtb : A -> A -> bool) (l : list A) : outcome A :=
  match l with
  | [] => Raise ValueError
  | x :: l' => Ok (max_from gtb x l')
  end.

(** [sum(l)] *)
Definition py_sum (l : list Q) : Q := fold_left Qplus l 0%Q.

(** [x / y] *)
Definition py_truediv (x y : Q) : outcome Q :=
  if Qeq_bool y 0 then Raise ZeroDivisionError else Ok (x / y)%Q.

(** [l[i]] for a non-negative index *)
Definition list_getitem {A : Type} (l : list A) (i : nat) : outcome A :=
  match nth_error l i with
  | Some x => Ok x
  | None => Raise IndexError
  end.

(** [l[i] = v] *)
Fixpoint list_setitem {A : Type} (l : list A) (i : nat) (v : A) : outcome (list A) :=
  match l, i with
  | [], _ => Raise IndexError
  | _ :: l', O => Ok (v :: l')
  | x :: l', S i' =>
      match list_setitem l' i' v with
      | Ok l'' => Ok (x :: l'')
      | Raise e => Raise e
      | OutOfFuel => OutOfFuel
      end
  end.

(** [del l[i]] *)
Fixpoint list_delitem {A : Type} (l : list A) (i : nat) : outcome (list A) :=
  match l, i with
  | [], _ => Raise IndexError
  | _ :: l', O => Ok l'
  | x :: l', S i' =>
      match list_delitem l' i' with
      | Ok l'' => Ok (x :: l'')
      | Raise e => Raise e
      | OutOfFuel => OutOfFuel
      end
  end.

(** [l.index(x)] *)
Fixpoint list_index {A : Type} (eqb : A -> A -> bool) (l : list A) (x : A) : outcome nat :=
  match l with
  | [] => Raise ValueError
  | y :: l' =>
      if eqb y x then Ok O
      else match list_index eqb l' x with
           | Ok i => Ok (S i)
           | Raise e => Raise e
           | OutOfFuel => OutOfFuel
           end
  end.

(** [sorted(l, reverse=True)] on indices: a descending insertion sort. *)
Fixpoint insert_desc (i : nat) (l : list nat) : list nat :=
  match l with
  | [] => [i]
  | j :: l' => if (j <? i)%nat then i :: j :: l' else j :: insert_desc i l'
  end.

Fixpoint sorted_reverse (l : list nat) : list nat :=
  match l with
  | [] => []
  | i :: l' => insert_desc i (sorted_reverse l')
  end.

(** [range(lo, hi)] *)
Definition py_range (lo hi : Z) : list Z :=
  map (fun i => (lo + Z.of_nat i)%Z) (seq 0 (Z.to_nat (hi - lo))).

(** [s.strip('\n')]: newlines removed at both ends. *)
Definition newline : ascii := ascii_of_nat 10.

Fixpoint lstrip_newline (s : string) : string :=
  match s with
  | String c s' => if Ascii.eqb c newline then lstrip_newline s' else s
  | EmptyString => EmptyString
  end.

Fixpoint rstrip_newline (s : string) : string :=
  match s with
  | String c s' =>
      match rstrip_newline s' with
      | EmptyString => if Ascii.eqb c newline then EmptyString else String c EmptyString
      | t => String c t
      end
  | EmptyString => EmptyString
  end.

Definition strip_newline (s : string) : string :=
  rstrip_newline (lstrip_newline s).

(** [s.split(',')]: always at least one field. *)
Fixpoint split_comma_from (field : string) (s : string) : list string :=
  match s with
  | EmptyString => [field]
  | String c s' =>
      if Ascii.eqb c ","%char then field :: split_comma_from EmptyString s'
      else split_comma_from (field ++ String c EmptyString) s'
  end.

Definition split_comma (s : string) : list string :=
  split_comma_from EmptyString s.

(** ** Python dictionaries *)

Section Dict.
Variables K V : Type.
Variable eqb : K -> K -> bool.

Definition dict : Type := list (K * V).

Fixpoint dict_get (d : dict) (k : K) : option V :=
  match d with
  | [] => None
  | (k', v) :: d' => if eqb k' k then Some v else dict_get d' k
  end.

(** [k in d] *)
Definition dict_contains (d : dict) (k : K) : bool :=
  match dict_get d k with
  | Some _ => true
  | None => false
  end.

(** [d[k]] *)
Definition dict_getitem (d : dict) (k : K) : outcome V :=
  match dict_get d k with
  | Some v => Ok v
  | None => Raise KeyError
  end.

(** [d[k] = v]: an existing key keeps its place, a new key goes last. *)
Fixpoint dict_setitem (d : dict) (k : K) (v : V) : dict :=
  match d with
  | [] => [(k, v)]
  | (k', v') :: d' =>
      if eqb k' k then (k', v) :: d' else (k', v') :: dict_setitem d' k v
  end.

(** The keys, in iteration order. *)
Definition dict_keys (d : dict) : list K := map fst d.

(** The values, in iteration order. *)
Definition dict_values (d : dict) : list V := map snd d.

(** The invariant of every Python dictionary: no key occurs twice. *)
Definition dict_wf (d : dict) : Prop := NoDup (dict_keys d).
End Dict.

Arguments dict_keys {K V} d.
Arguments dict_values {K V} d.
Arguments dict_wf {K V} d.

(** ** [datetime.date] *)

Record date : Type := mkdate { year : Z; month : Z; day : Z }.

Definition MINYEAR : Z := 1.
Definition MAXYEAR : Z := 9999.

Definition is_leap (y : Z) : bool :=
  ((y mod 4 =? 0) && (negb (y mod 100 =? 0) || (y mod 400 =? 0)))%Z.

Definition days_in_month (y m : Z) : Z :=
  if (m =? 2)%Z then (if is_leap y then 29 else 28)%Z
  else if ((m =? 4) || (m =? 6) || (m =? 9) || (m =? 11))%Z then 30%Z
  else if ((1 <=? m) && (m <=? 12))%Z then 31%Z
  else 0%Z.

Definition valid_date (d : date) : bool :=
  ((MINYEAR <=? year d) && (year d <=? MAXYEAR)
   && (1 <=? month d) && (month d <=? 12)
   && (1 <=? day d) && (day d <=? days_in_month (year d) (month d)))%Z.

(** Whether an integer fits a C [int], to which [date] converts each of its
    arguments. *)
Definition fits_c_int (z : Z) : bool :=
  ((-2147483648 <=? z) && (z <=? 2147483647))%Z.

(** [date(y, m, d)]: [OverflowError] when an argument does not fit a C
    [int], [ValueError] when the three numbers form no date. *)
Definition new_date (y m d : Z) : outcome date :=
  if fits_c_int y && fits_c_int m && fits_c_int d then
    if valid_date (mkdate y m d) then Ok (mkdate y m d) else Raise ValueError
  else Raise OverflowError.

Definition date_eqb (a b : date) : bool :=
  ((year a =? year b) && (month a =? month b) && (day a =? day b))%Z.

(** The calendar day after [d]. *)
Definition next_day (d : date) : date :=
  if (day d <? days_in_month (year d) (month d))%Z
  then mkdate (year d) (month d) (day d + 1)
  else if (month d <? 12)%Z
       then mkdate (year d) (month d + 1) 1
       else mkdate (year d + 1) 1 1.

(** [d + timedelta(days=1)]: [OverflowError] past the last day of
    [MAXYEAR]. *)
Definition add_one_day (d : date) : outcome date :=
  let d' := next_day d in
  if (MAXYEAR <? year d')%Z then Raise OverflowError else Ok d'.

(** [date.max] *)
Definition date_max : date := mkdate 9999 12 31.

(** [d.strftime('%b')] in the C locale. *)
Definition strftime_b (d : date) : string :=
  nth (Z.to_nat (month d) - 1)
      ["Jan"; "Feb"; "Mar"; "Apr"; "May"; "Jun";
       "Jul"; "Aug"; "Sep"; "Oct"; "Nov"; "Dec"]%string ""%string.

(** [k] days after [d], by the calendar alone. *)
Fixpoint days_after (k : nat) (d : date) : date :=
  match k with
  | O => d
  | S k' => next_day (days_after k' d)
  end.

(** ** [DailyWeather] *)

Record DailyWeather : Type := mkDailyWeather {
  avg_temp : Q;
  low_temp : Q;
  high_temp : Q;
  precipitation : Q;
  snowfall : Q;
  rainfall : Q
}.

(** [DailyWeather(temperature_statistics, precipitation_statistics)] *)
Definition DailyWeather_init (temperature_statistics : Q * Q * Q)
    (precipitation_statistics : Q * Q * Q) : DailyWeather :=
  let '(t0, t1, t2) := temperature_statistics in
  let '(p0, p1, p2) := precipitation_statistics in
  {| avg_temp := t0; low_temp := t1; high_temp := t2;
     precipitation := p0; rainfall := p1; snowfall := p2 |}.

(** ** [HistoricalWeather] *)

Record HistoricalWeather : Type := mkHistoricalWeather {
  name : string;
  coordinates : Q * Q;
  _records : dict date DailyWeather
}.

(** [HistoricalWeather(name, coordinates)] *)
Definition HistoricalWeather_init (n : string) (c : Q * Q) : HistoricalWeather :=
  {| name := n; coordinates := c; _records := [] |}.

Definition set_records (self : HistoricalWeather)
    (r : dict date DailyWeather) : HistoricalWeather :=
  {| name := name self; coordinates := coordinates self; _records := r |}.

(** [self._records[key]] *)
Definition records_getitem (key : date) : M HistoricalWeather DailyWeather :=
  self <- get ;; lift (dict_getitem date_eqb (_records self) key).

(** [for key in self._records: if key == d: return None] *)
Fixpoint add_weather_scan (keys : list date) (d : date) : bool :=
  match keys with
  | [] => false
  | key :: keys' => if date_eqb key d then true else add_weather_scan keys' d
  end.

Definition add_weather (d : date) (w : DailyWeather) : M HistoricalWeather unit :=
  self <- get ;;
  if add_weather_scan (dict_keys (_records self)) d then ret tt
  else put (set_records self (dict_setitem date_eqb (_records self) d w)).

(** The loop of [retrieve_weather]; its [else] branch runs when the keys
    are exhausted. *)
Fixpoint retrieve_weather_scan (keys : list date) (d : date)
    : M HistoricalWeather (option DailyWeather) :=
  match keys with
  | [] => ret None
  | key :: keys' =>
      if date_eqb d key then w <- records_getitem d ;; ret (Some w)
      else retrieve_weather_scan keys' d
  end.

Definition retrieve_weather (d : date) : M HistoricalWeather (option DailyWeather) :=
  self <- get ;; retrieve_weather_scan (dict_keys (_records self)) d.

Definition record_high (m d : Z) : M HistoricalWeather Q :=
  self <- get ;;
  temp_list <-
    for_each (dict_keys (_records self))
      (fun key temp_list =>
         if ((month key =? m) && (day key =? d))%Z
         then w <- records_getitem key ;; ret (temp_list ++ [high_temp w])
         else ret temp_list)
      [] ;;
  lift (py_max (fun item best => Qlt_bool best item) temp_list).

Definition monthly_average : M HistoricalWeather (dict string (option Q)) :=
  for_each (py_range 1 13)
    (fun month_ dictionary =>
       d20 <- lift (new_date 2000 month_ 20) ;;
       let month_name := strftime_b d20 in
       self <- get ;;
       list_of_mins <-
         for_each (dict_keys (_records self))
           (fun key list_of_mins =>
              if (month key =? month_)%Z
              then w <- records_getitem key ;; ret (list_of_mins ++ [low_temp w])
              else ret list_of_mins)
           [] ;;
       if (0 <? List.length list_of_mins)%nat then
         average <- lift (py_truediv (py_sum list_of_mins)
                            (inject_Z (Z.of_nat (List.length list_of_mins)))) ;;
         ret (dict_setitem String.eqb dictionary month_name (Some average))
       else if (List.length list_of_mins =? 0)%nat then
         ret (dict_setitem String.eqb dictionary month_name None)
       else ret dictionary)
    [].

(** The condition of the [while] loop of [contiguous_precipitation]. *)
Definition precipitation_test (dummy_key : date) : M HistoricalWeather bool :=
  self <- get ;;
  if dict_contains date_eqb (_records self) dummy_key then
    w <- records_getitem dummy_key ;;
    if Qlt_bool 0 (precipitation w) then ret true
    else w' <- records_getitem dummy_key ;;
         ret (Qeq_bool (precipitation w') (-1))
  else ret false.

(** The [while] loop, with a bound on its iterations. *)
Fixpoint precipitation_run (fuel : nat) (dummy_key : date) (count : nat)
    : M HistoricalWeather nat :=
  match fuel with
  | O => lift OutOfFuel
  | S fuel' =>
      continue <- precipitation_test dummy_key ;;
      if continue : bool then
        dummy_key' <- lift (add_one_day dummy_key) ;;
        precipitation_run fuel' dummy_key' (S count)
      else ret count
  end.

Definition contiguous_precipitation : M HistoricalWeather (date * nat) :=
  self <- get ;;
  let keys := dict_keys (_records self) in
  lists <-
    for_each keys
      (fun key lists =>
         count <- precipitation_run (S (List.length keys)) key 0 ;;
         ret (fst lists ++ [key], snd lists ++ [count]))
      ([], []) ;;
  let start_date_list : list date := fst lists in
  let consecutive_days_list : list nat := snd lists in
  max_consecutive_days <-
    lift (py_max (fun item best => (best <? item)%nat) consecutive_days_list) ;;
  i <- lift (list_index Nat.eqb consecutive_days_list max_consecutive_days) ;;
  max_start_date <- lift (list_getitem start_date_list i) ;;
  ret (max_start_date, max_consecutive_days).

Definition percentage_snowfall : M HistoricalWeather Q :=
  self <- get ;;
  totals <-
    for_each (dict_keys (_records self))
      (fun key totals =>
         let total_snowfall : Q := fst totals in
         let total_rainfall : Q := snd totals in
         w1 <- records_getitem key ;;
         total_rainfall' <-
           (if negb (Qeq_bool (rainfall w1) (-1))
            then w2 <- records_getitem key ;; ret (total_rainfall + rainfall w2)%Q
            else ret total_rainfall) ;;
         w3 <- records_getitem key ;;
         total_snowfall' <-
           (if negb (Qeq_bool (snowfall w3) (-1))
            then w4 <- records_getitem key ;; ret (total_snowfall + snowfall w4)%Q
            else ret total_snowfall) ;;
         ret (total_snowfall', total_rainfall'))
      (0%Q, 0%Q) ;;
  lift (py_truediv (fst totals) (fst totals + snd totals)%Q).

(** ** [Country] *)

Record Country : Type := mkCountry {
  country_name : string;
  _histories : dict string HistoricalWeather
}.

(** [Country(n)] *)
Definition Country_init (n : string) : Country :=
  {| country_name := n; _histories := [] |}.

Definition set_histories (self : Country)
    (h : dict string HistoricalWeather) : Country :=
  {| country_name := country_name self; _histories := h |}.

(** [self._histories[location].method()]: the method runs on the object
    held by the country, which keeps whatever the method did to it. *)
Definition call_history {A : Type} (location : string)
    (method : M HistoricalWeather A) : M Country A :=
  fun self =>
    match dict_get String.eqb (_histories self) location with
    | None => (Raise KeyError, self)
    | Some hw =>
        let (o, hw') := method hw in
        (o, set_histories self (dict_setitem String.eqb (_histories self) location hw'))
    end.

Definition add_history (hw : HistoricalWeather) : M Country unit :=
  self <- get ;;
  if negb (dict_contains String.eqb (_histories self) (name hw))
  then put (set_histories self (dict_setitem String.eqb (_histories self) (name hw) hw))
  else ret tt.

Definition retrieve_history (n : string) : M Country (option HistoricalWeather) :=
  self <- get ;;
  if dict_contains String.eqb (_histories self) n
  then hw <- lift (dict_getitem String.eqb (_histories self) n) ;; ret (Some hw)
  else ret None.

Definition snowiest_location : M Country (option string * option Q) :=
  self <- get ;;
  if (List.length (_histories self) =? 0)%nat then ret (None, None)
  else
    highest <-
      for_each (dict_keys (_histories self))
        (fun location highest =>
           let highest_snowfall_percentage : Q := snd highest in
           p <- call_history location percentage_snowfall ;;
           if Qle_bool highest_snowfall_percentage p then
             p' <- call_history location percentage_snowfall ;;
             ret (location, p')
           else ret highest)
        (""%string, 0%Q) ;;
    ret (Some (fst highest), Some (snd highest)).

(** ** Ingestion: [load_data] *)

(** The column numbers where each kind of information appears. *)
Definition LONG : nat := 0.
Definition LAT : nat := 1.
Definition STN_NAME : nat := 2.
Definition YEAR : nat := 5.
Definition MONTH : nat := 6.
Definition DAY : nat := 7.
Definition MAX_TEMP : nat := 9.
Definition MIN_TEMP : nat := 11.
Definition MEAN_TEMP : nat := 13.
Definition TOTAL_RAIN : nat := 19.
Definition TOTAL_RAIN_FLAG : nat := 20.
Definition TOTAL_SNOW : nat := 21.
Definition TOTAL_SNOW_FLAG : nat := 22.
Definition TOTAL_PRECIP : nat := 23.
Definition TOTAL_PRECIP_FLAG : nat := 24.

(** An item of a row: the text read from the file, or the number that the
    validation loop has put in its place. *)
Inductive cell : Type :=
| CStr (s : string)
| CFloat (x : Q)
| CInt (n : Z).

(** The values of a cell where the program needs a number, an integer or a
    string. The attributes of the classes are typed here as their
    annotations say, so a cell of another kind is refused. *)
Definition as_number (c : cell) : outcome Q :=
  match c with
  | CFloat x => Ok x
  | CInt n => Ok (inject_Z n)
  | CStr _ => Raise TypeError
  end.

Definition as_integer (c : cell) : outcome Z :=
  match c with
  | CInt n => Ok n
  | _ => Raise TypeError
  end.

Definition as_str (c : cell) : outcome string :=
  match c with
  | CStr s => Ok s
  | _ => Raise TypeError
  end.

(** [c == 'T'] *)
Definition cell_is_T (c : cell) : bool :=
  match c with
  | CStr s => String.eqb s "T"
  | _ => false
  end.

(** [l[i]] where the item is mutated in place. *)
Fixpoint replace_nth {A : Type} (l : list A) (i : nat) (v : A) : list A :=
  match l, i with
  | [], _ => []
  | _ :: l', O => v :: l'
  | x :: l', S i' => x :: replace_nth l' i' v
  end.

(** [_delete_specified_rows(main_list, list_of_rows)] *)
Definition _delete_specified_rows {A : Type} (list_of_rows : list nat)
    : M (list A) unit :=
  let indices :=
    fold_left (fun indices row_num => indices ++ [row_num]) list_of_rows [] in
  for_each (sorted_reverse indices)
    (fun i _ =>
       main_list <- get ;;
       main_list' <- lift (list_delitem main_list i) ;;
       put main_list')
    tt.

(** The final state of a computation that ended normally. *)
Definition exec {S A : Type} (c : M S A) (s : S) : outcome S :=
  match c s with
  | (Ok _, s') => Ok s'
  | (Raise e, _) => Raise e
  | (OutOfFuel, _) => OutOfFuel
  end.

Section LoadData.
(** [float(s)] and [int(s)] on a string; [None] is [ValueError]. *)
Variable str_to_float : string -> option Q.
Variable str_to_int : string -> option Z.

(** [float(c)] *)
Definition py_float (c : cell) : outcome Q :=
  match c with
  | CStr s =>
      match str_to_float s with
      | Some x => Ok x
      | None => Raise ValueError
      end
  | CFloat x => Ok x
  | CInt n => Ok (inject_Z n)
  end.

(** [int(c)] *)
Definition py_int (c : cell) : outcome Z :=
  match c with
  | CStr s =>
      match str_to_int s with
      | Some n => Ok n
      | None => Raise ValueError
      end
  | CFloat x => Ok (Z.quot (Qnum x) (Zpos (Qden x)))
  | CInt n => Ok n
  end.

(** [row[col] = float(row[col])] *)
Definition convert_float (col : nat) : M (list cell) unit :=
  row <- get ;;
  c <- lift (list_getitem row col) ;;
  x <- lift (py_float c) ;;
  row' <- lift (list_setitem row col (CFloat x)) ;;
  put row'.

(** [row[col] = int(row[col])] *)
Definition convert_int (col : nat) : M (list cell) unit :=
  row <- get ;;
  c <- lift (list_getitem row col) ;;
  n <- lift (py_int c) ;;
  row' <- lift (list_setitem row col (CInt n)) ;;
  put row'.

(** [if row[flag] == 'T': row[col] = -1 else: row[col] = float(row[col])] *)
Definition convert_trace (flag col : nat) : M (list cell) unit :=
  row <- get ;;
  f <- lift (list_getitem row flag) ;;
  if cell_is_T f then
    row' <- lift (list_setitem row col (CInt (-1))) ;;
    put row'
  else convert_float col.

(** The body of the [try] statement, on the row [file_as_list[row_num]]. *)
Definition convert_row : M (list cell) unit :=
  convert_float LONG ;;;
  convert_float LAT ;;;
  convert_float MEAN_TEMP ;;;
  convert_float MAX_TEMP ;;;
  convert_float MIN_TEMP ;;;
  convert_int YEAR ;;;
  convert_int MONTH ;;;
  convert_int DAY ;;;
  convert_trace TOTAL_PRECIP_FLAG TOTAL_PRECIP ;;;
  convert_trace TOTAL_SNOW_FLAG TOTAL_SNOW ;;;
  convert_trace TOTAL_RAIN_FLAG TOTAL_RAIN.

(** One round of the validation loop: the [try] statement with its
    [except ValueError] clause. Any other exception leaves the loop. *)
Definition check_row (row_num : nat) (rows_to_be_deleted : list nat)
    : M (list (list cell)) (list nat) :=
  fun file_as_list =>
    match list_getitem file_as_list row_num with
    | Ok row =>
        let (o, row') := convert_row row in
        let file_as_list' := replace_nth file_as_list row_num row' in
        match o with
        | Ok _ => (Ok rows_to_be_deleted, file_as_list')
        | Raise ValueError => (Ok (rows_to_be_deleted ++ [row_num]), file_as_list')
        | Raise e => (Raise e, file_as_list')
        | OutOfFuel => (OutOfFuel, file_as_list')
        end
    | Raise e => (Raise e, file_as_list)
    | OutOfFuel => (OutOfFuel, file_as_list)
    end.

(** The first loop: every line is stripped and split. Its condition
    [line != '' or line != '\n'] is kept as written. *)
Definition read_rows (f : list string) : list (list cell) :=
  fold_left
    (fun file_as_list line =>
       if negb (String.eqb line "") || negb (String.eqb line (String newline ""))
       then
         let line_no_newline := strip_newline line in
         let row := split_comma line_no_newline in
         file_as_list ++ [map CStr row]
       else file_as_list)
    f [].

(** The rows left after validation and deletion. *)
Definition surviving_rows (f : list string) : outcome (list (list cell)) :=
  exec (file_as_list <- get ;;
        rows_to_be_deleted <-
          for_each (seq 0 (List.length file_as_list)) check_row [] ;;
        _delete_specified_rows rows_to_be_deleted)
       (read_rows f).

(** [row[col]] read as a number, an integer or a string. *)
Definition number_at {S : Type} (row : list cell) (col : nat) : M S Q :=
  c <- lift (list_getitem row col) ;; lift (as_number c).

Definition integer_at {S : Type} (row : list cell) (col : nat) : M S Z :=
  c <- lift (list_getitem row col) ;; lift (as_integer c).

Definition str_at {S : Type} (row : list cell) (col : nat) : M S string :=
  c <- lift (list_getitem row col) ;; lift (as_str c).

(** The body of the last loop. *)
Definition add_row (row : list cell) : M HistoricalWeather unit :=
  mean_temp <- number_at row MEAN_TEMP ;;
  min_temp <- number_at row MIN_TEMP ;;
  max_temp <- number_at row MAX_TEMP ;;
  total_precip <- number_at row TOTAL_PRECIP ;;
  total_rain <- number_at row TOTAL_RAIN ;;
  total_snow <- number_at row TOTAL_SNOW ;;
  let weather_on_day :=
    DailyWeather_init (mean_temp, min_temp, max_temp)
                      (total_precip, total_rain, total_snow) in
  y <- integer_at row YEAR ;;
  m <- integer_at row MONTH ;;
  d <- integer_at row DAY ;;
  the_date <- lift (new_date y m d) ;;
  add_weather the_date weather_on_day.

(** [HistoricalWeather(file_as_list[0][STN_NAME],
                       (file_as_list[0][LAT], file_as_list[0][LONG]))] *)
Definition first_row_record (file_as_list : list (list cell))
    : M unit HistoricalWeather :=
  row0 <- lift (list_getitem file_as_list 0) ;;
  stn_name <- str_at row0 STN_NAME ;;
  row0' <- lift (list_getitem file_as_list 0) ;;
  lat <- number_at row0' LAT ;;
  row0'' <- lift (list_getitem file_as_list 0) ;;
  long <- number_at row0'' LONG ;;
  ret (HistoricalWeather_init stn_name (lat, long)).

Definition load_data (f : list string) : outcome (option HistoricalWeather) :=
  match surviving_rows f with
  | Ok file_as_list =>
      if (List.length file_as_list =? 0)%nat then Ok None
      else
        match fst (first_row_record file_as_list tt) with
        | Ok weather_record =>
            match exec (for_each file_as_list (fun row _ => add_row row) tt)
                       weather_record with
            | Ok weather_record' => Ok (Some weather_record')
            | Raise e => Raise e
            | OutOfFuel => OutOfFuel
            end
        | Raise e => Raise e
        | OutOfFuel => OutOfFuel
        end
  | Raise e => Raise e
  | OutOfFuel => OutOfFuel
  end.
End LoadData.

(** ** Sample readers of decimal numerals

    Two readers that agree with Python's [int] and [float] on plain decimal
    numerals such as [12], [-3] and [-3.5]; they instantiate the parameters
    of [load_data] in the examples. *)

Definition digit_of (c : ascii) : option Z :=
  let n := nat_of_ascii c in
  if ((48 <=? n) && (n <=? 57))%nat then Some (Z.of_nat (n - 48)) else None.

Fixpoint digits_from (acc : Z) (s : string) : option Z :=
  match s with
  | EmptyString => Some acc
  | String c s' =>
      match digit_of c with
      | Some d => digits_from (10 * acc + d) s'
      | None => None
      end
  end.

Definition natural_of (s : string) : option Z :=
  match s with
  | EmptyString => None
  | _ => digits_from 0 s
  end.

Definition sample_int (s : string) : option Z :=
  match s with
  | String "-" s' => option_map Z.opp (natural_of s')
  | _ => natural_of s
  end.

Fixpoint split_point (whole : string) (s : string) : string * option string :=
  match s with
  | EmptyString => (whole, None)
  | String c s' =>
      if Ascii.eqb c "."%char then (whole, Some s')
      else split_point (whole ++ String c EmptyString) s'
  end.

Definition unsigned_float (s : string) : option Q :=
  match split_point EmptyString s with
  | (whole, None) => option_map inject_Z (natural_of whole)
  | (whole, Some frac) =>
      match natural_of whole, natural_of frac with
      | Some w, Some f =>
          let scale := (10 ^ Z.of_nat (String.length frac))%Z in
          Some (Qmake (w * scale + f) (Z.to_pos scale))
      | _, _ => None
      end
  end.

Definition sample_float (s : string) : option Q :=
  match s with
  | String "-" s' => option_map Qopp (unsigned_float s')
  | _ => unsigned_float s
  end.

(** ** Notions used to state the properties *)

(** [d] is a recorded date whose precipitation is above 0 or is the trace
    marker [-1]. *)
Definition precipitating (records : dict date DailyWeather) (d : date) : bool :=
  match dict_get date_eqb records d with
  | Some w => Qlt_bool 0 (precipitation w) || Qeq_bool (precipitation w) (-1)
  | None => false
  end.

(** The sum of the amounts that are not the trace marker [-1]. *)
Definition total_without_trace (amounts : list Q) : Q :=
  py_sum (filter (fun x => negb (Qeq_bool x (-1))) amounts).

(** The low temperatures of the recorded days of month [m], any year. *)
Definition lows_in_month (records : dict date DailyWeather) (m : Z) : list Q :=
  map (fun kv => low_temp (snd kv))
      (filter (fun kv => (month (fst kv) =? m)%Z) records).

Definition arithmetic_mean (l : list Q) : Q :=
  (py_sum l / inject_Z (Z.of_nat (List.length l)))%Q.

Definition month_abbreviations : list string :=
  ["Jan"; "Feb"; "Mar"; "Apr"; "May"; "Jun";
   "Jul"; "Aug"; "Sep"; "Oct"; "Nov"; "Dec"]%string.

(** ** Sample objects *)

(** The store of [test_record_high]. *)
Definition june_store : HistoricalWeather :=
  snd (add_weather (mkdate 2010 6 4) (DailyWeather_init (0, 0, 30) (0, 0, 0))
    (snd (add_weather (mkdate 2012 6 4) (DailyWeather_init (0, 0, 20) (0, 0, 0))
       (HistoricalWeather_init "City Name" (-1.234, 4.567))))).

(** The store of [test_percentage_snowfall]. *)
Definition november_store : HistoricalWeather :=
  snd (add_weather (mkdate 2012 11 21) (DailyWeather_init (0, 0, 0) (7, 3, 2))
         (HistoricalWeather_init "City Name" (-1.234, 4.567))).

(** What [monthly_average] is to hold for month [m]. *)
Definition month_value (records : dict date DailyWeather) (m : Z) : option Q :=
  match lows_in_month records m with
  | [] => None
  | lows => Some (arithmetic_mean lows)
  end.

(** The [n] calendar-consecutive dates from [start] on are all recorded
    with precipitation. *)
Definition is_run (records : dict date DailyWeather) (start : date) (n : nat) : Prop :=
  forall i, (i < n)%nat -> precipitating records (days_after i start) = true.

(** The store of the docstring of [contiguous_precipitation], from
    2012-06-04 on. *)
Definition rainy_store : HistoricalWeather :=
  snd (add_weather (mkdate 2012 6 7) (DailyWeather_init (0, 0, 0) (1, 0, 0))
    (snd (add_weather (mkdate 2012 6 6) (DailyWeather_init (0, 0, 0) (0, 0, 0))
      (snd (add_weather (mkdate 2012 6 5) (DailyWeather_init (0, 0, 0) (2, 0, 0))
        (snd (add_weather (mkdate 2012 6 4) (DailyWeather_init (0, 0, 0) (1, 0, 0))
           (HistoricalWeather_init "Toronto" (43.6529, -79.3849))))))))).

(** A store whose only record is a day of rain on the last date there is. *)
Definition last_day_store : HistoricalWeather :=
  snd (add_weather date_max (DailyWeather_init (0, 0, 0) (1, 1, 0))
         (HistoricalWeather_init "Toronto" (43.6529, -79.3849))).

(** The country of the docstring of [snowiest_location]. *)
Definition canada : Country :=
  snd (add_history
         (snd (add_weather (mkdate 2020 7 13) (DailyWeather_init (13, 4, 20) (5, 2, 2))
                 (HistoricalWeather_init "Montreal" (45.47, -73.74))))
    (snd (add_history
            (snd (add_weather (mkdate 2020 7 13) (DailyWeather_init (13, 9, 20) (5, 2, 3))
                    (HistoricalWeather_init "YYZ" (43.6529, -79.3849))))
            (Country_init "Canada")))).

(** A country with one location, whose only record has a rainfall of 1 and
    a snowfall of -1/2: both amounts are at least -1, as the invariant of
    [DailyWeather] asks, and the rainfall is above 0, as the precondition
    of [percentage_snowfall] asks. *)
Definition negative_country : Country :=
  snd (add_history
         (snd (add_weather (mkdate 2020 7 13)
                 (DailyWeather_init (0, 0, 0) (1, 1, -(1 # 2)))
                 (HistoricalWeather_init "YYZ" (43.6529, -79.3849))))
         (Country_init "Canada")).

(** The percentage of the location named [location]; 0 when there is no
    such location or its percentage is undefined. *)
Definition percentage_at (c : Country) (location : string) : Q :=
  match dict_get String.eqb (_histories c) location with
  | Some hw =>
      match fst (percentage_snowfall hw) with
      | Ok p => p
      | _ => 0%Q
      end
  | None => 0%Q
  end.

(** ** Rows, as the specification reads them *)

Definition and_then {A B : Type} (o : option A) (k : A -> option B) : option B :=
  match o with
  | Some a => k a
  | None => None
  end.

(** The fields of a line of the file. *)
Definition fields (line : string) : list string :=
  split_comma (strip_newline line).

Section RowSpec.
Variable str_to_float : string -> option Q.
Variable str_to_int : string -> option Z.

(** A field read as a floating-point number; [None] when the field is
    missing or is not a number. *)
Definition float_field (row : list string) (col : nat) : option Q :=
  and_then (nth_error row col) str_to_float.

Definition int_field (row : list string) (col : nat) : option Z :=
  and_then (nth_error row col) str_to_int.

(** A field of the precipitation family: the trace marker [-1] when its
    flag is ["T"], the number it holds otherwise. *)
Definition trace_field (row : list string) (flag col : nat) : option Q :=
  and_then (nth_error row flag)
    (fun f => if String.eqb f "T" then Some (-1)%Q else float_field row col).

(** A well-formed row gives a year, a month, a day and the weather of
    that day; any other row gives nothing. *)
Definition parse_row (row : list string) : option (Z * Z * Z * DailyWeather) :=
  and_then (float_field row LONG) (fun _ =>
  and_then (float_field row LAT) (fun _ =>
  and_then (float_field row MEAN_TEMP) (fun mean_temp =>
  and_then (float_field row MAX_TEMP) (fun max_temp =>
  and_then (float_field row MIN_TEMP) (fun min_temp =>
  and_then (int_field row YEAR) (fun y =>
  and_then (int_field row MONTH) (fun m =>
  and_then (int_field row DAY) (fun d =>
  and_then (trace_field row TOTAL_PRECIP_FLAG TOTAL_PRECIP) (fun total_precip =>
  and_then (trace_field row TOTAL_SNOW_FLAG TOTAL_SNOW) (fun total_snow =>
  and_then (trace_field row TOTAL_RAIN_FLAG TOTAL_RAIN) (fun total_rain =>
  Some (y, m, d,
        {| avg_temp := mean_temp; low_temp := min_temp; high_temp := max_temp;
           precipitation := total_precip; snowfall := total_snow;
           rainfall := total_rain |})))))))))))).

(** What a line adds to the store: the weather of a well-formed row under
    its date, nothing for any other row. *)
Definition add_line (line : string) : M HistoricalWeather unit :=
  match parse_row (fields line) with
  | Some (y, m, d, w) =>
      the_date <- lift (new_date y m d) ;; add_weather the_date w
  | None => ret tt
  end.
End RowSpec.

(** ** Auxiliary notions for the validation loop *)

(** The positions, counted from [k], of the flags that are set. *)
Fixpoint positions (k : nat) (flags : list bool) : list nat :=
  match flags with
  | [] => []
  | b :: flags' =>
      if b then k :: positions (S k) flags' else positions (S k) flags'
  end.

(** The items whose flag is not set. *)
Fixpoint keep {A : Type} (l : list A) (flags : list bool) : list A :=
  match l, flags with
  | x :: l', b :: flags' => if b then keep l' flags' else x :: keep l' flags'
  | _, _ => []
  end.

Section RowOutcomes.
Variable str_to_float : string -> option Q.
Variable str_to_int : string -> option Z.

(** The row of cells read from a line. *)
Definition cells (line : string) : list cell := map CStr (fields line).

(** The [try] statement ended normally on the row. *)
Definition row_ok (row : list cell) : bool :=
  match fst (convert_row str_to_float str_to_int row) with
  | Ok _ => true
  | _ => false
  end.

(** The [try] statement ended with [ValueError]: the row is listed for
    deletion. *)
Definition row_failed (row : list cell) : bool :=
  match fst (convert_row str_to_float str_to_int row) with
  | Raise ValueError => true
  | _ => false
  end.

(** The row as the [try] statement leaves it. *)
Definition row_after (row : list cell) : list cell :=
  snd (convert_row str_to_float str_to_int row).

(** The line gives a well-formed row. *)
Definition parses (line : string) : bool :=
  match parse_row str_to_float str_to_int (fields line) with
  | Some _ => true
  | None => false
  end.

(** Every row ended normally or with [ValueError]. *)
Definition rows_tame (rows : list (list cell)) : bool :=
  forallb (fun row => row_ok row || row_failed row) rows.
End RowOutcomes.

(** ** Sample lines of a file *)

Definition sample_header : string :=
  ("Longitude (x),Latitude (y),Station Name,Climate ID,Date/Time,Year,Month,Day,"
   ++ "Data Quality,Max Temp,Max Temp Flag,Min Temp,Min Temp Flag,Mean Temp,"
   ++ "Mean Temp Flag,Heat Deg Days,Heat Deg Days Flag,Cool Deg Days,"
   ++ "Cool Deg Days Flag,Total Rain (mm),Total Rain Flag,Total Snow (cm),"
   ++ "Total Snow Flag,Total Precip (mm),Total Precip Flag,Snow on Grnd (cm),"
   ++ "Snow on Grnd Flag,Dir of Max Gust,Dir of Max Gust Flag,Spd of Max Gust,"
   ++ "Spd of Max Gust Flag" ++ String newline "")%string.

(** 2020-01-02 in Toronto: mean 1.0, minimum -1.5, maximum 3.5, no rain,
    1.2 cm of snow and a trace of precipitation. *)
Definition sample_line : string :=
  ("-79.4,43.67,TORONTO,615,2020-01-02,2020,1,2,,3.5,,-1.5,,1.0,,17.0,,0.0,,"
   ++ "0.0,,1.2,,0.4,T,,,,,," ++ String newline "")%string.

(** A line with a single field. *)
Definition short_line : string := "5"%string.

(** The sample line with the month 13. *)
Definition bad_date_line : string :=
  ("-79.4,43.67,TORONTO,615,2020-13-02,2020,13,2,,3.5,,-1.5,,1.0,,17.0,,0.0,,"
   ++ "0.0,,1.2,,0.4,T,,,,,," ++ String newline "")%string.

(** ** Auxiliary definitions of the proofs *)

(** What [date(y, m, d)] raises when the three numbers form no date. *)
Definition date_error (y m d : Z) : exn :=
  if fits_c_int y && fits_c_int m && fits_c_int d then ValueError
  else OverflowError.

(** What one round of the loop of [record_high] does to [temp_list]. *)
Definition record_high_step (r : dict date DailyWeather) (m d : Z)
    (key : date) (temp_list : list Q) : list Q :=
  if ((month key =? m) && (day key =? d))%Z then
    match dict_get date_eqb r key with
    | Some w => temp_list ++ [high_temp w]
    | None => temp_list
    end
  else temp_list.

(** What one round of the loop of [percentage_snowfall] does to a total. *)
Definition add_unless_trace (total amount : Q) : Q :=
  if negb (Qeq_bool amount (-1)) then (total + amount)%Q else total.

(** What one round of the outer loop of [monthly_average] does to
    [dictionary]. *)
Definition monthly_step (r : dict date DailyWeather) (m : Z)
    (dictionary : dict string (option Q)) : dict string (option Q) :=
  dict_setitem String.eqb dictionary
    (nth (Z.to_nat m - 1) month_abbreviations ""%string) (month_value r m).

(** What one round of the loop of [snowiest_location] does to the highest
    location and percentage so far. *)
Definition snowiest_step (c : Country) (location : string)
    (highest : string * Q) : string * Q :=
  if Qle_bool (snd highest) (percentage_at c location)
  then (location, percentage_at c location)
  else highest.

(** The order of the calendar. *)
Definition date_lt (a b : date) : Prop :=
  (year a < year b \/
   (year a = year b /\
    (month a < month b \/ (month a = month b /\ day a < day b))))%Z.

(** The count that the [while] loop of [contiguous_precipitation] reaches
    from [d]. *)
Definition run_from (hw : HistoricalWeather) (d : date) : nat :=
  match fst (precipitation_run (S (List.length (dict_keys (_records hw)))) d 0 hw) with
  | Ok n => n
  | _ => 0%nat
  end.

(** A step that can only end normally, keeping the length of the row, or
    with [ValueError] or [IndexError]. *)
Definition benign (c : M (list cell) unit) : Prop :=
  forall st,
    match c st with
    | (Ok _, st') => List.length st' = List.length st
    | (Raise e, _) => e = ValueError \/ e = IndexError
    | (OutOfFuel, _) => False
    end.

(** A step that cannot end normally on a row of fewer than [n] items. *)
Definition needs (n : nat) (c : M (list cell) unit) : Prop :=
  forall st,
    (List.length st < n)%nat ->
    match c st with
    | (Ok _, _) => False
    | (Raise e, _) => e = ValueError \/ e = IndexError
    | (OutOfFuel, _) => False
    end.

(** ** Further notions: sequences of insertions, plausible amounts *)

(** [add_weather] called for each entry in turn. *)
Definition add_all (entries : list (date * DailyWeather)) : M HistoricalWeather unit :=
  for_each entries (fun entry _ => add_weather (fst entry) (snd entry)) tt.

(** An amount is the trace marker or is not negative. *)
Definition trace_or_not_negative (x : Q) : Prop :=
  (x == -1 \/ 0 <= x)%Q.

(** [add_history] called for each history in turn. *)
Definition add_histories (histories : list HistoricalWeather) : M Country unit :=
  for_each histories (fun hw _ => add_history hw) tt.

(** The representation invariant of [Country]: every key is the name of
    the history it maps to. *)
Definition keys_are_names (c : Country) : Prop :=
  forall k hw, dict_get String.eqb (_histories c) k = Some hw -> name hw = k.

(** A country with two locations of the same percentage, 2/5. *)
Definition tied_country : Country :=
  snd (add_history
         (snd (add_weather (mkdate 2020 7 13) (DailyWeather_init (13, 4, 20) (5, 3, 2))
                 (HistoricalWeather_init "Montreal" (45.47, -73.74))))
    (snd (add_history
            (snd (add_weather (mkdate 2020 7 13) (DailyWeather_init (13, 9, 20) (10, 6, 4))
                    (HistoricalWeather_init "YYZ" (43.6529, -79.3849))))
            (Country_init "Canada")))).

(** A country one of whose locations has no record. *)
Definition silent_country : Country :=
  snd (add_history (HistoricalWeather_init "Alert" (82.5, -62.3))
    (snd (add_history
            (snd (add_weather (mkdate 2020 7 13) (DailyWeather_init (13, 9, 20) (5, 2, 3))
                    (HistoricalWeather_init "YYZ" (43.6529, -79.3849))))
            (Country_init "Canada")))).

(** The sample line again, a day warmer: a second row of the same date. *)
Definition sample_line_again : string :=
  ("-79.4,43.67,TORONTO,615,2020-01-02,2020,1,2,,4.5,,-0.5,,2.0,,16.0,,0.0,,"
   ++ "0.0,,1.2,,0.4,T,,,,,," ++ String newline "")%string.

(** A list of indices in strictly descending order. *)
Fixpoint descending (l : list nat) : Prop :=
  match l with
  | [] => True
  | i :: l' => (forall j, In j l' -> (j < i)%nat) /\ descending l'
  end.

(** ** [load_country]

    A folder is the list of its entries in the order in which
    [os.listdir] gives them, each a file name with the lines that
    iterating over the opened file yields; every entry is taken to be a
    readable text file. *)

(** [filename.startswith('.')] *)
Definition startswith_dot (filename : string) : bool :=
  match filename with
  | String c _ => Ascii.eqb c "."
  | EmptyString => false
  end.

Section LoadCountry.
Variable str_to_float : string -> option Q.
Variable str_to_int : string -> option Z.

(** The body of the loop over the entries of the folder. *)
Definition load_country_body (entry : string * list string) : M Country unit :=
  if negb (startswith_dot (fst entry)) then
    history <- lift (load_data str_to_float str_to_int (snd entry)) ;;
    match history with
    | Some hw => add_history hw
    | None => ret tt
    end
  else ret tt.

(** [load_country(folder_name, name)] *)
Definition load_country (folder : list (string * list string)) (n : string)
    : outcome Country :=
  exec (for_each folder (fun entry _ => load_country_body entry) tt)
       (Country_init n).

(** The history of the first entry of the folder, dot files apart, whose
    data is for the location [k]. *)
Fixpoint first_history (folder : list (string * list string)) (k : string)
    : option HistoricalWeather :=
  match folder with
  | [] => None
  | entry :: folder' =>
      if startswith_dot (fst entry) then first_history folder' k
      else match load_data str_to_float str_to_int (snd entry) with
           | Ok (Some hw) =>
               if String.eqb (name hw) k then Some hw else first_history folder' k
           | _ => first_history folder' k
           end
  end.
End LoadCountry.

(** A folder with a dot file that is no table, two files for one station
    and a file with a header only. *)
Definition sample_folder : list (string * list string) :=
  [(".DS_Store", [short_line]);
   ("toronto.csv", [sample_header; sample_line]);
   ("empty.csv", [sample_header]);
   ("toronto_again.csv", [sample_header; sample_line_again])]%string.

(** The sample line with the year 2147483648, one more than a C [int]
    holds. *)
Definition huge_year_line : string :=
  ("-79.4,43.67,TORONTO,615,2020-01-02,2147483648,1,2,,3.5,,-1.5,,1.0,,17.0,,0.0,,"
   ++ "0.0,,1.2,,0.4,T,,,,,," ++ String newline "")%string.

(** * Properties *)

Unset Implicit Arguments.

(** ** The monad *)

Lemma read_only_ret {S A : Type} (a : A) : read_only (@ret S A a).
Proof. intros s; reflexivity. Qed.

Lemma read_only_get {S : Type} : read_only (@get S).
Proof. intros s; reflexivity. Qed.

Lemma read_only_lift {S A : Type} (o : outcome A) : read_only (@lift S A o).
Proof. intros s; reflexivity. Qed.

Lemma read_only_bind {S A B : Type} (c : M S A) (k : A -> M S B) :
  read_only c -> (forall a, read_only (k a)) -> read_only (bind c k).
Proof.
  intros Hc Hk s. unfold bind.
  specialize (Hc s). destruct (c s) as [o s']. simpl in Hc. subst s'.
  destruct o; simpl; auto. apply Hk.
Qed.

Lemma read_only_for_each {S X A : Type} (xs : list X) (body : X -> A -> M S A) :
  (forall x acc, read_only (body x acc)) ->
  forall acc, read_only (for_each xs body acc).
Proof.
  intros Hb. induction xs as [|x xs IH]; intros acc; simpl.
  - apply read_only_ret.
  - apply read_only_bind; auto.
Qed.

Lemma read_only_if {S A : Type} (b : bool) (c1 c2 : M S A) :
  read_only c1 -> read_only c2 -> read_only (if b then c1 else c2).
Proof. destruct b; auto. Qed.

Lemma bind_ok {S A B : Type} (c : M S A) (k : A -> M S B) s a s' :
  c s = (Ok a, s') -> bind c k s = k a s'.
Proof. intros H. unfold bind. rewrite H. reflexivity. Qed.

(** ** Dates *)

Lemma days_in_month_le (y m : Z) : (days_in_month y m <= 31)%Z.
Proof.
  unfold days_in_month.
  destruct (m =? 2)%Z; [destruct (is_leap y); lia|].
  destruct ((m =? 4) || (m =? 6) || (m =? 9) || (m =? 11))%Z; [lia|].
  destruct ((1 <=? m) && (m <=? 12))%Z; lia.
Qed.

Lemma valid_date_fits (y m d : Z) :
  valid_date (mkdate y m d) = true ->
  fits_c_int y && fits_c_int m && fits_c_int d = true.
Proof.
  unfold valid_date, fits_c_int, MINYEAR, MAXYEAR. simpl.
  rewrite !andb_true_iff, !Z.leb_le.
  pose proof (days_in_month_le y m). lia.
Qed.

Lemma new_date_valid (y m d : Z) :
  valid_date (mkdate y m d) = true -> new_date y m d = Ok (mkdate y m d).
Proof.
  intros Hv. unfold new_date. rewrite (valid_date_fits y m d Hv), Hv. reflexivity.
Qed.

Lemma new_date_run (y m d : Z) :
  new_date y m d =
  if valid_date (mkdate y m d) then Ok (mkdate y m d)
  else Raise (date_error y m d).
Proof.
  destruct (valid_date (mkdate y m d)) eqn:Hv; [apply new_date_valid; exact Hv|].
  unfold new_date, date_error. rewrite Hv.
  destruct (fits_c_int y && fits_c_int m && fits_c_int d); reflexivity.
Qed.

Lemma date_eqb_eq (a b : date) : date_eqb a b = true <-> a = b.
Proof.
  destruct a as [y m d], b as [y' m' d']. unfold date_eqb. simpl.
  rewrite !andb_true_iff, !Z.eqb_eq. split.
  - intros [[-> ->] ->]. reflexivity.
  - intros H. injection H as -> -> ->. auto.
Qed.

Lemma date_eqb_refl (a : date) : date_eqb a a = true.
Proof. apply date_eqb_eq. reflexivity. Qed.

Lemma date_eqb_sym (a b : date) : date_eqb a b = date_eqb b a.
Proof.
  destruct (date_eqb a b) eqn:E.
  - apply date_eqb_eq in E. subst. symmetry. apply date_eqb_refl.
  - destruct (date_eqb b a) eqn:E'; auto.
    apply date_eqb_eq in E'. subst. rewrite date_eqb_refl in E. discriminate.
Qed.

(** ** Dictionaries *)

Section DictFacts.
Context {K V : Type}.
Variable eqb : K -> K -> bool.
Hypothesis eqb_eq : forall a b, eqb a b = true <-> a = b.

Lemma eqb_refl_ k : eqb k k = true.
Proof. apply eqb_eq. reflexivity. Qed.

Lemma dict_get_In (d : dict K V) k v :
  dict_get eqb d k = Some v -> In (k, v) d.
Proof.
  induction d as [|[k' v'] d IH]; simpl; [discriminate|].
  destruct (eqb k' k) eqn:E.
  - apply eqb_eq in E. subst. intros [= ->]. auto.
  - auto.
Qed.

Lemma dict_get_In_keys (d : dict K V) k v :
  dict_get eqb d k = Some v -> In k (dict_keys d).
Proof.
  intros H. apply dict_get_In in H. unfold dict_keys.
  change k with (fst (k, v)). apply in_map. exact H.
Qed.

Lemma In_keys_dict_get (d : dict K V) k :
  In k (dict_keys d) -> exists v, dict_get eqb d k = Some v.
Proof.
  induction d as [|[k' v'] d IH]; simpl; [tauto|].
  intros [-> | H].
  - rewrite eqb_refl_. eauto.
  - destruct (eqb k' k); eauto.
Qed.

Lemma dict_get_None_keys (d : dict K V) k :
  dict_get eqb d k = None -> ~ In k (dict_keys d).
Proof.
  intros H Hin. apply In_keys_dict_get in Hin. destruct Hin as [v Hv].
  congruence.
Qed.

Lemma dict_get_wf_In (d : dict K V) k v :
  dict_wf d -> In (k, v) d -> dict_get eqb d k = Some v.
Proof.
  unfold dict_wf. induction d as [|[k' v'] d IH]; simpl; [tauto|].
  intros Hnd [Heq | Hin].
  - injection Heq as -> ->. rewrite eqb_refl_. reflexivity.
  - inversion Hnd as [|? ? Hnotin Hnd']; subst.
    destruct (eqb k' k) eqn:E.
    + apply eqb_eq in E. subst. exfalso. apply Hnotin.
      change k with (fst (k, v)). apply in_map. exact Hin.
    + auto.
Qed.

Lemma dict_get_setitem_same (d : dict K V) k v :
  dict_get eqb (dict_setitem eqb d k v) k = Some v.
Proof.
  induction d as [|[k' v'] d IH]; simpl.
  - rewrite eqb_refl_. reflexivity.
  - destruct (eqb k' k) eqn:E; simpl; rewrite E; auto.
Qed.

Lemma dict_get_setitem_other (d : dict K V) k v k0 :
  k0 <> k -> dict_get eqb (dict_setitem eqb d k v) k0 = dict_get eqb d k0.
Proof.
  intros Hne. induction d as [|[k' v'] d IH]; simpl.
  - destruct (eqb k k0) eqn:E; auto. apply eqb_eq in E. congruence.
  - destruct (eqb k' k) eqn:E; simpl.
    + apply eqb_eq in E. subst k'. destruct (eqb k k0) eqn:E'; auto.
      apply eqb_eq in E'. congruence.
    + destruct (eqb k' k0); auto.
Qed.

Lemma dict_setitem_fresh (d : dict K V) k v :
  dict_get eqb d k = None -> dict_setitem eqb d k v = d ++ [(k, v)].
Proof.
  induction d as [|[k' v'] d IH]; simpl; auto.
  destruct (eqb k' k); [discriminate|]. intros H. rewrite IH; auto.
Qed.

Lemma dict_contains_true (d : dict K V) k :
  dict_contains eqb d k = true <-> In k (dict_keys d).
Proof.
  unfold dict_contains. split.
  - destruct (dict_get eqb d k) eqn:E; [|discriminate].
    intros _. eapply dict_get_In_keys; eauto.
  - intros H. apply In_keys_dict_get in H. destruct H as [v ->]. reflexivity.
Qed.

Lemma dict_wf_setitem_fresh (d : dict K V) k v :
  dict_wf d -> dict_get eqb d k = None -> dict_wf (dict_setitem eqb d k v).
Proof.
  intros Hwf Hnone. rewrite dict_setitem_fresh by assumption.
  unfold dict_wf, dict_keys in *. rewrite map_app. simpl.
  apply dict_get_None_keys in Hnone.
  apply NoDup_app; auto.
  - constructor; [simpl; tauto | constructor].
  - intros a Ha [<- | []]. apply Hnone. exact Ha.
Qed.
End DictFacts.

(** ** [HistoricalWeather]: insertion and lookup *)

Lemma records_getitem_run (key : date) (hw : HistoricalWeather) :
  records_getitem key hw = (dict_getitem date_eqb (_records hw) key, hw).
Proof. reflexivity. Qed.

Lemma records_getitem_ok (key : date) (hw : HistoricalWeather) (w : DailyWeather) :
  dict_get date_eqb (_records hw) key = Some w ->
  records_getitem key hw = (Ok w, hw).
Proof.
  intros H. rewrite records_getitem_run. unfold dict_getitem. rewrite H.
  reflexivity.
Qed.

Lemma add_weather_scan_contains (r : dict date DailyWeather) (d : date) :
  add_weather_scan (dict_keys r) d = dict_contains date_eqb r d.
Proof.
  unfold dict_contains.
  induction r as [|[k v] r IH]; simpl; auto.
  destruct (date_eqb k d); auto.
Qed.

Lemma retrieve_weather_scan_run (hw : HistoricalWeather) (d : date) (keys : list date) :
  incl keys (dict_keys (_records hw)) ->
  retrieve_weather_scan keys d hw =
  (Ok (if existsb (date_eqb d) keys then dict_get date_eqb (_records hw) d else None), hw).
Proof.
  induction keys as [|key keys IH]; intros Hincl; simpl; [reflexivity|].
  destruct (date_eqb d key) eqn:E; simpl.
  - apply date_eqb_eq in E. subst key.
    destruct (In_keys_dict_get _ date_eqb_eq (_records hw) d) as [w Hw].
    { apply Hincl. left. reflexivity. }
    erewrite bind_ok by (apply records_getitem_ok; eassumption).
    rewrite Hw. reflexivity.
  - apply IH. intros k Hk. apply Hincl. right. exact Hk.
Qed.

Lemma retrieve_weather_run (hw : HistoricalWeather) (d : date) :
  retrieve_weather d hw = (Ok (dict_get date_eqb (_records hw) d), hw).
Proof.
  unfold retrieve_weather. erewrite bind_ok by reflexivity.
  rewrite retrieve_weather_scan_run by apply incl_refl.
  destruct (existsb (date_eqb d) (dict_keys (_records hw))) eqn:E; [reflexivity|].
  destruct (dict_get date_eqb (_records hw) d) as [w|] eqn:G; [|reflexivity].
  apply (dict_get_In_keys _ date_eqb_eq) in G.
  assert (existsb (date_eqb d) (dict_keys (_records hw)) = true) as E'.
  { apply existsb_exists. exists d. split; [exact G | apply date_eqb_refl]. }
  congruence.
Qed.

Lemma add_weather_run (hw : HistoricalWeather) (d : date) (w : DailyWeather) :
  add_weather d w hw =
  (Ok tt,
   match dict_get date_eqb (_records hw) d with
   | Some _ => hw
   | None => set_records hw (_records hw ++ [(d, w)])
   end).
Proof.
  unfold add_weather. erewrite bind_ok by reflexivity.
  rewrite add_weather_scan_contains. unfold dict_contains.
  destruct (dict_get date_eqb (_records hw) d) eqn:G; [reflexivity|].
  unfold put. rewrite (dict_setitem_fresh _ _ _ _ G). reflexivity.
Qed.

Lemma dict_get_app_fresh (r : dict date DailyWeather) (d : date) (w : DailyWeather) :
  dict_get date_eqb r d = None ->
  dict_get date_eqb (r ++ [(d, w)]) d = Some w.
Proof.
  intros H. rewrite <- (dict_setitem_fresh date_eqb r d w H).
  apply (dict_get_setitem_same _ date_eqb_eq).
Qed.

(** Well-formedness is kept by insertion, so every store built from an
    empty one has distinct dates. *)
Lemma add_weather_wf (hw : HistoricalWeather) (d : date) (w : DailyWeather) :
  dict_wf (_records hw) -> dict_wf (_records (snd (add_weather d w hw))).
Proof.
  intros Hwf. rewrite add_weather_run. simpl.
  destruct (dict_get date_eqb (_records hw) d) eqn:G; [exact Hwf|].
  simpl. rewrite <- (dict_setitem_fresh date_eqb _ d w G).
  apply (dict_wf_setitem_fresh _ date_eqb_eq); assumption.
Qed.

(** C7. After [add_weather d w] the call has returned normally; on a store
    that did not contain [d], [retrieve_weather d] then returns [w]; on a
    store that already held [w0] at [d], the object is unchanged and
    [retrieve_weather d] still returns [w0]. *)
Theorem add_weather_retrieve_weather
    (hw : HistoricalWeather) (d : date) (w : DailyWeather) :
  let hw' := snd (add_weather d w hw) in
  fst (add_weather d w hw) = Ok tt /\
  match dict_get date_eqb (_records hw) d with
  | None => retrieve_weather d hw' = (Ok (Some w), hw')
  | Some w0 => hw' = hw /\ retrieve_weather d hw' = (Ok (Some w0), hw')
  end.
Proof.
  cbv zeta. rewrite add_weather_run. simpl. split; [reflexivity|].
  destruct (dict_get date_eqb (_records hw) d) as [w0|] eqn:G.
  - split; [reflexivity|]. rewrite retrieve_weather_run, G. reflexivity.
  - rewrite retrieve_weather_run. simpl.
    rewrite (dict_get_app_fresh _ _ w G). reflexivity.
Qed.

(** ** The queries leave the object unchanged *)

Ltac ro_step :=
  first [ apply read_only_ret | apply read_only_get | apply read_only_lift
        | apply read_only_bind | apply read_only_for_each
        | apply read_only_if | intro | progress cbv zeta ].
Ltac ro := repeat ro_step.

Lemma read_only_records_getitem (key : date) : read_only (records_getitem key).
Proof. unfold records_getitem. ro. Qed.

Lemma read_only_retrieve_weather_scan (keys : list date) (d : date) :
  read_only (retrieve_weather_scan keys d).
Proof.
  induction keys as [|key keys IH]; simpl.
  - ro.
  - apply read_only_if; [|exact IH].
    apply read_only_bind; [apply read_only_records_getitem | ro].
Qed.

Lemma read_only_precipitation_test (dummy_key : date) :
  read_only (precipitation_test dummy_key).
Proof.
  unfold precipitation_test.
  repeat (ro; try apply read_only_records_getitem).
Qed.

Lemma read_only_precipitation_run (fuel : nat) :
  forall dummy_key count, read_only (precipitation_run fuel dummy_key count).
Proof.
  induction fuel as [|fuel IH]; intros dummy_key count; simpl.
  - ro.
  - apply read_only_bind; [apply read_only_precipitation_test|].
    intros [|]; [|ro]. apply read_only_bind; [ro|]. intros d'. apply IH.
Qed.

Lemma read_only_record_high (m d : Z) : read_only (record_high m d).
Proof. unfold record_high. repeat (ro; try apply read_only_records_getitem). Qed.

Lemma read_only_monthly_average : read_only monthly_average.
Proof. unfold monthly_average. repeat (ro; try apply read_only_records_getitem). Qed.

Lemma read_only_contiguous_precipitation : read_only contiguous_precipitation.
Proof.
  unfold contiguous_precipitation.
  repeat (ro; try apply read_only_precipitation_run).
Qed.

Lemma read_only_percentage_snowfall : read_only percentage_snowfall.
Proof.
  unfold percentage_snowfall. repeat (ro; try apply read_only_records_getitem).
Qed.

Lemma read_only_retrieve_weather (d : date) : read_only (retrieve_weather d).
Proof.
  unfold retrieve_weather. apply read_only_bind; [ro|].
  intros self. apply read_only_retrieve_weather_scan.
Qed.

(** C10. Each of [record_high], [monthly_average],
    [contiguous_precipitation], [percentage_snowfall] and
    [retrieve_weather] ends, normally or not, with the object (name,
    coordinates and the whole store) equal to the one it started with. *)
Theorem queries_leave_object_unchanged (hw : HistoricalWeather) :
  (forall m d, snd (record_high m d hw) = hw) /\
  snd (monthly_average hw) = hw /\
  snd (contiguous_precipitation hw) = hw /\
  snd (percentage_snowfall hw) = hw /\
  (forall d, snd (retrieve_weather d hw) = hw).
Proof.
  repeat split; intros.
  - apply read_only_record_high.
  - apply read_only_monthly_average.
  - apply read_only_contiguous_precipitation.
  - apply read_only_percentage_snowfall.
  - apply read_only_retrieve_weather.
Qed.

(** ** Loops whose body only reads the object *)

Lemma for_each_pure {S X A : Type} (xs : list X) (body : X -> A -> M S A)
    (f : X -> A -> A) (s : S) :
  (forall x acc, In x xs -> body x acc s = (Ok (f x acc), s)) ->
  forall acc,
    for_each xs body acc s = (Ok (fold_left (fun a x => f x a) xs acc), s).
Proof.
  induction xs as [|x xs IH]; intros Hb acc; simpl; [reflexivity|].
  erewrite bind_ok by (apply Hb; left; reflexivity).
  apply IH. intros y a Hy. apply Hb. right. exact Hy.
Qed.

(** A fold over the keys that looks every key up is a fold over the
    entries, in a dictionary without repeated keys. *)
Lemma fold_keys_entries {A : Type} (r : dict date DailyWeather)
    (g : date -> DailyWeather -> A -> A) :
  dict_wf r ->
  forall acc,
    fold_left (fun a k => match dict_get date_eqb r k with
                          | Some w => g k w a
                          | None => a
                          end) (dict_keys r) acc
    = fold_left (fun a kv => g (fst kv) (snd kv) a) r acc.
Proof.
  intros Hwf.
  assert (H : forall entries, incl entries r -> forall acc,
             fold_left (fun a k => match dict_get date_eqb r k with
                                   | Some w => g k w a
                                   | None => a
                                   end) (dict_keys entries) acc
             = fold_left (fun a kv => g (fst kv) (snd kv) a) entries acc).
  { induction entries as [|[k w] entries IH]; intros Hincl acc; simpl; auto.
    rewrite (dict_get_wf_In _ date_eqb_eq r k w Hwf) by (apply Hincl; left; reflexivity).
    apply IH. intros x Hx. apply Hincl. right. exact Hx. }
  apply H, incl_refl.
Qed.

(** ** [max] *)

Section MaxFacts.
Context {A : Type}.
Variable le : A -> A -> Prop.
Variable gtb : A -> A -> bool.
Hypothesis le_refl : forall x, le x x.
Hypothesis le_trans : forall x y z, le x y -> le y z -> le x z.
Hypothesis gtb_true : forall item best, gtb item best = true -> le best item.
Hypothesis gtb_false : forall item best, gtb item best = false -> le item best.

Lemma max_from_spec (l : list A) :
  forall best,
    In (max_from gtb best l) (best :: l) /\
    le best (max_from gtb best l) /\
    forall y, In y l -> le y (max_from gtb best l).
Proof.
  induction l as [|item l IH]; intros best; simpl.
  - split; [auto|]. split; [apply le_refl|]. tauto.
  - destruct (IH (if gtb item best then item else best)) as (Hin & Hle & Hall).
    destruct (gtb item best) eqn:E.
    + split; [simpl in Hin; tauto|]. split.
      * eapply le_trans; [apply gtb_true; exact E | exact Hle].
      * intros y [<- | Hy]; auto.
    + split; [simpl in Hin; tauto|]. split; [exact Hle|].
      intros y [<- | Hy]; auto.
      eapply le_trans; [apply gtb_false; exact E | exact Hle].
Qed.

Lemma py_max_spec (l : list A) :
  l <> [] ->
  exists v, py_max gtb l = Ok v /\ In v l /\ forall y, In y l -> le y v.
Proof.
  destruct l as [|x l]; [congruence|]. intros _. simpl.
  destruct (max_from_spec l x) as (Hin & Hle & Hall).
  eexists. split; [reflexivity|]. split; [exact Hin|].
  intros y [<- | Hy]; auto.
Qed.
End MaxFacts.

Lemma Qlt_bool_true (x y : Q) : Qlt_bool x y = true -> (x <= y)%Q.
Proof.
  unfold Qlt_bool. rewrite negb_true_iff. intros H.
  apply Qlt_le_weak. apply Qnot_le_lt. intros Hle.
  apply Qle_bool_iff in Hle. congruence.
Qed.

Lemma Qlt_bool_false (x y : Q) : Qlt_bool x y = false -> (y <= x)%Q.
Proof.
  unfold Qlt_bool. rewrite negb_false_iff. apply Qle_bool_iff.
Qed.

Lemma py_max_Q (l : list Q) :
  l <> [] ->
  exists v, py_max (fun item best => Qlt_bool best item) l = Ok v /\
            In v l /\ forall y, In y l -> (y <= v)%Q.
Proof.
  apply (py_max_spec Qle).
  - apply Qle_refl.
  - apply Qle_trans.
  - intros item best. apply Qlt_bool_true.
  - intros item best. apply Qlt_bool_false.
Qed.

(** ** [record_high] *)

Lemma record_high_step_In (r : dict date DailyWeather) (m d : Z) (keys : list date) :
  forall acc x,
    In x (fold_left (fun a k => record_high_step r m d k a) keys acc) <->
    In x acc \/
    exists key w, In key keys /\ dict_get date_eqb r key = Some w /\
                  month key = m /\ day key = d /\ high_temp w = x.
Proof.
  induction keys as [|key keys IH]; intros acc x; simpl.
  - split; [auto|]. intros [H | (k & w & [] & _)]. exact H.
  - rewrite IH. unfold record_high_step at 1.
    destruct ((month key =? m) && (day key =? d))%Z eqn:E.
    + apply andb_true_iff in E. destruct E as [Em Ed].
      apply Z.eqb_eq in Em, Ed.
      destruct (dict_get date_eqb r key) as [w|] eqn:G.
      * rewrite in_app_iff. simpl. split.
        -- intros [[H | [H | []]] | (k & w' & Hk & Hrest)].
           ++ auto.
           ++ right. exists key, w. auto.
           ++ right. exists k, w'. auto.
        -- intros [H | (k & w' & [Hk | Hk] & Hg & Hm & Hd & Hx)].
           ++ auto.
           ++ subst k. left. right. left. congruence.
           ++ right. exists k, w'. auto.
      * split.
        -- intros [H | (k & w' & Hk & Hrest)]; [auto|].
           right. exists k, w'. auto.
        -- intros [H | (k & w' & [Hk | Hk] & Hg & Hrest)]; [auto| |].
           ++ subst k. congruence.
           ++ right. exists k, w'. auto.
    + split.
      * intros [H | (k & w' & Hk & Hrest)]; [auto|].
        right. exists k, w'. auto.
      * intros [H | (k & w' & [Hk | Hk] & Hg & Hm & Hd & Hx)]; [auto| |].
        -- subst k. rewrite Hm, Hd, !Z.eqb_refl in E. discriminate.
        -- right. exists k, w'. auto.
Qed.

Lemma record_high_run (hw : HistoricalWeather) (m d : Z) :
  record_high m d hw =
  (py_max (fun item best => Qlt_bool best item)
     (fold_left (fun a k => record_high_step (_records hw) m d k a)
        (dict_keys (_records hw)) []), hw).
Proof.
  unfold record_high. erewrite bind_ok by reflexivity.
  erewrite bind_ok.
  2:{ apply for_each_pure with (f := record_high_step (_records hw) m d).
      intros key acc Hkey. unfold record_high_step.
      destruct ((month key =? m) && (day key =? d))%Z; [|reflexivity].
      destruct (In_keys_dict_get _ date_eqb_eq _ _ Hkey) as [w Hw].
      erewrite bind_ok by (apply records_getitem_ok; exact Hw).
      rewrite Hw. reflexivity. }
  reflexivity.
Qed.

(** C2. When some recorded date has month [m] and day [d], [record_high m d]
    returns a value [v] that is the [high_temp] of a record of that month
    and day and that no such record, of any year, exceeds. (The ranges of
    [m] and [d] are not needed.) *)
Theorem record_high_is_maximum (hw : HistoricalWeather) (m d : Z) :
  (exists key, In key (dict_keys (_records hw)) /\ month key = m /\ day key = d) ->
  exists v,
    record_high m d hw = (Ok v, hw) /\
    (exists key w, dict_get date_eqb (_records hw) key = Some w /\
                   month key = m /\ day key = d /\ high_temp w = v) /\
    (forall key w, dict_get date_eqb (_records hw) key = Some w ->
                   month key = m -> day key = d -> (high_temp w <= v)%Q).
Proof.
  intros (key0 & Hin0 & Hm0 & Hd0).
  rewrite record_high_run.
  set (temp_list := fold_left _ _ _).
  destruct (In_keys_dict_get _ date_eqb_eq _ _ Hin0) as [w0 Hw0].
  assert (Hne : temp_list <> []).
  { assert (In (high_temp w0) temp_list) as Hin.
    { apply record_high_step_In. right. exists key0, w0. auto. }
    intros Hnil. rewrite Hnil in Hin. exact Hin. }
  destruct (py_max_Q temp_list Hne) as (v & Hv & Hvin & Hvmax).
  exists v. rewrite Hv. split; [reflexivity|]. split.
  - apply record_high_step_In in Hvin.
    destruct Hvin as [[] | (key & w & _ & Hg & Hm & Hd & Hx)].
    exists key, w. auto.
  - intros key w Hg Hm Hd. apply Hvmax.
    apply record_high_step_In. right. exists key, w.
    split; [eapply dict_get_In_keys; [apply date_eqb_eq | exact Hg]|]. auto.
Qed.

Lemma record_high_is_maximum_witness :
  exists v,
    record_high 6 4 june_store = (Ok v, june_store) /\
    (exists key w, dict_get date_eqb (_records june_store) key = Some w /\
                   month key = 6%Z /\ day key = 4%Z /\ high_temp w = v) /\
    (forall key w, dict_get date_eqb (_records june_store) key = Some w ->
                   month key = 6%Z -> day key = 4%Z -> (high_temp w <= v)%Q).
Proof.
  apply (record_high_is_maximum june_store 6 4).
  exists (mkdate 2012 6 4). simpl. auto.
Defined.

(** ** [percentage_snowfall] *)

Lemma fold_add_unless_trace (amounts : list Q) :
  forall total,
    fold_left add_unless_trace amounts total
    = fold_left Qplus (filter (fun x => negb (Qeq_bool x (-1))) amounts) total.
Proof.
  induction amounts as [|x amounts IH]; intros total; simpl; [reflexivity|].
  rewrite IH. unfold add_unless_trace at 1.
  destruct (negb (Qeq_bool x (-1))); reflexivity.
Qed.

Lemma percentage_totals_entries (entries : dict date DailyWeather) :
  forall totals,
    fold_left (fun a kv =>
                 (add_unless_trace (fst a) (snowfall (snd kv)),
                  add_unless_trace (snd a) (rainfall (snd kv))))
              entries totals
    = (fold_left add_unless_trace (map snowfall (dict_values entries)) (fst totals),
       fold_left add_unless_trace (map rainfall (dict_values entries)) (snd totals)).
Proof.
  induction entries as [|[k w] entries IH]; intros [ts tr]; simpl; [reflexivity|].
  rewrite IH. reflexivity.
Qed.

Lemma percentage_snowfall_run (hw : HistoricalWeather) :
  dict_wf (_records hw) ->
  percentage_snowfall hw =
  (py_truediv (total_without_trace (map snowfall (dict_values (_records hw))))
     (total_without_trace (map snowfall (dict_values (_records hw)))
      + total_without_trace (map rainfall (dict_values (_records hw))))%Q, hw).
Proof.
  intros Hwf. unfold percentage_snowfall. erewrite bind_ok by reflexivity.
  erewrite bind_ok.
  2:{ apply for_each_pure with
        (f := fun key a =>
                match dict_get date_eqb (_records hw) key with
                | Some w => (add_unless_trace (fst a) (snowfall w),
                             add_unless_trace (snd a) (rainfall w))
                | None => a
                end).
      intros key acc Hkey.
      destruct (In_keys_dict_get _ date_eqb_eq _ _ Hkey) as [w Hw].
      rewrite Hw.
      unfold add_unless_trace.
      cbv [bind records_getitem get lift ret dict_getitem].
      repeat (rewrite Hw; cbv beta iota).
      destruct (negb (Qeq_bool (rainfall w) (-1)));
        repeat (rewrite Hw; cbv beta iota);
        destruct (negb (Qeq_bool (snowfall w) (-1)));
        repeat (rewrite Hw; cbv beta iota);
        reflexivity. }
  rewrite (fold_keys_entries (_records hw)
             (fun _ w a => (add_unless_trace (fst a) (snowfall w),
                            add_unless_trace (snd a) (rainfall w))) Hwf).
  rewrite percentage_totals_entries. simpl fst. simpl snd.
  rewrite !fold_add_unless_trace. reflexivity.
Qed.

(** C5. With [S] the sum of the snowfall amounts other than [-1] and [R]
    the sum of the rainfall amounts other than [-1] over all records, when
    [S + R] is not zero [percentage_snowfall] returns [S / (S + R)]. *)
Theorem percentage_snowfall_value (hw : HistoricalWeather) :
  dict_wf (_records hw) ->
  let S := total_without_trace (map snowfall (dict_values (_records hw))) in
  let R := total_without_trace (map rainfall (dict_values (_records hw))) in
  ~ (S + R == 0)%Q ->
  percentage_snowfall hw = (Ok (S / (S + R))%Q, hw).
Proof.
  intros Hwf S R Hnz. rewrite percentage_snowfall_run by exact Hwf.
  fold S R. unfold py_truediv.
  destruct (Qeq_bool (S + R) 0) eqn:E; [|reflexivity].
  apply Qeq_bool_iff in E. contradiction.
Qed.

Lemma november_store_wf : dict_wf (_records november_store).
Proof. repeat constructor. simpl. tauto. Defined.

Lemma percentage_snowfall_value_witness :
  percentage_snowfall november_store = (Ok ((0 + 2) / (0 + 2 + (0 + 3)))%Q, november_store).
Proof.
  apply (percentage_snowfall_value november_store november_store_wf).
  intros H. vm_compute in H. discriminate H.
Defined.

(** ** [monthly_average] *)

Lemma lows_entries (m : Z) (entries : dict date DailyWeather) :
  forall acc,
    fold_left (fun a kv => if (month (fst kv) =? m)%Z
                           then a ++ [low_temp (snd kv)] else a) entries acc
    = acc ++ lows_in_month entries m.
Proof.
  unfold lows_in_month.
  induction entries as [|[k w] entries IH]; intros acc; simpl.
  - rewrite app_nil_r. reflexivity.
  - rewrite IH. destruct (month k =? m)%Z; simpl; [|reflexivity].
    rewrite <- app_assoc. reflexivity.
Qed.

Lemma inject_Z_length_nonzero {A : Type} (x : A) (l : list A) :
  Qeq_bool (inject_Z (Z.of_nat (List.length (x :: l)))) 0 = false.
Proof.
  destruct (Qeq_bool _ 0) eqn:E; [|reflexivity].
  apply Qeq_bool_iff in E. unfold Qeq in E. simpl in E. lia.
Qed.

Lemma monthly_lows_run (hw : HistoricalWeather) (m : Z) :
  dict_wf (_records hw) ->
  for_each (dict_keys (_records hw))
    (fun key list_of_mins =>
       if (month key =? m)%Z
       then bind (records_getitem key) (fun w => ret (list_of_mins ++ [low_temp w]))
       else ret list_of_mins) [] hw
  = (Ok (lows_in_month (_records hw) m), hw).
Proof.
  intros Hwf.
  rewrite for_each_pure with
    (f := fun key a => match dict_get date_eqb (_records hw) key with
                       | Some w => if (month key =? m)%Z
                                   then a ++ [low_temp w] else a
                       | None => a
                       end).
  - rewrite (fold_keys_entries (_records hw)
               (fun k w a => if (month k =? m)%Z then a ++ [low_temp w] else a) Hwf).
    rewrite lows_entries. reflexivity.
  - intros key acc Hkey.
    destruct (In_keys_dict_get _ date_eqb_eq _ _ Hkey) as [w Hw].
    rewrite Hw. destruct (month key =? m)%Z; [|reflexivity].
    erewrite bind_ok by (apply records_getitem_ok; exact Hw). reflexivity.
Qed.

Lemma monthly_average_run (hw : HistoricalWeather) :
  dict_wf (_records hw) ->
  monthly_average hw =
  (Ok (fold_left (fun a m => monthly_step (_records hw) m a) (py_range 1 13) []), hw).
Proof.
  intros Hwf. unfold monthly_average.
  apply for_each_pure. intros m dictionary Hm.
  assert (Hdate : new_date 2000 m 20 = Ok (mkdate 2000 m 20)).
  { vm_compute in Hm.
    repeat (destruct Hm as [<- | Hm]; [reflexivity|]). contradiction. }
  erewrite bind_ok by (unfold lift; rewrite Hdate; reflexivity).
  erewrite bind_ok by reflexivity.
  erewrite bind_ok by (apply monthly_lows_run; exact Hwf).
  unfold monthly_step, month_value.
  destruct (lows_in_month (_records hw) m) as [|x lows] eqn:E.
  - reflexivity.
  - change (0 <? List.length (x :: lows))%nat with true. cbv iota.
    unfold py_truediv. rewrite inject_Z_length_nonzero.
    reflexivity.
Qed.

(** C3. [monthly_average] returns a dictionary whose keys are exactly
    [Jan] .. [Dec]; the month numbered [m] maps to the arithmetic mean of
    the low temperatures of the recorded days of that month when there is
    one, and to [None] when there is none. *)
Theorem monthly_average_result (hw : HistoricalWeather) :
  dict_wf (_records hw) ->
  exists result,
    monthly_average hw = (Ok result, hw) /\
    dict_keys result = month_abbreviations /\
    forall m, (1 <= m <= 12)%Z ->
      dict_get String.eqb result (nth (Z.to_nat m - 1) month_abbreviations ""%string)
      = Some (match lows_in_month (_records hw) m with
              | [] => None
              | lows => Some (arithmetic_mean lows)
              end).
Proof.
  intros Hwf. eexists. split; [apply monthly_average_run; exact Hwf|].
  change (py_range 1 13) with [1; 2; 3; 4; 5; 6; 7; 8; 9; 10; 11; 12]%Z.
  cbn -[month_value]. split; [reflexivity|].
  intros m Hm. fold (month_value (_records hw) m).
  assert (m = 1 \/ m = 2 \/ m = 3 \/ m = 4 \/ m = 5 \/ m = 6 \/ m = 7 \/ m = 8
          \/ m = 9 \/ m = 10 \/ m = 11 \/ m = 12)%Z as Hcases by lia.
  repeat (destruct Hcases as [-> | Hcases]; [reflexivity|]).
  subst m. reflexivity.
Qed.

Lemma june_store_wf : dict_wf (_records june_store).
Proof.
  repeat constructor; simpl; try tauto.
  intros [H | []]. discriminate H.
Defined.

Lemma monthly_average_result_witness :
  exists result,
    monthly_average june_store = (Ok result, june_store) /\
    dict_keys result = month_abbreviations /\
    forall m, (1 <= m <= 12)%Z ->
      dict_get String.eqb result (nth (Z.to_nat m - 1) month_abbreviations ""%string)
      = Some (match lows_in_month (_records june_store) m with
              | [] => None
              | lows => Some (arithmetic_mean lows)
              end).
Proof. exact (monthly_average_result june_store june_store_wf). Defined.

(** ** [contiguous_precipitation] *)

(** *** The calendar *)

Lemma date_lt_irrefl (a : date) : ~ date_lt a a.
Proof. unfold date_lt. lia. Qed.

Lemma date_lt_trans (a b c : date) : date_lt a b -> date_lt b c -> date_lt a c.
Proof. unfold date_lt. lia. Qed.

Lemma next_day_later (d : date) : date_lt d (next_day d).
Proof.
  unfold next_day, date_lt.
  destruct (day d <? days_in_month (year d) (month d))%Z; simpl; [lia|].
  destruct (month d <? 12)%Z; simpl; lia.
Qed.

Lemma days_after_later (k : nat) (d : date) :
  date_lt d (days_after (S k) d).
Proof.
  induction k as [|k IH].
  - apply next_day_later.
  - eapply date_lt_trans; [exact IH|]. apply next_day_later.
Qed.

Lemma days_after_next (k : nat) (d : date) :
  days_after k (next_day d) = next_day (days_after k d).
Proof. induction k as [|k IH]; simpl; congruence. Qed.

Lemma days_after_add (i k : nat) (d : date) :
  days_after (k + i) d = days_after k (days_after i d).
Proof. induction k as [|k IH]; simpl; congruence. Qed.

Lemma days_after_inj (i j : nat) (d : date) :
  (i < j)%nat -> days_after i d <> days_after j d.
Proof.
  intros Hlt Heq.
  replace j with (S (j - i - 1) + i)%nat in Heq by lia.
  rewrite days_after_add in Heq.
  apply (date_lt_irrefl (days_after i d)).
  rewrite Heq at 2. apply days_after_later.
Qed.

Lemma NoDup_days (d : date) (n : nat) :
  forall a, NoDup (map (fun i => days_after i d) (seq a n)).
Proof.
  induction n as [|n IH]; intros a; simpl; constructor; [|apply IH].
  intros Hin. apply in_map_iff in Hin. destruct Hin as (j & Hj & Hin).
  apply in_seq in Hin. apply (days_after_inj a j d); [lia | congruence].
Qed.

Lemma days_in_december (y : Z) : days_in_month y 12 = 31%Z.
Proof. reflexivity. Qed.

Lemma next_day_in_range (d : date) :
  valid_date d = true -> d <> date_max ->
  (MAXYEAR <? year (next_day d))%Z = false.
Proof.
  destruct d as [y m dd]. unfold valid_date, next_day, MINYEAR, MAXYEAR. simpl.
  rewrite !andb_true_iff, !Z.leb_le. intros (((((Hy1 & Hy2) & Hm1) & Hm2) & Hd1) & Hd2) Hne.
  apply Z.ltb_ge.
  destruct (dd <? days_in_month y m)%Z eqn:E1; simpl; [lia|].
  destruct (m <? 12)%Z eqn:E2; simpl; [lia|].
  apply Z.ltb_ge in E1, E2.
  assert (m = 12%Z) by lia. subst m.
  rewrite days_in_december in *.
  assert (dd = 31%Z) by lia. subst dd.
  destruct (Z.eq_dec y 9999) as [-> | Hy]; [|lia].
  exfalso. apply Hne. reflexivity.
Qed.

(** *** The loop *)

Lemma precipitation_test_run (hw : HistoricalWeather) (d : date) :
  precipitation_test d hw = (Ok (precipitating (_records hw) d), hw).
Proof.
  unfold precipitation_test, precipitating, dict_contains.
  cbv [bind records_getitem get lift ret dict_getitem].
  destruct (dict_get date_eqb (_records hw) d) as [w|] eqn:G;
    cbv beta iota; rewrite ?G; [|reflexivity].
  destruct (Qlt_bool 0 (precipitation w)); cbv beta iota; rewrite ?G;
    reflexivity.
Qed.

Lemma precipitating_key (r : dict date DailyWeather) (d : date) :
  precipitating r d = true -> In d (dict_keys r).
Proof.
  unfold precipitating. destruct (dict_get date_eqb r d) as [w|] eqn:G;
    [|discriminate].
  intros _. eapply dict_get_In_keys; [apply date_eqb_eq | exact G].
Qed.

Lemma is_run_bounded (r : dict date DailyWeather) (d : date) (n : nat) :
  is_run r d n -> (n <= List.length r)%nat.
Proof.
  intros Hrun.
  assert (H : (List.length (map (fun i => days_after i d) (seq 0 n))
               <= List.length (dict_keys r))%nat).
  { apply NoDup_incl_length; [apply NoDup_days|].
    intros x Hx. apply in_map_iff in Hx. destruct Hx as (i & <- & Hi).
    apply in_seq in Hi. apply precipitating_key. apply Hrun. lia. }
  unfold dict_keys in H. rewrite !length_map, length_seq in H. exact H.
Qed.

Lemma is_run_step (r : dict date DailyWeather) (d : date) (n : nat) :
  precipitating r d = true -> is_run r (next_day d) n -> is_run r d (S n).
Proof.
  intros Hd Hrun [|i] Hi; simpl; [exact Hd|].
  rewrite <- days_after_next. apply Hrun. lia.
Qed.

Section Runs.
Variable hw : HistoricalWeather.
Hypothesis keys_valid :
  forall key, In key (dict_keys (_records hw)) -> valid_date key = true.
Hypothesis last_day_dry : precipitating (_records hw) date_max = false.

Lemma add_one_day_ok (d : date) :
  precipitating (_records hw) d = true -> add_one_day d = Ok (next_day d).
Proof.
  intros Hd. unfold add_one_day.
  rewrite next_day_in_range; [reflexivity | |].
  - apply keys_valid, precipitating_key, Hd.
  - intros ->. congruence.
Qed.

Lemma precipitation_run_cases (fuel : nat) :
  forall d count,
    (exists n, (n < fuel)%nat /\
               precipitation_run fuel d count hw = (Ok (count + n)%nat, hw) /\
               is_run (_records hw) d n /\
               precipitating (_records hw) (days_after n d) = false)
    \/ (precipitation_run fuel d count hw = (OutOfFuel, hw) /\
        is_run (_records hw) d fuel).
Proof.
  induction fuel as [|fuel IH]; intros d count; simpl.
  - right. split; [reflexivity|]. intros i Hi. lia.
  - erewrite bind_ok by apply precipitation_test_run.
    destruct (precipitating (_records hw) d) eqn:Hd.
    + erewrite bind_ok by (unfold lift; rewrite (add_one_day_ok d Hd); reflexivity).
      destruct (IH (next_day d) (S count)) as [(n & Hn & Hrun & Hr & Hstop) | (Hout & Hr)].
      * left. exists (S n). split; [lia|]. split.
        -- rewrite Hrun. f_equal. f_equal. lia.
        -- split; [apply is_run_step; assumption|].
           simpl. rewrite <- days_after_next. exact Hstop.
      * right. split; [exact Hout|]. apply is_run_step; assumption.
    + left. exists 0%nat. split; [lia|]. split.
      * rewrite Nat.add_0_r. reflexivity.
      * split; [intros i Hi; lia | exact Hd].
Qed.

(** The loop ends within its bound, with the length of the longest run
    that starts at [d]. *)
Lemma precipitation_run_ok (d : date) :
  exists n,
    precipitation_run (S (List.length (dict_keys (_records hw)))) d 0 hw = (Ok n, hw) /\
    is_run (_records hw) d n /\
    precipitating (_records hw) (days_after n d) = false.
Proof.
  destruct (precipitation_run_cases (S (List.length (dict_keys (_records hw)))) d 0)
    as [(n & Hn & Hrun & Hr & Hstop) | (Hout & Hr)].
  - exists n. auto.
  - apply is_run_bounded in Hr. unfold dict_keys in Hr.
    rewrite length_map in Hr. lia.
Qed.

Lemma run_from_run (d : date) :
  precipitation_run (S (List.length (dict_keys (_records hw)))) d 0 hw
  = (Ok (run_from hw d), hw).
Proof.
  unfold run_from. destruct (precipitation_run_ok d) as (n & -> & _).
  reflexivity.
Qed.

Lemma run_from_is_run (d : date) : is_run (_records hw) d (run_from hw d).
Proof.
  unfold run_from. destruct (precipitation_run_ok d) as (n & -> & Hr & _).
  exact Hr.
Qed.

Lemma run_from_longest (d : date) (n : nat) :
  is_run (_records hw) d n -> (n <= run_from hw d)%nat.
Proof.
  intros Hrun. unfold run_from.
  destruct (precipitation_run_ok d) as (k & -> & _ & Hstop). simpl.
  destruct (le_lt_dec n k) as [Hle | Hlt]; [exact Hle|].
  specialize (Hrun k Hlt). congruence.
Qed.

Lemma contiguous_lists_run (keys : list date) :
  forall lists,
    for_each keys
      (fun key lists =>
         bind (precipitation_run (S (List.length (dict_keys (_records hw)))) key 0)
              (fun count => ret (fst lists ++ [key], snd lists ++ [count])))
      lists hw
    = (Ok (fst lists ++ keys, snd lists ++ map (run_from hw) keys), hw).
Proof.
  induction keys as [|key keys IH]; intros [starts counts]; simpl.
  - rewrite !app_nil_r. reflexivity.
  - erewrite bind_ok.
    2:{ erewrite bind_ok by apply run_from_run. reflexivity. }
    rewrite IH. simpl. rewrite <- !app_assoc. reflexivity.
Qed.
End Runs.

Lemma list_index_In (l : list nat) (x : nat) :
  In x l -> exists i, list_index Nat.eqb l x = Ok i /\ nth_error l i = Some x.
Proof.
  induction l as [|y l IH]; simpl; [tauto|]. intros Hin.
  destruct (Nat.eqb y x) eqn:E.
  - apply Nat.eqb_eq in E. subst. exists 0%nat. auto.
  - destruct Hin as [-> | Hin]; [rewrite Nat.eqb_refl in E; discriminate|].
    destruct (IH Hin) as (i & -> & Hi). exists (S i). auto.
Qed.

Lemma py_max_nat (l : list nat) :
  l <> [] ->
  exists v, py_max (fun item best => (best <? item)%nat) l = Ok v /\
            In v l /\ forall y, In y l -> (y <= v)%nat.
Proof.
  apply (py_max_spec le).
  - intros x. lia.
  - intros x y z. lia.
  - intros item best H. apply Nat.ltb_lt in H. lia.
  - intros item best H. apply Nat.ltb_ge in H. exact H.
Qed.

(** What [contiguous_precipitation] does away from the last date. On a
    store that is not empty, whose dates are dates of the calendar and in
    which the last date there is, 9999-12-31, is not a day with
    precipitation, [contiguous_precipitation] returns a recorded
    date [start] and a length [n] such that the [n] consecutive dates from
    [start] on are all recorded with precipitation, and no run of
    consecutive recorded days with precipitation is longer than [n]. *)
Theorem contiguous_precipitation_longest (hw : HistoricalWeather) :
  _records hw <> [] ->
  (forall key, In key (dict_keys (_records hw)) -> valid_date key = true) ->
  precipitating (_records hw) date_max = false ->
  exists start n,
    contiguous_precipitation hw = (Ok (start, n), hw) /\
    In start (dict_keys (_records hw)) /\
    is_run (_records hw) start n /\
    forall start' n', is_run (_records hw) start' n' -> (n' <= n)%nat.
Proof.
  intros Hne Hvalid Hdry.
  unfold contiguous_precipitation. erewrite bind_ok by reflexivity. cbv zeta.
  erewrite bind_ok by (apply (contiguous_lists_run hw Hvalid Hdry)).
  simpl fst. simpl snd.
  set (keys := dict_keys (_records hw)).
  set (counts := map (run_from hw) keys).
  assert (Hcne : counts <> []).
  { unfold counts, keys, dict_keys. destruct (_records hw); [congruence|].
    simpl. discriminate. }
  destruct (py_max_nat counts Hcne) as (mx & Hmx & Hin & Hmax).
  erewrite bind_ok by (unfold lift; rewrite Hmx; reflexivity).
  destruct (list_index_In counts mx Hin) as (i & Hi & Hnth).
  erewrite bind_ok by (unfold lift; rewrite Hi; reflexivity).
  unfold counts in Hnth. rewrite nth_error_map in Hnth.
  destruct (nth_error keys i) as [start|] eqn:Hstart; [|discriminate].
  simpl in Hnth. injection Hnth as Hlen.
  erewrite bind_ok by (unfold lift, list_getitem; rewrite Hstart; reflexivity).
  exists start, mx. split; [reflexivity|]. split.
  { eapply nth_error_In. exact Hstart. }
  split.
  { rewrite <- Hlen. apply (run_from_is_run hw Hvalid Hdry). }
  intros start' n' Hrun.
  destruct n' as [|n']; [lia|].
  assert (In start' keys) as Hk.
  { apply precipitating_key. apply (Hrun 0%nat). lia. }
  apply Nat.le_trans with (run_from hw start').
  - apply (run_from_longest hw Hvalid Hdry). exact Hrun.
  - apply Hmax. unfold counts. apply in_map. exact Hk.
Qed.

Lemma rainy_store_valid :
  forall key, In key (dict_keys (_records rainy_store)) -> valid_date key = true.
Proof.
  simpl. intros key H.
  repeat (destruct H as [<- | H]; [reflexivity|]). contradiction.
Defined.

Lemma contiguous_precipitation_longest_witness :
  exists start n,
    contiguous_precipitation rainy_store = (Ok (start, n), rainy_store) /\
    In start (dict_keys (_records rainy_store)) /\
    is_run (_records rainy_store) start n /\
    forall start' n', is_run (_records rainy_store) start' n' -> (n' <= n)%nat.
Proof.
  apply (contiguous_precipitation_longest rainy_store).
  - simpl. discriminate.
  - exact rainy_store_valid.
  - reflexivity.
Defined.

(** C4, at the failing input. The store whose only record is a day of rain
    on 9999-12-31 is not empty, as the docstring asks, and that day alone
    is its longest run of days with precipitation, of length 1. There
    [contiguous_precipitation] returns no pair: it adds a day to the date
    before it tests whether the next date is recorded, and raises
    [OverflowError]. *)
Lemma contiguous_precipitation_overflow :
  _records last_day_store <> [] /\
  is_run (_records last_day_store) date_max 1 /\
  (forall start n, is_run (_records last_day_store) start n -> (n <= 1)%nat) /\
  contiguous_precipitation last_day_store = (Raise OverflowError, last_day_store) /\
  ~ exists start n, fst (contiguous_precipitation last_day_store) = Ok (start, n).
Proof.
  split; [simpl; discriminate|]. split.
  { intros i Hi. assert (i = 0)%nat as -> by lia. vm_compute. reflexivity. }
  split.
  { intros start n Hrun. apply is_run_bounded in Hrun. simpl in Hrun. exact Hrun. }
  split; [vm_compute; reflexivity|].
  intros (start & n & H). vm_compute in H. discriminate H.
Qed.

(** ** [snowiest_location] *)

Lemma dict_setitem_same {K V : Type} (eqb : K -> K -> bool) (d : dict K V) k v :
  dict_get eqb d k = Some v -> dict_setitem eqb d k v = d.
Proof.
  induction d as [|[k' v'] d IH]; simpl; [discriminate|].
  destruct (eqb k' k).
  - intros [= ->]. reflexivity.
  - intros H. rewrite IH by exact H. reflexivity.
Qed.

Lemma call_history_read_only {A : Type} (c : Country) (location : string)
    (hw : HistoricalWeather) (method : M HistoricalWeather A) :
  read_only method ->
  dict_get String.eqb (_histories c) location = Some hw ->
  call_history location method c = (fst (method hw), c).
Proof.
  intros Hro Hget. unfold call_history. rewrite Hget.
  specialize (Hro hw). destruct (method hw) as [o hw']. simpl in *. subst hw'.
  rewrite dict_setitem_same by exact Hget. destruct c. reflexivity.
Qed.

Lemma Qle_bool_false (x y : Q) : Qle_bool x y = false -> (y < x)%Q.
Proof.
  intros H. apply Qnot_le_lt. intros Hle. apply Qle_bool_iff in Hle. congruence.
Qed.

Lemma snowiest_fold (c : Country) (keys : list string) :
  forall acc,
    let res := fold_left (fun a k => snowiest_step c k a) keys acc in
    (forall k, In k keys -> (percentage_at c k <= snd res)%Q) /\
    (snd acc <= snd res)%Q /\
    ((In (fst res) keys /\ snd res = percentage_at c (fst res)) \/
     (res = acc /\ forall k, In k keys -> (percentage_at c k < snd acc)%Q)).
Proof.
  induction keys as [|k keys IH]; intros acc; simpl.
  - split; [tauto|]. split; [apply Qle_refl|]. right. split; [reflexivity | tauto].
  - destruct (IH (snowiest_step c k acc)) as (Hall & Hacc & Hcase).
    assert (Hk : (percentage_at c k <= snd (snowiest_step c k acc))%Q /\
                 (snd acc <= snd (snowiest_step c k acc))%Q).
    { unfold snowiest_step.
      destruct (Qle_bool (snd acc) (percentage_at c k)) eqn:E; simpl.
      - split; [apply Qle_refl | apply Qle_bool_iff; exact E].
      - split; [apply Qlt_le_weak, Qle_bool_false, E | apply Qle_refl]. }
    destruct Hk as [Hk1 Hk2].
    split.
    { intros k' [<- | Hk']; [eapply Qle_trans; eassumption | auto]. }
    split; [eapply Qle_trans; eassumption|].
    destruct Hcase as [[Hin Hval] | [Heq Hlt]].
    + left. auto.
    + rewrite Heq. unfold snowiest_step in *.
      destruct (Qle_bool (snd acc) (percentage_at c k)) eqn:E.
      * left. simpl. auto.
      * right. split; [reflexivity|].
        intros k' [<- | Hk']; [apply Qle_bool_false, E | auto].
Qed.

Lemma snowiest_location_run (c : Country) :
  _histories c <> [] ->
  (forall location hw,
      dict_get String.eqb (_histories c) location = Some hw ->
      exists p, fst (percentage_snowfall hw) = Ok p) ->
  snowiest_location c =
  (let highest := fold_left (fun a k => snowiest_step c k a)
                    (dict_keys (_histories c)) (""%string, 0%Q) in
   (Ok (Some (fst highest), Some (snd highest)), c)).
Proof.
  intros Hne Hpre. unfold snowiest_location.
  erewrite bind_ok by reflexivity.
  assert (Hlen : (List.length (_histories c) =? 0)%nat = false)
    by (destruct (_histories c); [congruence | reflexivity]).
  rewrite Hlen.
  erewrite bind_ok.
  2:{ apply for_each_pure with (f := snowiest_step c).
      intros location acc Hloc.
      destruct (In_keys_dict_get _ String.eqb_eq _ _ Hloc) as [hw Hhw].
      destruct (Hpre location hw Hhw) as [p Hp].
      rewrite (bind_ok _ _ c p c).
      2:{ rewrite (call_history_read_only c location hw _
                     read_only_percentage_snowfall Hhw), Hp. reflexivity. }
      unfold snowiest_step, percentage_at. rewrite Hhw, Hp.
      destruct (Qle_bool (snd acc) p); [|reflexivity].
      rewrite (bind_ok _ _ c p c); [reflexivity|].
      rewrite (call_history_read_only c location hw _
                 read_only_percentage_snowfall Hhw), Hp. reflexivity. }
  reflexivity.
Qed.

(** What [snowiest_location] does when a percentage is not negative. A
    country without locations gives [(None, None)]. For
    a country with locations, all of which satisfy the precondition of
    [percentage_snowfall] and at least one of which has a percentage that
    is not negative, [snowiest_location] returns the name of a contained
    location together with that location's percentage, and no contained
    location has a greater percentage. *)
Theorem snowiest_location_result (c : Country) :
  (_histories c = [] -> snowiest_location c = (Ok (None, None), c)) /\
  (_histories c <> [] ->
   (forall location hw,
       dict_get String.eqb (_histories c) location = Some hw ->
       exists p, fst (percentage_snowfall hw) = Ok p) ->
   (exists location hw p,
       dict_get String.eqb (_histories c) location = Some hw /\
       fst (percentage_snowfall hw) = Ok p /\ (0 <= p)%Q) ->
   exists loc hw p,
     snowiest_location c = (Ok (Some loc, Some p), c) /\
     dict_get String.eqb (_histories c) loc = Some hw /\
     fst (percentage_snowfall hw) = Ok p /\
     forall loc' hw' p',
       dict_get String.eqb (_histories c) loc' = Some hw' ->
       fst (percentage_snowfall hw') = Ok p' -> (p' <= p)%Q).
Proof.
  split.
  - intros Hnil. unfold snowiest_location. erewrite bind_ok by reflexivity.
    rewrite Hnil. reflexivity.
  - intros Hne Hpre (loc0 & hw0 & p0 & Hget0 & Hp0 & Hpos).
    rewrite (snowiest_location_run c Hne Hpre). cbv zeta.
    destruct (snowiest_fold c (dict_keys (_histories c)) (""%string, 0%Q))
      as (Hall & _ & Hcase).
    set (res := fold_left _ _ _) in *.
    assert (Hpct0 : percentage_at c loc0 = p0).
    { unfold percentage_at. rewrite Hget0, Hp0. reflexivity. }
    destruct Hcase as [[Hin Hval] | [_ Hlt]].
    + destruct (In_keys_dict_get _ String.eqb_eq _ _ Hin) as [hw Hhw].
      destruct (Hpre _ _ Hhw) as [p Hp].
      assert (snd res = p) as Hsnd.
      { rewrite Hval. unfold percentage_at. rewrite Hhw, Hp. reflexivity. }
      exists (fst res), hw, p. rewrite Hsnd.
      split; [reflexivity|]. split; [exact Hhw|]. split; [exact Hp|].
      intros loc' hw' p' Hget' Hp'. rewrite <- Hsnd.
      replace p' with (percentage_at c loc')
        by (unfold percentage_at; rewrite Hget', Hp'; reflexivity).
      apply Hall. eapply dict_get_In_keys; [apply String.eqb_eq | exact Hget'].
    + exfalso. specialize (Hlt loc0).
      rewrite Hpct0 in Hlt. simpl in Hlt.
      apply (Qlt_not_le _ _ (Hlt (dict_get_In_keys _ String.eqb_eq _ _ _ Hget0))).
      exact Hpos.
Qed.

Lemma dict_get_Forall {K V : Type} (eqb : K -> K -> bool) (P : V -> Prop)
    (d : dict K V) :
  Forall (fun kv => P (snd kv)) d ->
  forall k v, dict_get eqb d k = Some v -> P v.
Proof.
  induction 1 as [|[k' v'] d Hv Hd IH]; intros k v; simpl; [discriminate|].
  destruct (eqb k' k); [intros [= <-]; exact Hv | apply IH].
Defined.

Lemma canada_precondition :
  forall location hw,
    dict_get String.eqb (_histories canada) location = Some hw ->
    exists p, fst (percentage_snowfall hw) = Ok p.
Proof.
  apply (dict_get_Forall String.eqb
           (fun hw => exists p, fst (percentage_snowfall hw) = Ok p)).
  vm_compute. repeat constructor; eexists; reflexivity.
Defined.

Lemma snowiest_location_result_witness :
  snowiest_location (Country_init "Canada") = (Ok (None, None), Country_init "Canada") /\
  exists loc hw p,
    snowiest_location canada = (Ok (Some loc, Some p), canada) /\
    dict_get String.eqb (_histories canada) loc = Some hw /\
    fst (percentage_snowfall hw) = Ok p /\
    forall loc' hw' p',
      dict_get String.eqb (_histories canada) loc' = Some hw' ->
      fst (percentage_snowfall hw') = Ok p' -> (p' <= p)%Q.
Proof.
  split.
  - apply (proj1 (snowiest_location_result (Country_init "Canada"))).
    reflexivity.
  - apply (proj2 (snowiest_location_result canada)).
    + simpl. discriminate.
    + exact canada_precondition.
    + exists "YYZ"%string. eexists. eexists.
      split; [reflexivity|]. split; [vm_compute; reflexivity|].
      vm_compute. discriminate.
Defined.

(** C6, at the failing input. The only location of [negative_country],
    "YYZ", meets what the docstrings ask: its amounts are at least -1,
    its rainfall is above 0, and [percentage_snowfall] returns on it, the
    percentage -1, which is then the highest of the country. There
    [snowiest_location] returns the empty name, the name of no contained
    location, with the percentage 0, the values its search starts from. *)
Lemma snowiest_location_negative_percentage :
  dict_keys (_histories negative_country) = ["YYZ"%string] /\
  (forall location hw,
      dict_get String.eqb (_histories negative_country) location = Some hw ->
      (forall w, In w (dict_values (_records hw)) ->
                 (-1 <= precipitation w)%Q /\ (-1 <= rainfall w)%Q /\
                 (-1 <= snowfall w)%Q) /\
      (exists w, In w (dict_values (_records hw)) /\ (0 < rainfall w)%Q) /\
      exists p, fst (percentage_snowfall hw) = Ok p /\ (p == -1)%Q) /\
  snowiest_location negative_country
  = (Ok (Some ""%string, Some 0%Q), negative_country) /\
  ~ exists loc hw p,
      fst (snowiest_location negative_country) = Ok (Some loc, Some p) /\
      dict_get String.eqb (_histories negative_country) loc = Some hw.
Proof.
  split; [reflexivity|]. split.
  { apply (dict_get_Forall String.eqb
             (fun hw =>
                (forall w, In w (dict_values (_records hw)) ->
                           (-1 <= precipitation w)%Q /\ (-1 <= rainfall w)%Q /\
                           (-1 <= snowfall w)%Q) /\
                (exists w, In w (dict_values (_records hw)) /\ (0 < rainfall w)%Q) /\
                exists p, fst (percentage_snowfall hw) = Ok p /\ (p == -1)%Q)).
    apply Forall_cons; [|apply Forall_nil]. split; [|split].
    - intros w [<- | []]. repeat split; vm_compute; discriminate.
    - eexists. split; [left; reflexivity | vm_compute; reflexivity].
    - eexists. split; [vm_compute; reflexivity | reflexivity]. }
  split; [vm_compute; reflexivity|].
  intros (loc & hw & p & H1 & H2).
  vm_compute in H1. injection H1 as <- <-.
  vm_compute in H2. discriminate H2.
Qed.

(** ** [load_data] *)

(** *** The [try] statement on one row *)

Section ConvertRow.
Variable str_to_float : string -> option Q.
Variable str_to_int : string -> option Z.

Lemma list_setitem_length {A : Type} (l : list A) :
  forall i v,
    match list_setitem l i v with
    | Ok l' => List.length l' = List.length l
    | Raise e => e = IndexError
    | OutOfFuel => False
    end.
Proof.
  induction l as [|x l IH]; intros i v; simpl; [reflexivity|].
  destruct i as [|i]; simpl; [reflexivity|].
  specialize (IH i v). destruct (list_setitem l i v); simpl; auto.
Qed.

Lemma benign_convert_float (col : nat) : benign (convert_float str_to_float col).
Proof.
  intros st. unfold convert_float, bind, get, lift, put, list_getitem.
  destruct (nth_error st col) as [c|]; [|auto].
  destruct c as [s|x|n]; simpl;
    try destruct (str_to_float s); simpl; auto;
    match goal with
    | |- context [list_setitem st col ?v] =>
        pose proof (list_setitem_length st col v) as H;
        destruct (list_setitem st col v); simpl; subst; auto
    end.
Qed.

Lemma benign_convert_int (col : nat) : benign (convert_int str_to_int col).
Proof.
  intros st. unfold convert_int, bind, get, lift, put, list_getitem.
  destruct (nth_error st col) as [c|]; [|auto].
  destruct c as [s|x|n]; simpl;
    try destruct (str_to_int s); simpl; auto;
    match goal with
    | |- context [list_setitem st col ?v] =>
        pose proof (list_setitem_length st col v) as H;
        destruct (list_setitem st col v); simpl; subst; auto
    end.
Qed.

Lemma needs_convert_trace (flag col : nat) :
  needs (S flag) (convert_trace str_to_float flag col).
Proof.
  intros st Hlen. unfold convert_trace, bind, get, lift, list_getitem.
  replace (nth_error st flag) with (@None cell); [auto|].
  symmetry. apply nth_error_None. lia.
Qed.

Lemma needs_after (n : nat) (c1 c2 : M (list cell) unit) :
  benign c1 -> needs n c2 -> needs n (bind c1 (fun _ => c2)).
Proof.
  intros H1 H2 st Hlen. unfold bind. specialize (H1 st).
  destruct (c1 st) as [[a|e|] st']; auto.
  apply H2. lia.
Qed.

Lemma needs_before (n : nat) (c1 c2 : M (list cell) unit) :
  needs n c1 -> needs n (bind c1 (fun _ => c2)).
Proof.
  intros H1 st Hlen. unfold bind. specialize (H1 st Hlen).
  destruct (c1 st) as [[a|e|] st']; auto. contradiction.
Qed.

Lemma needs_convert_row : needs 25 (convert_row str_to_float str_to_int).
Proof.
  unfold convert_row.
  repeat first [ apply needs_after;
                 [ first [apply benign_convert_float | apply benign_convert_int] | ]
               | apply needs_before; apply needs_convert_trace ].
Qed.

Lemma convert_row_short (row : list string) :
  (List.length row < 25)%nat ->
  exists e row',
    convert_row str_to_float str_to_int (map CStr row) = (Raise e, row') /\
    (e = ValueError \/ e = IndexError).
Proof.
  intros Hlen. pose proof (needs_convert_row (map CStr row)) as H.
  rewrite length_map in H. specialize (H Hlen).
  destruct (convert_row str_to_float str_to_int (map CStr row)) as [[a|e|] row'];
    try contradiction.
  exists e, row'. auto.
Qed.

Lemma parse_row_short (row : list string) :
  (List.length row < 25)%nat -> parse_row str_to_float str_to_int row = None.
Proof.
  intros Hlen. unfold parse_row.
  do 8 (match goal with
        | |- and_then ?o _ = None => destruct o; simpl; [|reflexivity]
        end).
  unfold trace_field at 1. unfold TOTAL_PRECIP_FLAG.
  replace (nth_error row 24) with (@None string); [reflexivity|].
  symmetry. apply nth_error_None. lia.
Qed.
End ConvertRow.

Section ConvertRowLong.
Variable str_to_float : string -> option Q.
Variable str_to_int : string -> option Z.

Ltac crunch :=
  cbv [convert_row convert_float convert_int convert_trace bind get put lift ret
       list_getitem list_setitem nth_error map py_float py_int cell_is_T
       LONG LAT STN_NAME YEAR MONTH DAY MAX_TEMP MIN_TEMP MEAN_TEMP TOTAL_RAIN
       TOTAL_RAIN_FLAG TOTAL_SNOW TOTAL_SNOW_FLAG TOTAL_PRECIP TOTAL_PRECIP_FLAG
       parse_row float_field int_field trace_field and_then fst snd
       add_row number_at integer_at str_at as_number as_integer as_str
       first_row_record].

Ltac split_case :=
  match goal with
  | |- context [str_to_float ?s] => destruct (str_to_float s) eqn:?
  | |- context [str_to_int ?s] => destruct (str_to_int s) eqn:?
  | |- context [String.eqb ?s "T"] => destruct (String.eqb s "T") eqn:?
  end.

Ltac tidy :=
  repeat match goal with
         | H : Some _ = Some _ |- _ => injection H as H; subst
         | H : Some _ = None |- _ => discriminate H
         | H : None = Some _ |- _ => discriminate H
         end.

(** On a row with all its columns the [try] statement ends normally
    exactly when the row is well-formed, and with [ValueError]
    otherwise; the converted row then gives the last loop the date and
    the weather of the row. *)
Lemma convert_row_long (row : list string) :
  (25 <= List.length row)%nat ->
  match parse_row str_to_float str_to_int row with
  | Some (y, m, d, w) =>
      exists row',
        convert_row str_to_float str_to_int (map CStr row) = (Ok tt, row') /\
        (forall hw,
            add_row row' hw
            = bind (lift (new_date y m d)) (fun dt => add_weather dt w) hw) /\
        (forall rest, exists n c,
            fst (first_row_record (row' :: rest) tt)
            = Ok (HistoricalWeather_init n c))
  | None =>
      exists row',
        convert_row str_to_float str_to_int (map CStr row) = (Raise ValueError, row')
  end.
Proof.
  intros Hlen.
  do 25 (destruct row as [|? row]; [simpl in Hlen; lia|]). clear Hlen.
  repeat (crunch; split_case); crunch; tidy;
    try (eexists; reflexivity).
  all: eexists; split; [reflexivity|];
    split; [intros hw; reflexivity | intros rest'; do 2 eexists; reflexivity].
Qed.

Lemma convert_row_spec (row : list string) :
  match parse_row str_to_float str_to_int row with
  | Some (y, m, d, w) =>
      exists row',
        convert_row str_to_float str_to_int (map CStr row) = (Ok tt, row') /\
        (forall hw,
            add_row row' hw
            = bind (lift (new_date y m d)) (fun dt => add_weather dt w) hw) /\
        (forall rest, exists n c,
            fst (first_row_record (row' :: rest) tt)
            = Ok (HistoricalWeather_init n c))
  | None =>
      exists e row',
        convert_row str_to_float str_to_int (map CStr row) = (Raise e, row') /\
        (e = ValueError \/ (e = IndexError /\ (List.length row < 25)%nat))
  end.
Proof.
  destruct (le_lt_dec 25 (List.length row)) as [Hlong | Hshort].
  - pose proof (convert_row_long row Hlong) as H.
    destruct (parse_row str_to_float str_to_int row) as [[[[y m] d] w]|];
      [exact H|].
    destruct H as [row' H]. exists ValueError, row'. auto.
  - rewrite (parse_row_short str_to_float str_to_int row Hshort).
    destruct (convert_row_short str_to_float str_to_int row Hshort)
      as (e & row' & H & [He | He]); exists e, row'; auto.
Qed.
End ConvertRowLong.

(** *** Lists *)

Lemma for_each_app {S X A : Type} (xs ys : list X) (body : X -> A -> M S A) :
  forall acc s,
    for_each (xs ++ ys) body acc s
    = bind (for_each xs body acc) (fun acc' => for_each ys body acc') s.
Proof.
  induction xs as [|x xs IH]; intros acc s; simpl.
  - reflexivity.
  - unfold bind. destruct (body x acc s) as [[a|e|] s']; auto.
Qed.

Lemma for_each_map {S X Y A : Type} (g : X -> Y) (xs : list X)
    (body : Y -> A -> M S A) :
  forall acc s,
    for_each (map g xs) body acc s = for_each xs (fun x => body (g x)) acc s.
Proof.
  induction xs as [|x xs IH]; intros acc s; simpl; [reflexivity|].
  unfold bind. destruct (body (g x) acc s) as [[a|e|] s']; auto.
Qed.

Lemma for_each_ext {S X A : Type} (xs : list X) (body body' : X -> A -> M S A) :
  (forall x acc s, In x xs -> body x acc s = body' x acc s) ->
  forall acc s, for_each xs body acc s = for_each xs body' acc s.
Proof.
  induction xs as [|x xs IH]; intros Hb acc s; simpl; [reflexivity|].
  unfold bind. rewrite Hb by (left; reflexivity).
  destruct (body' x acc s) as [[a|e|] s']; auto.
  apply IH. intros y acc' s'' Hy. apply Hb. right. exact Hy.
Qed.

Lemma for_each_filter {S X : Type} (keepb : X -> bool) (xs : list X)
    (body : X -> M S unit) :
  (forall x s, keepb x = false -> body x s = (Ok tt, s)) ->
  forall s,
    for_each (filter keepb xs) (fun x _ => body x) tt s
    = for_each xs (fun x _ => body x) tt s.
Proof.
  intros Hskip. induction xs as [|x xs IH]; intros s; simpl; [reflexivity|].
  destruct (keepb x) eqn:E; simpl.
  - unfold bind. destruct (body x s) as [[[]|e|] s']; auto.
  - unfold bind. rewrite (Hskip x s E). apply IH.
Qed.

Lemma fold_snoc {A : Type} (l : list A) :
  forall acc, fold_left (fun indices x => indices ++ [x]) l acc = acc ++ l.
Proof.
  induction l as [|x l IH]; intros acc; simpl.
  - rewrite app_nil_r. reflexivity.
  - rewrite IH, <- app_assoc. reflexivity.
Qed.

Lemma positions_ge (flags : list bool) :
  forall k j, In j (positions k flags) -> (k <= j)%nat.
Proof.
  induction flags as [|b flags IH]; intros k j; simpl; [tauto|].
  destruct b; simpl.
  - intros [<- | H]; [lia|]. apply IH in H. lia.
  - intros H. apply IH in H. lia.
Qed.

Lemma insert_desc_smallest (i : nat) (l : list nat) :
  (forall j, In j l -> (i < j)%nat) -> insert_desc i l = l ++ [i].
Proof.
  induction l as [|j l IH]; intros H; simpl; [reflexivity|].
  assert (i < j)%nat as Hj by (apply H; left; reflexivity).
  destruct (j <? i)%nat eqn:E; [apply Nat.ltb_lt in E; lia|].
  rewrite IH; [reflexivity|]. intros j' Hj'. apply H. right. exact Hj'.
Qed.

Lemma sorted_reverse_positions (flags : list bool) :
  forall k, sorted_reverse (positions k flags) = rev (positions k flags).
Proof.
  induction flags as [|b flags IH]; intros k; simpl; [reflexivity|].
  destruct b; simpl; [|apply IH].
  rewrite IH. apply insert_desc_smallest.
  intros j Hj. apply in_rev in Hj. apply positions_ge in Hj. lia.
Qed.

Lemma list_getitem_middle {A : Type} (pre : list A) (x : A) (post : list A) :
  list_getitem (pre ++ x :: post) (List.length pre) = Ok x.
Proof.
  unfold list_getitem. rewrite nth_error_app2 by lia.
  rewrite Nat.sub_diag. reflexivity.
Qed.

Lemma replace_nth_middle {A : Type} (pre : list A) (x y : A) (post : list A) :
  replace_nth (pre ++ x :: post) (List.length pre) y = pre ++ y :: post.
Proof. induction pre as [|p pre IH]; simpl; congruence. Qed.

Lemma list_delitem_middle {A : Type} (pre : list A) (x : A) (post : list A) :
  list_delitem (pre ++ x :: post) (List.length pre) = Ok (pre ++ post).
Proof.
  induction pre as [|p pre IH]; simpl; [reflexivity|]. rewrite IH. reflexivity.
Qed.

Lemma keep_map_filter {A B : Type} (g : A -> B) (h : A -> bool) (l : list A) :
  keep (map g l) (map h l) = map g (filter (fun x => negb (h x)) l).
Proof.
  induction l as [|x l IH]; simpl; [reflexivity|].
  destruct (h x); simpl; congruence.
Qed.

(** *** Deleting the listed rows *)

Lemma delete_positions {A : Type} (l : list A) :
  forall flags pre,
    List.length flags = List.length l ->
    for_each (rev (positions (List.length pre) flags))
      (fun i _ =>
         bind get (fun main_list =>
         bind (lift (list_delitem main_list i)) (fun main_list' =>
         put main_list')))
      tt (pre ++ l)
    = (Ok tt, pre ++ keep l flags).
Proof.
  induction l as [|x l IH]; intros [|b flags] pre Hlen; simpl in Hlen;
    try discriminate; [reflexivity|].
  injection Hlen as Hlen. simpl positions. simpl keep.
  specialize (IH flags (pre ++ [x])).
  rewrite length_app, Nat.add_1_r, <- app_assoc in IH. simpl in IH.
  destruct b.
  - simpl rev. rewrite for_each_app. unfold bind at 1.
    rewrite IH by exact Hlen. simpl.
    unfold bind, get, lift, put. rewrite <- app_assoc. simpl.
    rewrite list_delitem_middle. reflexivity.
  - rewrite IH by exact Hlen. rewrite <- app_assoc. reflexivity.
Qed.

Lemma delete_specified_rows_run {A : Type} (l : list A) (flags : list bool) :
  List.length flags = List.length l ->
  _delete_specified_rows (positions 0 flags) l = (Ok tt, keep l flags).
Proof.
  intros Hlen. unfold _delete_specified_rows.
  rewrite fold_snoc. simpl. rewrite sorted_reverse_positions.
  apply (delete_positions l flags [] Hlen).
Qed.

(** *** The validation loop *)

Section LoadDataFacts.
Variable str_to_float : string -> option Q.
Variable str_to_int : string -> option Z.

Lemma benign_bind (c1 c2 : M (list cell) unit) :
  benign c1 -> benign c2 -> benign (bind c1 (fun _ => c2)).
Proof.
  intros H1 H2 st. unfold bind. specialize (H1 st).
  destruct (c1 st) as [[a|e|] st']; auto.
  specialize (H2 st'). destruct (c2 st') as [[b|e|] st'']; auto. congruence.
Qed.

Lemma benign_convert_trace (flag col : nat) :
  benign (convert_trace str_to_float flag col).
Proof.
  intros st. unfold convert_trace, bind, get, lift, put, list_getitem.
  destruct (nth_error st flag) as [c|]; [|auto].
  destruct (cell_is_T c).
  - pose proof (list_setitem_length st col (CInt (-1))) as H.
    destruct (list_setitem st col (CInt (-1))); simpl; subst; auto.
  - apply benign_convert_float.
Qed.

Lemma benign_convert_row : benign (convert_row str_to_float str_to_int).
Proof.
  unfold convert_row.
  repeat first [ apply benign_bind | apply benign_convert_float
               | apply benign_convert_int | apply benign_convert_trace ].
Qed.

Lemma row_outcome (row : list cell) :
  fst (convert_row str_to_float str_to_int row) = Ok tt \/
  fst (convert_row str_to_float str_to_int row) = Raise ValueError \/
  fst (convert_row str_to_float str_to_int row) = Raise IndexError.
Proof.
  pose proof (benign_convert_row row) as H.
  destruct (convert_row str_to_float str_to_int row) as [[[]|e|] st']; simpl; auto.
  - destruct H; subst; auto.
  - contradiction.
Qed.

Lemma check_rows_step (row : list cell) (todo done : list (list cell))
    (acc : list nat) :
  for_each (seq (List.length done) (S (List.length todo)))
    (check_row str_to_float str_to_int) acc (done ++ row :: todo)
  = let (o, row') := convert_row str_to_float str_to_int row in
    match o with
    | Ok _ =>
        for_each (seq (S (List.length done)) (List.length todo))
          (check_row str_to_float str_to_int) acc (done ++ row' :: todo)
    | Raise ValueError =>
        for_each (seq (S (List.length done)) (List.length todo))
          (check_row str_to_float str_to_int) (acc ++ [List.length done])
          (done ++ row' :: todo)
    | Raise e => (Raise e, done ++ row' :: todo)
    | OutOfFuel => (OutOfFuel, done ++ row' :: todo)
    end.
Proof.
  cbn [seq for_each]. unfold bind, check_row.
  rewrite list_getitem_middle.
  destruct (convert_row str_to_float str_to_int row) as [o row'].
  rewrite replace_nth_middle.
  destruct o as [[]|[]|]; reflexivity.
Qed.

Lemma check_rows_run (todo : list (list cell)) :
  forall done acc,
    let r := for_each (seq (List.length done) (List.length todo))
               (check_row str_to_float str_to_int) acc (done ++ todo) in
    (rows_tame str_to_float str_to_int todo = true ->
     r = (Ok (acc ++ positions (List.length done)
                       (map (row_failed str_to_float str_to_int) todo)),
          done ++ map (row_after str_to_float str_to_int) todo)) /\
    (rows_tame str_to_float str_to_int todo = false -> fst r = Raise IndexError).
Proof.
  induction todo as [|row todo IH]; intros done acc; cbv zeta.
  - simpl. rewrite !app_nil_r. split; [reflexivity | discriminate].
  - unfold rows_tame, row_ok, row_failed, row_after in *.
    cbn [List.length forallb map positions].
    rewrite check_rows_step.
    pose proof (row_outcome row) as Hcases.
    destruct (convert_row str_to_float str_to_int row) as [o row'].
    cbn [fst snd] in *.
    specialize (IH (done ++ [row'])).
    rewrite length_app, Nat.add_1_r in IH.
    destruct Hcases as [-> | [-> | ->]].
    + specialize (IH acc). cbv zeta in IH. rewrite <- !app_assoc in IH.
      cbn [app orb andb] in *.
      destruct IH as [IH1 IH2]. split.
      * intros Ht. rewrite (IH1 Ht). reflexivity.
      * exact IH2.
    + specialize (IH (acc ++ [List.length done])). cbv zeta in IH.
      rewrite <- !app_assoc in IH. cbn [app orb andb] in *.
      destruct IH as [IH1 IH2]. split.
      * intros Ht. rewrite (IH1 Ht). reflexivity.
      * exact IH2.
    + cbn [orb andb fst]. split; [discriminate | reflexivity].
Qed.

Lemma read_condition (line : string) :
  negb (String.eqb line "") || negb (String.eqb line (String newline "")) = true.
Proof.
  destruct (String.eqb line "") eqn:E; [|reflexivity].
  apply String.eqb_eq in E. subst line. reflexivity.
Qed.

Lemma read_rows_run (f : list string) : read_rows f = map cells f.
Proof.
  unfold read_rows.
  assert (H : forall acc,
             fold_left
               (fun file_as_list line =>
                  if negb (String.eqb line "")
                     || negb (String.eqb line (String newline ""))
                  then file_as_list ++ [map CStr (split_comma (strip_newline line))]
                  else file_as_list) f acc
             = acc ++ map cells f).
  { induction f as [|line f IH]; intros acc; simpl.
    - rewrite app_nil_r. reflexivity.
    - rewrite read_condition, IH, <- app_assoc. reflexivity. }
  apply H.
Qed.

(** The rows that survive: those on which the [try] statement ended
    normally, as it left them; unless some row ended it with
    [IndexError], which ends [load_data]. *)
Lemma surviving_rows_spec (f : list string) :
  surviving_rows str_to_float str_to_int f =
  if rows_tame str_to_float str_to_int (map cells f)
  then Ok (map (row_after str_to_float str_to_int)
             (filter (row_ok str_to_float str_to_int) (map cells f)))
  else Raise IndexError.
Proof.
  unfold surviving_rows, exec. rewrite read_rows_run.
  set (rows := map cells f).
  unfold bind at 1. unfold get at 1.
  unfold bind at 1.
  destruct (check_rows_run rows [] []) as [Hok Herr]. simpl in Hok, Herr.
  destruct (rows_tame str_to_float str_to_int rows) eqn:Ht.
  - rewrite (Hok eq_refl).
    rewrite delete_specified_rows_run by (rewrite !length_map; reflexivity).
    rewrite keep_map_filter. f_equal. f_equal.
    apply filter_ext_in. intros row Hrow.
    unfold rows_tame in Ht. rewrite forallb_forall in Ht.
    specialize (Ht row Hrow).
    unfold row_ok, row_failed in *.
    destruct (fst (convert_row str_to_float str_to_int row)) as [[]|[]|];
      simpl in *; congruence.
  - specialize (Herr eq_refl).
    destruct (for_each (seq 0 (List.length rows))
                (check_row str_to_float str_to_int) [] rows) as [o st].
    simpl in Herr. subst o. reflexivity.
Qed.
End LoadDataFacts.

(** *** From the surviving rows to the store *)

Lemma dict_get_app {K V : Type} (eqb : K -> K -> bool) (r r' : dict K V) (k : K) :
  dict_get eqb (r ++ r') k =
  match dict_get eqb r k with
  | Some v => Some v
  | None => dict_get eqb r' k
  end.
Proof.
  induction r as [|[k0 v0] r IH]; simpl; [reflexivity|].
  destruct (eqb k0 k); auto.
Qed.

Lemma filter_map_comm {A B : Type} (g : A -> B) (p : B -> bool) (l : list A) :
  filter p (map g l) = map g (filter (fun x => p (g x)) l).
Proof.
  induction l as [|x l IH]; simpl; [reflexivity|].
  destruct (p (g x)); simpl; congruence.
Qed.

Lemma split_comma_from_cons (s field : string) :
  exists s0 rest, split_comma_from field s = s0 :: rest.
Proof.
  revert field. induction s as [|c s IH]; intros field; simpl.
  - eauto.
  - destruct (Ascii.eqb c ","%char); eauto.
Qed.

Section LoadDataSpec.
Variable str_to_float : string -> option Q.
Variable str_to_int : string -> option Z.

Lemma row_ok_parses (line : string) :
  row_ok str_to_float str_to_int (cells line) = parses str_to_float str_to_int line.
Proof.
  unfold row_ok, parses, cells.
  pose proof (convert_row_spec str_to_float str_to_int (fields line)) as H.
  destruct (parse_row str_to_float str_to_int (fields line)) as [[[[y m] d] w]|].
  - destruct H as (row' & -> & _). reflexivity.
  - destruct H as (e & row' & -> & [-> | [-> _]]); reflexivity.
Qed.

Lemma row_tame_long (line : string) :
  (25 <= List.length (fields line))%nat ->
  row_ok str_to_float str_to_int (cells line)
  || row_failed str_to_float str_to_int (cells line) = true.
Proof.
  intros Hlen. unfold row_ok, row_failed, cells.
  pose proof (convert_row_spec str_to_float str_to_int (fields line)) as H.
  destruct (parse_row str_to_float str_to_int (fields line)) as [[[[y m] d] w]|].
  - destruct H as (row' & -> & _). reflexivity.
  - destruct H as (e & row' & -> & [-> | [_ Hshort]]); [reflexivity | lia].
Qed.

Lemma row_after_add_line (line : string) :
  parses str_to_float str_to_int line = true ->
  forall hw,
    add_row (row_after str_to_float str_to_int (cells line)) hw
    = add_line str_to_float str_to_int line hw.
Proof.
  unfold parses, row_after, add_line, cells.
  pose proof (convert_row_spec str_to_float str_to_int (fields line)) as H.
  destruct (parse_row str_to_float str_to_int (fields line)) as [[[[y m] d] w]|];
    [|discriminate].
  destruct H as (row' & -> & Hadd & _). intros _ hw. apply Hadd.
Qed.

Lemma first_row_record_ok (line : string) (rest : list (list cell)) :
  parses str_to_float str_to_int line = true ->
  exists n c,
    fst (first_row_record
           (row_after str_to_float str_to_int (cells line) :: rest) tt)
    = Ok (HistoricalWeather_init n c).
Proof.
  unfold parses, row_after, cells.
  pose proof (convert_row_spec str_to_float str_to_int (fields line)) as H.
  destruct (parse_row str_to_float str_to_int (fields line)) as [[[[y m] d] w]|];
    [|discriminate].
  destruct H as (row' & -> & _ & Hfirst). intros _. apply Hfirst.
Qed.

Lemma add_line_skip (line : string) (hw : HistoricalWeather) :
  parses str_to_float str_to_int line = false ->
  add_line str_to_float str_to_int line hw = (Ok tt, hw).
Proof.
  unfold parses, add_line.
  destruct (parse_row str_to_float str_to_int (fields line)) as [[[[y m] d] w]|];
    [discriminate | reflexivity].
Qed.

Lemma add_line_run (line : string) (hw : HistoricalWeather) :
  add_line str_to_float str_to_int line hw =
  match parse_row str_to_float str_to_int (fields line) with
  | Some (y, m, d, w) =>
      if valid_date (mkdate y m d) then add_weather (mkdate y m d) w hw
      else (Raise (date_error y m d), hw)
  | None => (Ok tt, hw)
  end.
Proof.
  unfold add_line.
  destruct (parse_row str_to_float str_to_int (fields line)) as [[[[y m] d] w]|];
    [|reflexivity].
  unfold bind, lift. rewrite new_date_run.
  destruct (valid_date (mkdate y m d)); reflexivity.
Qed.

Lemma surviving_rows_parses (f : list string) :
  rows_tame str_to_float str_to_int (map cells f) = true ->
  surviving_rows str_to_float str_to_int f
  = Ok (map (fun line => row_after str_to_float str_to_int (cells line))
          (filter (parses str_to_float str_to_int) f)).
Proof.
  intros Ht. rewrite surviving_rows_spec, Ht, filter_map_comm, map_map.
  f_equal. f_equal. apply filter_ext. intros line. apply row_ok_parses.
Qed.

Lemma load_data_index_error (f : list string) :
  rows_tame str_to_float str_to_int (map cells f) = false ->
  load_data str_to_float str_to_int f = Raise IndexError.
Proof.
  intros Ht. unfold load_data. rewrite surviving_rows_spec, Ht. reflexivity.
Qed.

(** When no row ends the validation with [IndexError], [load_data]
    returns [None] if no line is well-formed and otherwise runs
    [add_line] over the lines, in order, on a new object. *)
Lemma load_data_spec (f : list string) :
  rows_tame str_to_float str_to_int (map cells f) = true ->
  (filter (parses str_to_float str_to_int) f = [] ->
   load_data str_to_float str_to_int f = Ok None) /\
  (filter (parses str_to_float str_to_int) f <> [] ->
   exists n c,
     load_data str_to_float str_to_int f =
     match exec (for_each f (fun line _ => add_line str_to_float str_to_int line) tt)
                (HistoricalWeather_init n c) with
     | Ok hw => Ok (Some hw)
     | Raise e => Raise e
     | OutOfFuel => OutOfFuel
     end).
Proof.
  intros Ht. unfold load_data. rewrite (surviving_rows_parses f Ht).
  destruct (filter (parses str_to_float str_to_int) f) as [|line0 lines] eqn:E.
  - split; [reflexivity | congruence].
  - split; [discriminate|]. intros _.
    assert (Hp0 : parses str_to_float str_to_int line0 = true).
    { assert (In line0 (filter (parses str_to_float str_to_int) f)) as Hin
        by (rewrite E; left; reflexivity).
      apply filter_In in Hin. tauto. }
    cbn [map List.length Nat.eqb].
    destruct (first_row_record_ok line0
                (map (fun line => row_after str_to_float str_to_int (cells line)) lines)
                Hp0) as (n & c & Hfirst).
    rewrite Hfirst. exists n, c.
    unfold exec.
    change (row_after str_to_float str_to_int (cells line0)
            :: map (fun line => row_after str_to_float str_to_int (cells line)) lines)
      with (map (fun line => row_after str_to_float str_to_int (cells line))
              (line0 :: lines)).
    rewrite <- E, for_each_map.
    rewrite for_each_ext with
      (body' := fun line _ => add_line str_to_float str_to_int line).
    2:{ intros line acc s Hin. apply filter_In in Hin.
        apply row_after_add_line. tauto. }
    rewrite (for_each_filter (parses str_to_float str_to_int) f
               (add_line str_to_float str_to_int)).
    2:{ intros line s Hskip. apply add_line_skip. exact Hskip. }
    reflexivity.
Qed.

Lemma add_lines_ok (f : list string) :
  (forall line y m d w,
      In line f ->
      parse_row str_to_float str_to_int (fields line) = Some (y, m, d, w) ->
      valid_date (mkdate y m d) = true) ->
  forall hw0,
  exists hw,
    for_each f (fun line _ => add_line str_to_float str_to_int line) tt hw0
    = (Ok tt, hw) /\
    forall dt w,
      dict_get date_eqb (_records hw) dt = Some w ->
      dict_get date_eqb (_records hw0) dt = Some w \/
      exists line y m d,
        In line f /\
        parse_row str_to_float str_to_int (fields line) = Some (y, m, d, w) /\
        dt = mkdate y m d.
Proof.
  induction f as [|line f IH]; intros Hvalid hw0; simpl.
  - exists hw0. split; [reflexivity | auto].
  - unfold bind. rewrite add_line_run.
    assert (Hrest : forall line' y m d w,
               In line' f ->
               parse_row str_to_float str_to_int (fields line') = Some (y, m, d, w) ->
               valid_date (mkdate y m d) = true)
      by (intros; eapply Hvalid; [right|]; eassumption).
    destruct (parse_row str_to_float str_to_int (fields line))
      as [[[[y m] d] w]|] eqn:Hp.
    + rewrite (Hvalid line y m d w (or_introl eq_refl) Hp).
      rewrite add_weather_run.
      destruct (IH Hrest
                  (match dict_get date_eqb (_records hw0) (mkdate y m d) with
                   | Some _ => hw0
                   | None => set_records hw0 (_records hw0 ++ [(mkdate y m d, w)])
                   end)) as (hw & Hrun & Hfrom).
      exists hw. split; [exact Hrun|].
      intros dt w' Hget. destruct (Hfrom dt w' Hget) as [Hold | (l & y' & m' & d' & Hin & Hp' & Hdt)].
      * destruct (dict_get date_eqb (_records hw0) (mkdate y m d)) eqn:G;
          [left; exact Hold|].
        simpl in Hold. rewrite dict_get_app in Hold.
        destruct (dict_get date_eqb (_records hw0) dt) eqn:G'; [left; exact Hold|].
        simpl in Hold. destruct (date_eqb (mkdate y m d) dt) eqn:Edt; [|discriminate].
        apply date_eqb_eq in Edt. injection Hold as <-.
        right. exists line, y, m, d. auto.
      * right. exists l, y', m', d'. auto.
    + destruct (IH Hrest hw0) as (hw & Hrun & Hfrom).
      exists hw. split; [exact Hrun|].
      intros dt w' Hget. destruct (Hfrom dt w' Hget) as [Hold | (l & y' & m' & d' & Hin & Hp' & Hdt)].
      * left. exact Hold.
      * right. exists l, y', m', d'. auto.
Qed.

Lemma add_lines_retrieve (f : list string) :
  forall hw0 hw,
    for_each f (fun line _ => add_line str_to_float str_to_int line) tt hw0
    = (Ok tt, hw) ->
    (forall dt w, dict_get date_eqb (_records hw0) dt = Some w ->
                  dict_get date_eqb (_records hw) dt = Some w) /\
    (forall i line y m d w,
        nth_error f i = Some line ->
        parse_row str_to_float str_to_int (fields line) = Some (y, m, d, w) ->
        dict_get date_eqb (_records hw0) (mkdate y m d) = None ->
        (forall j line' y' m' d' w',
            (j < i)%nat -> nth_error f j = Some line' ->
            parse_row str_to_float str_to_int (fields line') = Some (y', m', d', w') ->
            (y', m', d') <> (y, m, d)) ->
        valid_date (mkdate y m d) = true /\
        dict_get date_eqb (_records hw) (mkdate y m d) = Some w).
Proof.
  induction f as [|line0 f IH]; intros hw0 hw; simpl.
  - intros [= <-]. split; [auto|]. intros [|i]; discriminate.
  - unfold bind. rewrite add_line_run.
    destruct (parse_row str_to_float str_to_int (fields line0))
      as [[[[y0 m0] d0] w0]|] eqn:Hp0.
    + destruct (valid_date (mkdate y0 m0 d0)) eqn:Hv0; [|discriminate].
      rewrite add_weather_run.
      set (hw1 := match dict_get date_eqb (_records hw0) (mkdate y0 m0 d0) with
                  | Some _ => hw0
                  | None => set_records hw0 (_records hw0 ++ [(mkdate y0 m0 d0, w0)])
                  end).
      intros Hrun. destruct (IH hw1 hw Hrun) as [Hkeep Hget].
      assert (Hkeep1 : forall dt w, dict_get date_eqb (_records hw0) dt = Some w ->
                                    dict_get date_eqb (_records hw1) dt = Some w).
      { intros dt w H. unfold hw1.
        destruct (dict_get date_eqb (_records hw0) (mkdate y0 m0 d0)); [exact H|].
        simpl. rewrite dict_get_app, H. reflexivity. }
      split; [auto|].
      intros [|i] line y m d w Hnth Hp Hfresh Hearlier; simpl in Hnth.
      * injection Hnth as <-. rewrite Hp0 in Hp. injection Hp as <- <- <- <-.
        split; [exact Hv0|]. apply Hkeep. unfold hw1. rewrite Hfresh. simpl.
        apply dict_get_app_fresh. exact Hfresh.
      * apply (Hget i line y m d w Hnth Hp).
        -- assert ((y0, m0, d0) <> (y, m, d)) as Hne
             by (apply (Hearlier 0%nat line0 y0 m0 d0 w0); [lia | reflexivity | exact Hp0]).
           unfold hw1.
           destruct (dict_get date_eqb (_records hw0) (mkdate y0 m0 d0)); [exact Hfresh|].
           simpl. rewrite dict_get_app, Hfresh. simpl.
           destruct (date_eqb (mkdate y0 m0 d0) (mkdate y m d)) eqn:E; [|reflexivity].
           apply date_eqb_eq in E. injection E as -> -> ->. congruence.
        -- intros j line' y' m' d' w' Hj Hnth' Hp'.
           apply (Hearlier (S j) line' y' m' d' w'); [lia | exact Hnth' | exact Hp'].
    + intros Hrun. destruct (IH hw0 hw Hrun) as [Hkeep Hget].
      split; [exact Hkeep|].
      intros [|i] line y m d w Hnth Hp Hfresh Hearlier; simpl in Hnth.
      * injection Hnth as <-. congruence.
      * apply (Hget i line y m d w Hnth Hp Hfresh).
        intros j line' y' m' d' w' Hj Hnth' Hp'.
        apply (Hearlier (S j) line' y' m' d' w'); [lia | exact Hnth' | exact Hp'].
Qed.
End LoadDataSpec.

(** *** The statements about [load_data] *)

Section LoadDataClaims.
Variable str_to_float : string -> option Q.
Variable str_to_int : string -> option Z.

Lemma rows_tame_long (f : list string) :
  (forall line, In line f -> (25 <= List.length (fields line))%nat) ->
  rows_tame str_to_float str_to_int (map cells f) = true.
Proof.
  intros Hlong. unfold rows_tame. apply forallb_forall.
  intros row Hrow. apply in_map_iff in Hrow. destruct Hrow as (line & <- & Hin).
  apply row_tame_long. apply Hlong. exact Hin.
Qed.

Lemma parses_true (line : string) :
  parses str_to_float str_to_int line = true <->
  exists y m d w,
    parse_row str_to_float str_to_int (fields line) = Some (y, m, d, w).
Proof.
  unfold parses.
  destruct (parse_row str_to_float str_to_int (fields line)) as [[[[y m] d] w]|].
  - split; [eauto | reflexivity].
  - split; [discriminate | intros (y & m & d & w & H); discriminate].
Qed.

Lemma header_row_fails (header : string) :
  str_to_float (hd ""%string (fields header)) = None ->
  fst (convert_row str_to_float str_to_int (cells header)) = Raise ValueError.
Proof.
  unfold cells, fields, split_comma.
  destruct (split_comma_from_cons (strip_newline header) EmptyString)
    as (s0 & rest & ->).
  simpl hd. intros H.
  unfold convert_row. unfold bind at 1. unfold convert_float at 1.
  unfold bind, get, lift, list_getitem, LONG. simpl. rewrite H. reflexivity.
Qed.
End LoadDataClaims.

(** C1, as amended. When every line has at least 25 fields and every
    well-formed row carries a year, a month and a day that form a date of
    the calendar, [load_data] raises nothing: it returns [None] or a
    [HistoricalWeather]; it returns [None] exactly when no row is
    well-formed, and every record of the result comes from a well-formed
    row, so that the other rows are dropped. *)
Theorem load_data_returns
    (str_to_float : string -> option Q) (str_to_int : string -> option Z)
    (f : list string) :
  (forall line, In line f -> (25 <= List.length (fields line))%nat) ->
  (forall line y m d w,
      In line f ->
      parse_row str_to_float str_to_int (fields line) = Some (y, m, d, w) ->
      valid_date (mkdate y m d) = true) ->
  exists result,
    load_data str_to_float str_to_int f = Ok result /\
    (result = None <->
     forall line, In line f ->
                  parse_row str_to_float str_to_int (fields line) = None) /\
    forall hw dt w,
      result = Some hw ->
      dict_get date_eqb (_records hw) dt = Some w ->
      exists line y m d,
        In line f /\
        parse_row str_to_float str_to_int (fields line) = Some (y, m, d, w) /\
        dt = mkdate y m d.
Proof.
  intros Hlong Hvalid.
  destruct (load_data_spec str_to_float str_to_int f
              (rows_tame_long str_to_float str_to_int f Hlong)) as [Hnone Hsome].
  destruct (filter (parses str_to_float str_to_int) f) as [|line0 lines] eqn:E.
  - exists None. split; [apply Hnone; reflexivity|]. split.
    + split; [|reflexivity]. intros _ line Hin.
      destruct (parse_row str_to_float str_to_int (fields line))
        as [[[[y m] d] w]|] eqn:Hp; [|reflexivity].
      assert (In line (filter (parses str_to_float str_to_int) f)) as Hf.
      { apply filter_In. split; [exact Hin|]. apply parses_true. eauto. }
      rewrite E in Hf. contradiction.
    + intros hw dt w H. discriminate H.
  - destruct Hsome as (n & c & Hload); [discriminate|].
    destruct (add_lines_ok str_to_float str_to_int f Hvalid (HistoricalWeather_init n c))
      as (hw & Hrun & Hfrom).
    exists (Some hw). split.
    { rewrite Hload. unfold exec. rewrite Hrun. reflexivity. }
    split.
    + split; [discriminate|]. intros Hall. exfalso.
      assert (In line0 (filter (parses str_to_float str_to_int) f)) as Hf
        by (rewrite E; left; reflexivity).
      apply filter_In in Hf. destruct Hf as [Hin Hp].
      apply parses_true in Hp. destruct Hp as (y & m & d & w & Hp).
      rewrite (Hall line0 Hin) in Hp. discriminate.
    + intros hw' dt w Heq Hget. injection Heq as <-.
      destruct (Hfrom dt w Hget) as [Hold | H]; [discriminate Hold | exact H].
Qed.

Lemma sample_lines_long :
  forall line, In line [sample_header; sample_line] ->
               (25 <= List.length (fields line))%nat.
Proof.
  intros line [<- | [<- | []]]; vm_compute; lia.
Defined.

Lemma sample_lines_valid :
  forall line y m d w,
    In line [sample_header; sample_line] ->
    parse_row sample_float sample_int (fields line) = Some (y, m, d, w) ->
    valid_date (mkdate y m d) = true.
Proof.
  intros line y m d w [<- | [<- | []]] Hp; vm_compute in Hp.
  - discriminate Hp.
  - injection Hp as <- <- <- _. reflexivity.
Defined.

Lemma load_data_returns_witness :
  exists result,
    load_data sample_float sample_int [sample_header; sample_line] = Ok result /\
    (result = None <->
     forall line, In line [sample_header; sample_line] ->
                  parse_row sample_float sample_int (fields line) = None) /\
    forall hw dt w,
      result = Some hw ->
      dict_get date_eqb (_records hw) dt = Some w ->
      exists line y m d,
        In line [sample_header; sample_line] /\
        parse_row sample_float sample_int (fields line) = Some (y, m, d, w) /\
        dt = mkdate y m d.
Proof.
  exact (load_data_returns sample_float sample_int [sample_header; sample_line]
           sample_lines_long sample_lines_valid).
Defined.

(** C1 as stated fails: a line with a single numeric field ends
    [load_data] with [IndexError], and a row whose fields all parse but
    whose month is 13 ends it with [ValueError]. *)
Lemma load_data_counterexample :
  load_data sample_float sample_int [sample_header; short_line] = Raise IndexError /\
  load_data sample_float sample_int [sample_header; bad_date_line] = Raise ValueError.
Proof. split; vm_compute; reflexivity. Qed.

(** C8, as amended. When [load_data] returns [None], no row is
    well-formed; when every line has at least 25 fields and no row is
    well-formed, [load_data] returns [None]. It does so on an empty input
    and on an input that is only a header; and a header, whose first field
    is not a number, gets no other treatment than any row: it is dropped,
    and the result is that of the lines after it. *)
Theorem load_data_none
    (str_to_float : string -> option Q) (str_to_int : string -> option Z)
    (header : string) (f : list string) :
  str_to_float (hd ""%string (fields header)) = None ->
  (load_data str_to_float str_to_int f = Ok None ->
   forall line, In line f ->
                parse_row str_to_float str_to_int (fields line) = None) /\
  ((forall line, In line f -> (25 <= List.length (fields line))%nat) ->
   (forall line, In line f ->
                 parse_row str_to_float str_to_int (fields line) = None) ->
   load_data str_to_float str_to_int f = Ok None) /\
  load_data str_to_float str_to_int [] = Ok None /\
  load_data str_to_float str_to_int [header] = Ok None /\
  load_data str_to_float str_to_int (header :: f)
  = load_data str_to_float str_to_int f.
Proof.
  intros Hheader.
  assert (Hdrop : forall g,
             surviving_rows str_to_float str_to_int (header :: g)
             = surviving_rows str_to_float str_to_int g).
  { intros g. rewrite !surviving_rows_spec. unfold rows_tame.
    cbn [map forallb filter].
    unfold row_ok at 1 3, row_failed at 1.
    rewrite (header_row_fails str_to_float str_to_int header Hheader).
    reflexivity. }
  assert (Hfilter : forall g,
             filter (parses str_to_float str_to_int) g = [] <->
             forall line, In line g ->
                          parse_row str_to_float str_to_int (fields line) = None).
  { intros g. split.
    - intros Hnil line Hin.
      destruct (parse_row str_to_float str_to_int (fields line))
        as [[[[y m] d] w]|] eqn:Hp; [|reflexivity].
      assert (In line (filter (parses str_to_float str_to_int) g)) as Hf.
      { apply filter_In. split; [exact Hin|]. apply parses_true. eauto. }
      rewrite Hnil in Hf. contradiction.
    - intros Hall.
      destruct (filter (parses str_to_float str_to_int) g) as [|line0 lines] eqn:E;
        [reflexivity|].
      assert (In line0 (filter (parses str_to_float str_to_int) g)) as Hf
        by (rewrite E; left; reflexivity).
      apply filter_In in Hf. destruct Hf as [Hin Hp].
      apply parses_true in Hp. destruct Hp as (y & m & d & w & Hp).
      rewrite (Hall line0 Hin) in Hp. discriminate Hp. }
  split; [|split; [|split; [reflexivity | split]]].
  - intros Hload.
    destruct (rows_tame str_to_float str_to_int (map cells f)) eqn:Ht.
    2:{ rewrite (load_data_index_error str_to_float str_to_int f Ht) in Hload.
        discriminate Hload. }
    destruct (load_data_spec str_to_float str_to_int f Ht) as [_ Hsome].
    apply Hfilter.
    destruct (filter (parses str_to_float str_to_int) f) as [|line0 lines];
      [reflexivity|].
    destruct Hsome as (n & c & Hl); [discriminate|].
    rewrite Hl in Hload.
    destruct (exec (for_each f (fun line _ => add_line str_to_float str_to_int line) tt)
                   (HistoricalWeather_init n c)); discriminate Hload.
  - intros Hlong Hall.
    destruct (load_data_spec str_to_float str_to_int f
                (rows_tame_long str_to_float str_to_int f Hlong)) as [Hnone _].
    apply Hnone. apply Hfilter. exact Hall.
  - unfold load_data. rewrite Hdrop. reflexivity.
  - unfold load_data. rewrite Hdrop. reflexivity.
Qed.

Lemma load_data_none_witness :
  (forall line, In line [sample_header; sample_header] ->
                (25 <= List.length (fields line))%nat) /\
  (forall line, In line [sample_header; sample_header] ->
                parse_row sample_float sample_int (fields line) = None) /\
  load_data sample_float sample_int [sample_header; sample_header] = Ok None /\
  load_data sample_float sample_int [] = Ok None /\
  load_data sample_float sample_int [sample_header] = Ok None /\
  load_data sample_float sample_int (sample_header :: [sample_header; sample_header])
  = load_data sample_float sample_int [sample_header; sample_header].
Proof.
  assert (Hlong : forall line, In line [sample_header; sample_header] ->
                    (25 <= List.length (fields line))%nat).
  { intros line [<- | [<- | []]]; vm_compute; lia. }
  assert (Hnone : forall line, In line [sample_header; sample_header] ->
                    parse_row sample_float sample_int (fields line) = None).
  { intros line [<- | [<- | []]]; vm_compute; reflexivity. }
  destruct (load_data_none sample_float sample_int sample_header
              [sample_header; sample_header])
    as (_ & Hback & Hempty & Hheader & Hdrop).
  - vm_compute. reflexivity.
  - split; [exact Hlong|]. split; [exact Hnone|].
    split; [exact (Hback Hlong Hnone)|].
    split; [exact Hempty|]. split; [exact Hheader | exact Hdrop].
Defined.

(** C8 as stated fails: of a header and a line with a single numeric
    field, no row is well-formed, so that no row remains after the
    filtering of the claim, and [load_data] does not return [None]: it
    raises [IndexError]. *)
Lemma load_data_none_counterexample :
  (forall line, In line [sample_header; short_line] ->
                parse_row sample_float sample_int (fields line) = None) /\
  load_data sample_float sample_int [sample_header; short_line] = Raise IndexError /\
  ~ (load_data sample_float sample_int [sample_header; short_line] = Ok None <->
     forall line, In line [sample_header; short_line] ->
                  parse_row sample_float sample_int (fields line) = None).
Proof.
  assert (Hnone : forall line, In line [sample_header; short_line] ->
                    parse_row sample_float sample_int (fields line) = None).
  { intros line [<- | [<- | []]]; vm_compute; reflexivity. }
  assert (Hraise : load_data sample_float sample_int [sample_header; short_line]
                   = Raise IndexError) by (vm_compute; reflexivity).
  split; [exact Hnone|]. split; [exact Hraise|].
  intros [_ Hback]. rewrite Hraise in Hback. specialize (Hback Hnone).
  discriminate Hback.
Qed.

(** C9. When [load_data] has returned a [HistoricalWeather], every
    well-formed row, none of the rows before which is well-formed with the
    same year, month and day, is retrieved from the result at the date made
    of its year, month and day, as the [DailyWeather] of its mean, minimum
    and maximum temperature and of its precipitation, rain and snow, each of
    these three being [-1] when its flag is ["T"]. *)
Theorem load_data_round_trip
    (str_to_float : string -> option Q) (str_to_int : string -> option Z)
    (f : list string) (hw : HistoricalWeather)
    (i : nat) (line : string) (y m d : Z) (w : DailyWeather) :
  load_data str_to_float str_to_int f = Ok (Some hw) ->
  nth_error f i = Some line ->
  parse_row str_to_float str_to_int (fields line) = Some (y, m, d, w) ->
  (forall j line' y' m' d' w',
      (j < i)%nat -> nth_error f j = Some line' ->
      parse_row str_to_float str_to_int (fields line') = Some (y', m', d', w') ->
      (y', m', d') <> (y, m, d)) ->
  exists the_date,
    new_date y m d = Ok the_date /\
    retrieve_weather the_date hw = (Ok (Some w), hw).
Proof.
  intros Hload Hnth Hp Hearlier.
  destruct (rows_tame str_to_float str_to_int (map cells f)) eqn:Ht.
  2:{ rewrite (load_data_index_error str_to_float str_to_int f Ht) in Hload.
      discriminate Hload. }
  destruct (load_data_spec str_to_float str_to_int f Ht) as [_ Hsome].
  destruct Hsome as (n & c & Hl).
  { intros Hnil.
    assert (In line (filter (parses str_to_float str_to_int) f)) as Hf.
    { apply filter_In. split; [eapply nth_error_In; exact Hnth|].
      apply parses_true. eauto. }
    rewrite Hnil in Hf. contradiction. }
  rewrite Hl in Hload. unfold exec in Hload.
  destruct (for_each f (fun line _ => add_line str_to_float str_to_int line) tt
              (HistoricalWeather_init n c)) as [[[]|e|] hw'] eqn:Hrun;
    try discriminate Hload.
  injection Hload as ->.
  destruct (add_lines_retrieve str_to_float str_to_int f _ _ Hrun) as [_ Hget].
  destruct (Hget i line y m d w Hnth Hp eq_refl Hearlier) as [Hv Hg].
  exists (mkdate y m d). split.
  - apply new_date_valid. exact Hv.
  - rewrite retrieve_weather_run, Hg. reflexivity.
Qed.

Lemma load_data_round_trip_witness :
  exists the_date,
    new_date 2020 1 2 = Ok the_date /\
    retrieve_weather the_date
      (set_records (HistoricalWeather_init "TORONTO" (43.67, -79.4)%Q)
         [(mkdate 2020 1 2,
           DailyWeather_init (1.0, -1.5, 3.5)%Q (-1, 0.0, 1.2)%Q)])
    = (Ok (Some (DailyWeather_init (1.0, -1.5, 3.5)%Q (-1, 0.0, 1.2)%Q)),
       set_records (HistoricalWeather_init "TORONTO" (43.67, -79.4)%Q)
         [(mkdate 2020 1 2,
           DailyWeather_init (1.0, -1.5, 3.5)%Q (-1, 0.0, 1.2)%Q)]).
Proof.
  apply (load_data_round_trip sample_float sample_int
           [sample_header; sample_line] _ 1 sample_line 2020 1 2).
  - vm_compute. reflexivity.
  - reflexivity.
  - vm_compute. reflexivity.
  - intros j line' y' m' d' w' Hj Hnth Hp.
    destruct j as [|j]; [|lia].
    simpl in Hnth. injection Hnth as <-. vm_compute in Hp. discriminate Hp.
Defined.

(** ** The examples of the test suite and of the docstrings *)

Example record_high_june : fst (record_high 6 4 june_store) = Ok 30%Q.
Proof. reflexivity. Qed.

Example percentage_snowfall_november :
  exists p, fst (percentage_snowfall november_store) = Ok p /\ (p == 0.4)%Q.
Proof. eexists. split; [vm_compute; reflexivity | reflexivity]. Qed.

Example contiguous_precipitation_rainy :
  fst (contiguous_precipitation rainy_store) = Ok (mkdate 2012 6 4, 2%nat).
Proof. vm_compute. reflexivity. Qed.

Example snowiest_location_canada :
  exists p, fst (snowiest_location canada) = Ok (Some "YYZ"%string, Some p)
            /\ (p == 0.6)%Q.
Proof. eexists. split; [vm_compute; reflexivity | reflexivity]. Qed.

Example load_data_header_only :
  load_data sample_float sample_int [sample_header] = Ok None.
Proof. vm_compute. reflexivity. Qed.

Example load_data_trace :
  exists hw w,
    load_data sample_float sample_int [sample_header; sample_line] = Ok (Some hw) /\
    fst (retrieve_weather (mkdate 2020 1 2) hw) = Ok (Some w) /\
    precipitation w = (-1)%Q.
Proof. do 2 eexists. vm_compute. repeat split. Qed.

(** * Further properties of the classes *)

(** ** [add_weather] and [retrieve_weather] *)

(** [add_weather d w] touches nothing but the entry of [d]: the name, the
    coordinates and the record of every other date stay, and the store
    grows by one entry when [d] was absent and by none when it was
    present. *)
Theorem add_weather_frame (hw : HistoricalWeather) (d : date) (w : DailyWeather) :
  let hw' := snd (add_weather d w hw) in
  name hw' = name hw /\
  coordinates hw' = coordinates hw /\
  (forall d', d' <> d ->
              dict_get date_eqb (_records hw') d' = dict_get date_eqb (_records hw) d') /\
  List.length (_records hw') =
  (if dict_contains date_eqb (_records hw) d
   then List.length (_records hw)
   else S (List.length (_records hw))).
Proof.
  cbv zeta. rewrite add_weather_run. unfold dict_contains. simpl.
  destruct (dict_get date_eqb (_records hw) d) as [w0|] eqn:G; simpl.
  - repeat split; reflexivity.
  - repeat split; try reflexivity.
    + intros d' Hne. rewrite dict_get_app. simpl.
      destruct (dict_get date_eqb (_records hw) d'); [reflexivity|].
      destruct (date_eqb d d') eqn:E; [|reflexivity].
      apply date_eqb_eq in E. congruence.
    + rewrite length_app. simpl. lia.
Qed.

Lemma add_all_keeps_wf (entries : list (date * DailyWeather)) :
  forall hw,
    dict_wf (_records hw) ->
    fst (add_all entries hw) = Ok tt /\
    dict_wf (_records (snd (add_all entries hw))).
Proof.
  unfold add_all.
  induction entries as [|[d w] entries IH]; intros hw Hwf; simpl.
  - split; [reflexivity | exact Hwf].
  - unfold bind. rewrite add_weather_run. simpl fst. simpl snd.
    apply IH.
    pose proof (add_weather_wf hw d w Hwf) as H.
    rewrite add_weather_run in H. exact H.
Qed.

(** Whatever dates and records are inserted, in whatever order and with
    whatever repetitions, into a new [HistoricalWeather], every call
    returns normally and the dates of the store are pairwise distinct. *)
Theorem add_all_distinct_dates (entries : list (date * DailyWeather))
    (n : string) (c : Q * Q) :
  fst (add_all entries (HistoricalWeather_init n c)) = Ok tt /\
  NoDup (dict_keys (_records (snd (add_all entries (HistoricalWeather_init n c))))).
Proof.
  apply add_all_keeps_wf. constructor.
Qed.

(** [retrieve_weather d] never raises, and it returns [None] exactly when
    [d] is not one of the recorded dates. *)
Theorem retrieve_weather_miss (hw : HistoricalWeather) (d : date) :
  (exists r, fst (retrieve_weather d hw) = Ok r) /\
  (fst (retrieve_weather d hw) = Ok None <-> ~ In d (dict_keys (_records hw))).
Proof.
  rewrite retrieve_weather_run. simpl. split; [eauto|]. split.
  - intros H Hin. apply (In_keys_dict_get _ date_eqb_eq) in Hin.
    destruct Hin as [w Hw]. congruence.
  - intros Hnot. destruct (dict_get date_eqb (_records hw) d) as [w|] eqn:G;
      [|reflexivity].
    exfalso. apply Hnot. eapply dict_get_In_keys; [apply date_eqb_eq | exact G].
Qed.

(** ** The preconditions of the queries *)

(** [record_high m d] raises [ValueError], from [max] of an empty list,
    exactly when no recorded date has month [m] and day [d]. *)
Theorem record_high_no_data (hw : HistoricalWeather) (m d : Z) :
  fst (record_high m d hw) = Raise ValueError <->
  ~ exists key, In key (dict_keys (_records hw)) /\ month key = m /\ day key = d.
Proof.
  rewrite record_high_run. simpl.
  set (temp_list := fold_left (fun a k => record_high_step (_records hw) m d k a)
                      (dict_keys (_records hw)) []).
  assert (Hin : forall x, In x temp_list <->
                exists key w, In key (dict_keys (_records hw)) /\
                  dict_get date_eqb (_records hw) key = Some w /\
                  month key = m /\ day key = d /\ high_temp w = x).
  { intros x. unfold temp_list. rewrite record_high_step_In. simpl. tauto. }
  destruct temp_list as [|x l]; simpl.
  - split; [|reflexivity]. intros _ (key & Hk & Hm & Hd).
    destruct (In_keys_dict_get _ date_eqb_eq _ _ Hk) as [w Hw].
    apply (proj2 (Hin (high_temp w))). exists key, w. auto.
  - split; [discriminate|]. intros Hnone. exfalso. apply Hnone.
    destruct (proj1 (Hin x) (or_introl eq_refl)) as (key & w & Hk & _ & Hm & Hd & _).
    exists key. auto.
Qed.

(** [percentage_snowfall] raises [ZeroDivisionError] exactly when the sum
    of the snowfall and rainfall amounts other than [-1] is zero, as it is
    on a store without records; otherwise it returns. *)
Theorem percentage_snowfall_zero_division (hw : HistoricalWeather) :
  dict_wf (_records hw) ->
  let S := total_without_trace (map snowfall (dict_values (_records hw))) in
  let R := total_without_trace (map rainfall (dict_values (_records hw))) in
  (fst (percentage_snowfall hw) = Raise ZeroDivisionError <-> (S + R == 0)%Q) /\
  (_records hw = [] -> fst (percentage_snowfall hw) = Raise ZeroDivisionError).
Proof.
  intros Hwf S R. rewrite percentage_snowfall_run by exact Hwf.
  fold S R. unfold py_truediv. simpl. split.
  - destruct (Qeq_bool (S + R) 0) eqn:E.
    + apply Qeq_bool_iff in E. tauto.
    + apply Qeq_bool_neq in E. split; [discriminate | contradiction].
  - intros Hnil. unfold S, R. rewrite Hnil. reflexivity.
Qed.

Lemma percentage_snowfall_zero_division_witness :
  (fst (percentage_snowfall november_store) = Raise ZeroDivisionError <->
   (total_without_trace (map snowfall (dict_values (_records november_store)))
    + total_without_trace (map rainfall (dict_values (_records november_store)))
    == 0)%Q) /\
  (_records november_store = [] ->
   fst (percentage_snowfall november_store) = Raise ZeroDivisionError).
Proof.
  exact (percentage_snowfall_zero_division november_store november_store_wf).
Defined.

Lemma fold_plus_not_negative (l : list Q) :
  forall acc,
    (0 <= acc)%Q -> (forall x, In x l -> (0 <= x)%Q) ->
    (0 <= fold_left Qplus l acc)%Q.
Proof.
  induction l as [|x l IH]; intros acc Hacc Hall; simpl; [exact Hacc|].
  apply IH.
  - assert (0 <= x)%Q by (apply Hall; left; reflexivity). lra.
  - intros y Hy. apply Hall. right. exact Hy.
Qed.

Lemma total_without_trace_not_negative (amounts : list Q) :
  (forall x, In x amounts -> trace_or_not_negative x) ->
  (0 <= total_without_trace amounts)%Q.
Proof.
  intros Hall. unfold total_without_trace, py_sum.
  apply fold_plus_not_negative; [lra|].
  intros x Hx. apply filter_In in Hx. destruct Hx as [Hin Hne].
  destruct (Hall x Hin) as [Htrace | Hpos]; [|exact Hpos].
  apply Qeq_bool_iff in Htrace. rewrite Htrace in Hne. discriminate.
Qed.

(** When every snowfall and rainfall amount is the trace marker or is not
    negative, a result of [percentage_snowfall] lies between 0 and 1. *)
Theorem percentage_snowfall_range (hw : HistoricalWeather) (p : Q) :
  dict_wf (_records hw) ->
  (forall w, In w (dict_values (_records hw)) ->
             trace_or_not_negative (snowfall w) /\ trace_or_not_negative (rainfall w)) ->
  fst (percentage_snowfall hw) = Ok p ->
  (0 <= p <= 1)%Q.
Proof.
  intros Hwf Hall. rewrite percentage_snowfall_run by exact Hwf. simpl.
  set (S := total_without_trace (map snowfall (dict_values (_records hw)))).
  set (R := total_without_trace (map rainfall (dict_values (_records hw)))).
  assert (HS : (0 <= S)%Q).
  { apply total_without_trace_not_negative. intros x Hx.
    apply in_map_iff in Hx. destruct Hx as (w & <- & Hw). apply Hall. exact Hw. }
  assert (HR : (0 <= R)%Q).
  { apply total_without_trace_not_negative. intros x Hx.
    apply in_map_iff in Hx. destruct Hx as (w & <- & Hw). apply Hall. exact Hw. }
  unfold py_truediv. destruct (Qeq_bool (S + R) 0) eqn:E; [discriminate|].
  apply Qeq_bool_neq in E. intros [= <-].
  assert (Hpos : (0 < S + R)%Q).
  { destruct (Qle_lt_or_eq 0 (S + R)) as [H | H]; [lra | exact H |].
    exfalso. apply E. symmetry. exact H. }
  split.
  - apply Qle_shift_div_l; [exact Hpos | lra].
  - apply Qle_shift_div_r; [exact Hpos | lra].
Qed.

Lemma november_store_plausible :
  forall w, In w (dict_values (_records november_store)) ->
            trace_or_not_negative (snowfall w) /\ trace_or_not_negative (rainfall w).
Proof.
  intros w [<- | []]. split; right; simpl; lra.
Defined.

Lemma percentage_snowfall_range_witness :
  fst (percentage_snowfall november_store) = Ok ((0 + 2) / (0 + 2 + (0 + 3)))%Q /\
  (0 <= (0 + 2) / (0 + 2 + (0 + 3)) <= 1)%Q.
Proof.
  assert (H : fst (percentage_snowfall november_store)
              = Ok ((0 + 2) / (0 + 2 + (0 + 3)))%Q) by (vm_compute; reflexivity).
  split; [exact H|].
  exact (percentage_snowfall_range november_store _
           november_store_wf november_store_plausible H).
Defined.

(** ** [contiguous_precipitation]: errors and ties *)

Lemma add_one_day_outcome (d : date) :
  add_one_day d = Ok (next_day d) \/ add_one_day d = Raise OverflowError.
Proof.
  unfold add_one_day. destruct (MAXYEAR <? year (next_day d))%Z; auto.
Qed.

(** Whatever the store, the loop ends normally, at the end of a run, or
    with [OverflowError], or its bound is exhausted on a run as long as
    the bound. *)
Lemma precipitation_run_outcome (hw : HistoricalWeather) (fuel : nat) :
  forall d count,
    (exists n, (n < fuel)%nat /\
               precipitation_run fuel d count hw = (Ok (count + n)%nat, hw))
    \/ precipitation_run fuel d count hw = (Raise OverflowError, hw)
    \/ (precipitation_run fuel d count hw = (OutOfFuel, hw) /\
        is_run (_records hw) d fuel).
Proof.
  induction fuel as [|fuel IH]; intros d count; simpl.
  - right. right. split; [reflexivity|]. intros i Hi. lia.
  - erewrite bind_ok by apply precipitation_test_run.
    destruct (precipitating (_records hw) d) eqn:Hd.
    + destruct (add_one_day_outcome d) as [Hnext | Hnext].
      * erewrite bind_ok by (unfold lift; rewrite Hnext; reflexivity).
        destruct (IH (next_day d) (S count))
          as [(n & Hn & Hrun) | [Hover | (Hout & Hr)]].
        -- left. exists (S n). split; [lia|].
           rewrite Hrun. f_equal. f_equal. lia.
        -- right. left. exact Hover.
        -- right. right. split; [exact Hout|]. apply is_run_step; assumption.
      * right. left. unfold bind, lift. rewrite Hnext. reflexivity.
    + left. exists 0%nat. split; [lia|]. rewrite Nat.add_0_r. reflexivity.
Qed.

Lemma precipitation_run_never_out_of_fuel (hw : HistoricalWeather) (d : date) :
  (exists n, precipitation_run (S (List.length (dict_keys (_records hw)))) d 0 hw
             = (Ok n, hw))
  \/ precipitation_run (S (List.length (dict_keys (_records hw)))) d 0 hw
     = (Raise OverflowError, hw).
Proof.
  destruct (precipitation_run_outcome hw (S (List.length (dict_keys (_records hw)))) d 0)
    as [(n & _ & Hrun) | [Hover | (_ & Hr)]].
  - left. exists n. exact Hrun.
  - right. exact Hover.
  - apply is_run_bounded in Hr. unfold dict_keys in Hr.
    rewrite length_map in Hr. lia.
Qed.

Lemma precipitation_run_last_day (hw : HistoricalWeather) (fuel : nat) :
  precipitating (_records hw) date_max = true ->
  precipitation_run (S fuel) date_max 0 hw = (Raise OverflowError, hw).
Proof.
  intros Hwet. simpl.
  erewrite bind_ok by apply precipitation_test_run.
  rewrite Hwet. reflexivity.
Qed.

Lemma contiguous_loop_overflow (hw : HistoricalWeather) (keys : list date) :
  In date_max keys ->
  precipitating (_records hw) date_max = true ->
  forall lists,
    fst (for_each keys
           (fun key lists =>
              bind (precipitation_run (S (List.length (dict_keys (_records hw)))) key 0)
                   (fun count => ret (fst lists ++ [key], snd lists ++ [count])))
           lists hw)
    = Raise OverflowError.
Proof.
  intros Hin Hwet.
  induction keys as [|key keys IH]; intros lists; [contradiction|].
  cbn [for_each]. unfold bind at 1. unfold bind at 1.
  destruct (precipitation_run_never_out_of_fuel hw key) as [(n & Hrun) | Hover].
  - rewrite Hrun. cbv beta iota. unfold ret at 1.
    destruct Hin as [-> | Hin].
    + rewrite precipitation_run_last_day in Hrun by exact Hwet. discriminate.
    + apply IH. exact Hin.
  - rewrite Hover. reflexivity.
Qed.

Lemma contiguous_precipitation_run (hw : HistoricalWeather) :
  (forall key, In key (dict_keys (_records hw)) -> valid_date key = true) ->
  precipitating (_records hw) date_max = false ->
  contiguous_precipitation hw =
  bind (lift (py_max (fun item best => (best <? item)%nat)
                (map (run_from hw) (dict_keys (_records hw)))))
    (fun mx =>
       bind (lift (list_index Nat.eqb (map (run_from hw) (dict_keys (_records hw))) mx))
         (fun i =>
            bind (lift (list_getitem (dict_keys (_records hw)) i))
              (fun start => ret (start, mx)))) hw.
Proof.
  intros Hvalid Hdry.
  unfold contiguous_precipitation. erewrite bind_ok by reflexivity. cbv zeta.
  erewrite bind_ok by (apply (contiguous_lists_run hw Hvalid Hdry)).
  reflexivity.
Qed.

Lemma list_index_first (l : list nat) (x : nat) :
  In x l ->
  exists i, list_index Nat.eqb l x = Ok i /\ nth_error l i = Some x /\
            forall j, (j < i)%nat -> nth_error l j <> Some x.
Proof.
  induction l as [|y l IH]; simpl; [tauto|]. intros Hin.
  destruct (Nat.eqb y x) eqn:E.
  - apply Nat.eqb_eq in E. subst. exists 0%nat.
    split; [reflexivity|]. split; [reflexivity|]. intros j Hj. lia.
  - destruct Hin as [-> | Hin]; [rewrite Nat.eqb_refl in E; discriminate|].
    destruct (IH Hin) as (i & -> & Hi & Hfirst). exists (S i).
    split; [reflexivity|]. split; [exact Hi|].
    intros [|j] Hj; simpl.
    + intros [= ->]. rewrite Nat.eqb_refl in E. discriminate.
    + apply Hfirst. lia.
Qed.

(** On a store whose dates are dates of the calendar,
    [contiguous_precipitation] raises [ValueError], from [max] of an empty
    list, exactly when the store is empty, and [OverflowError] exactly when
    9999-12-31 is a recorded day with precipitation; in every other case it
    returns. *)
Theorem contiguous_precipitation_errors (hw : HistoricalWeather) :
  (forall key, In key (dict_keys (_records hw)) -> valid_date key = true) ->
  (fst (contiguous_precipitation hw) = Raise ValueError <-> _records hw = []) /\
  (fst (contiguous_precipitation hw) = Raise OverflowError <->
   precipitating (_records hw) date_max = true) /\
  (_records hw <> [] -> precipitating (_records hw) date_max = false ->
   exists start n, fst (contiguous_precipitation hw) = Ok (start, n)).
Proof.
  intros Hvalid.
  assert (Hempty : _records hw = [] ->
                   fst (contiguous_precipitation hw) = Raise ValueError).
  { intros Hnil. unfold contiguous_precipitation, bind, get. rewrite Hnil.
    reflexivity. }
  assert (Hover : precipitating (_records hw) date_max = true ->
                  fst (contiguous_precipitation hw) = Raise OverflowError).
  { intros Hwet. unfold contiguous_precipitation.
    erewrite bind_ok by reflexivity. cbv zeta. unfold bind at 1.
    pose proof (contiguous_loop_overflow hw (dict_keys (_records hw))
                  (precipitating_key _ _ Hwet) Hwet ([], [])) as H.
    destruct (for_each (dict_keys (_records hw)) _ ([], []) hw) as [o s].
    simpl in H. subst o. reflexivity. }
  assert (Hok : _records hw <> [] -> precipitating (_records hw) date_max = false ->
                exists start n, fst (contiguous_precipitation hw) = Ok (start, n)).
  { intros Hne Hdry. rewrite (contiguous_precipitation_run hw Hvalid Hdry).
    set (keys := dict_keys (_records hw)).
    set (counts := map (run_from hw) keys).
    assert (Hcne : counts <> []).
    { unfold counts, keys, dict_keys. destruct (_records hw); [congruence|].
      simpl. discriminate. }
    destruct (py_max_nat counts Hcne) as (mx & Hmx & Hin & _).
    erewrite bind_ok by (unfold lift; rewrite Hmx; reflexivity).
    destruct (list_index_In counts mx Hin) as (i & Hi & Hnth).
    erewrite bind_ok by (unfold lift; rewrite Hi; reflexivity).
    unfold counts in Hnth. rewrite nth_error_map in Hnth.
    destruct (nth_error keys i) as [start|] eqn:Hstart; [|discriminate].
    erewrite bind_ok by (unfold lift, list_getitem; rewrite Hstart; reflexivity).
    exists start, mx. reflexivity. }
  assert (Hstore : _records hw = [] \/ _records hw <> [])
    by (destruct (_records hw); [left; reflexivity | right; discriminate]).
  assert (Hday : precipitating (_records hw) date_max = true \/
                 precipitating (_records hw) date_max = false)
    by (destruct (precipitating (_records hw) date_max); auto).
  split; [|split; [|exact Hok]].
  - split; [|exact Hempty]. intros Hraise.
    destruct Hstore as [Hnil | Hne]; [exact Hnil|]. exfalso.
    destruct Hday as [Hwet | Hdry].
    + rewrite (Hover Hwet) in Hraise. discriminate.
    + destruct (Hok Hne Hdry) as (start & n & H).
      rewrite H in Hraise. discriminate.
  - split; [|exact Hover]. intros Hraise.
    destruct Hday as [Hwet | Hdry]; [exact Hwet|]. exfalso.
    destruct Hstore as [Hnil | Hne].
    + rewrite (Hempty Hnil) in Hraise. discriminate.
    + destruct (Hok Hne Hdry) as (start & n & H).
      rewrite H in Hraise. discriminate.
Qed.

Lemma contiguous_precipitation_errors_witness :
  (fst (contiguous_precipitation rainy_store) = Raise ValueError <->
   _records rainy_store = []) /\
  (fst (contiguous_precipitation rainy_store) = Raise OverflowError <->
   precipitating (_records rainy_store) date_max = true) /\
  (_records rainy_store <> [] ->
   precipitating (_records rainy_store) date_max = false ->
   exists start n, fst (contiguous_precipitation rainy_store) = Ok (start, n)).
Proof. exact (contiguous_precipitation_errors rainy_store rainy_store_valid). Defined.

(** Among the dates from which a longest run starts,
    [contiguous_precipitation] returns the one inserted first: no date
    inserted before the returned one starts a run of the returned length.
    In particular, when no recorded day has precipitation it returns the
    date inserted first, with the length 0. *)
Theorem contiguous_precipitation_first_tie
    (hw : HistoricalWeather) (start : date) (n : nat) :
  (forall key, In key (dict_keys (_records hw)) -> valid_date key = true) ->
  precipitating (_records hw) date_max = false ->
  fst (contiguous_precipitation hw) = Ok (start, n) ->
  exists before after,
    dict_keys (_records hw) = before ++ start :: after /\
    forall key, In key before -> ~ is_run (_records hw) key n.
Proof.
  intros Hvalid Hdry Hres.
  rewrite (contiguous_precipitation_run hw Hvalid Hdry) in Hres.
  set (keys := dict_keys (_records hw)) in *.
  set (counts := map (run_from hw) keys) in *.
  destruct counts as [|c0 counts0] eqn:Ecounts; [discriminate Hres|].
  rewrite <- Ecounts in *.
  assert (Hcne : counts <> []) by (rewrite Ecounts; discriminate).
  destruct (py_max_nat counts Hcne) as (mx & Hmx & Hin & Hmax).
  erewrite bind_ok in Hres by (unfold lift; rewrite Hmx; reflexivity).
  destruct (list_index_first counts mx Hin) as (i & Hi & Hnth & Hfirst).
  erewrite bind_ok in Hres by (unfold lift; rewrite Hi; reflexivity).
  assert (Hnth' := Hnth). rewrite Ecounts in Hnth'. rewrite <- Ecounts in Hnth'.
  unfold counts in Hnth'. rewrite nth_error_map in Hnth'.
  destruct (nth_error keys i) as [s|] eqn:Hs; [|discriminate].
  erewrite bind_ok in Hres by (unfold lift, list_getitem; rewrite Hs; reflexivity).
  simpl in Hres. injection Hres as -> ->.
  destruct (nth_error_split keys i Hs) as (before & after & Hkeys & Hlen).
  exists before, after. split; [exact Hkeys|].
  intros key Hkey Hrun.
  destruct (In_nth_error before key Hkey) as [j Hj].
  assert (Hjlt : (j < i)%nat).
  { rewrite <- Hlen. apply nth_error_Some. congruence. }
  assert (Hkj : nth_error keys j = Some key).
  { rewrite Hkeys, nth_error_app1 by lia. exact Hj. }
  assert (Hcj : nth_error counts j = Some (run_from hw key)).
  { unfold counts. rewrite nth_error_map, Hkj. reflexivity. }
  apply (Hfirst j Hjlt). rewrite Hcj. f_equal.
  apply Nat.le_antisymm.
  - apply Hmax. eapply nth_error_In. exact Hcj.
  - apply (run_from_longest hw Hvalid Hdry). exact Hrun.
Qed.

Lemma contiguous_precipitation_first_tie_witness :
  exists before after,
    dict_keys (_records rainy_store) = before ++ mkdate 2012 6 4 :: after /\
    forall key, In key before -> ~ is_run (_records rainy_store) key 2.
Proof.
  apply (contiguous_precipitation_first_tie rainy_store (mkdate 2012 6 4) 2
           rainy_store_valid).
  - reflexivity.
  - vm_compute. reflexivity.
Defined.

(** ** [Country]: insertion and lookup *)

Lemma retrieve_history_run (c : Country) (n : string) :
  retrieve_history n c = (Ok (dict_get String.eqb (_histories c) n), c).
Proof.
  unfold retrieve_history, dict_contains, bind, get, lift, ret, dict_getitem.
  destruct (dict_get String.eqb (_histories c) n); reflexivity.
Qed.

Lemma add_history_run (c : Country) (hw : HistoricalWeather) :
  add_history hw c =
  (Ok tt,
   match dict_get String.eqb (_histories c) (name hw) with
   | Some _ => c
   | None => set_histories c (_histories c ++ [(name hw, hw)])
   end).
Proof.
  unfold add_history, dict_contains, bind, get, put, ret.
  destruct (dict_get String.eqb (_histories c) (name hw)) eqn:G; simpl;
    [reflexivity|].
  rewrite (dict_setitem_fresh _ _ _ _ G). reflexivity.
Qed.

(** [add_history hw] returns normally. On a country without a location of
    the name of [hw], [retrieve_history] of that name then returns [hw];
    on a country that already holds [hw0] under that name, the country is
    unchanged and [retrieve_history] still returns [hw0]. *)
Theorem add_history_retrieve_history (c : Country) (hw : HistoricalWeather) :
  let c' := snd (add_history hw c) in
  fst (add_history hw c) = Ok tt /\
  match dict_get String.eqb (_histories c) (name hw) with
  | None => retrieve_history (name hw) c' = (Ok (Some hw), c')
  | Some hw0 => c' = c /\ retrieve_history (name hw) c' = (Ok (Some hw0), c')
  end.
Proof.
  cbv zeta. rewrite add_history_run. simpl. split; [reflexivity|].
  destruct (dict_get String.eqb (_histories c) (name hw)) as [hw0|] eqn:G.
  - split; [reflexivity|]. rewrite retrieve_history_run, G. reflexivity.
  - rewrite retrieve_history_run. simpl. rewrite dict_get_app, G. simpl.
    rewrite String.eqb_refl. reflexivity.
Qed.

(** [add_history hw] leaves the name of the country and the history of
    every location of another name as they were. *)
Theorem add_history_frame (c : Country) (hw : HistoricalWeather) :
  let c' := snd (add_history hw c) in
  country_name c' = country_name c /\
  forall n, n <> name hw ->
            dict_get String.eqb (_histories c') n = dict_get String.eqb (_histories c) n.
Proof.
  cbv zeta. rewrite add_history_run. simpl.
  destruct (dict_get String.eqb (_histories c) (name hw)) as [hw0|] eqn:G; simpl.
  - split; reflexivity.
  - split; [reflexivity|]. intros n Hne. rewrite dict_get_app. simpl.
    destruct (dict_get String.eqb (_histories c) n); [reflexivity|].
    destruct (String.eqb (name hw) n) eqn:E; [|reflexivity].
    apply String.eqb_eq in E. congruence.
Qed.

(** [retrieve_history n] never raises, leaves the country unchanged, and
    returns [None] exactly when no location is named [n]. *)
Theorem retrieve_history_miss (c : Country) (n : string) :
  snd (retrieve_history n c) = c /\
  (exists r, fst (retrieve_history n c) = Ok r) /\
  (fst (retrieve_history n c) = Ok None <-> ~ In n (dict_keys (_histories c))).
Proof.
  rewrite retrieve_history_run. simpl. split; [reflexivity|]. split; [eauto|].
  split.
  - intros H Hin. apply (In_keys_dict_get _ String.eqb_eq) in Hin.
    destruct Hin as [hw Hhw]. congruence.
  - intros Hnot. destruct (dict_get String.eqb (_histories c) n) as [hw|] eqn:G;
      [|reflexivity].
    exfalso. apply Hnot. eapply dict_get_In_keys; [apply String.eqb_eq | exact G].
Qed.

Lemma add_history_keeps_invariants (c : Country) (hw : HistoricalWeather) :
  keys_are_names c -> dict_wf (_histories c) ->
  keys_are_names (snd (add_history hw c)) /\
  dict_wf (_histories (snd (add_history hw c))).
Proof.
  intros Hnames Hwf. rewrite add_history_run. simpl.
  destruct (dict_get String.eqb (_histories c) (name hw)) as [hw0|] eqn:G;
    [split; assumption|].
  simpl. split.
  - intros k h. unfold set_histories. simpl. rewrite dict_get_app.
    destruct (dict_get String.eqb (_histories c) k) eqn:Gk.
    + intros [= <-]. apply Hnames. exact Gk.
    + simpl. destruct (String.eqb (name hw) k) eqn:E; [|discriminate].
      intros [= <-]. apply String.eqb_eq. exact E.
  - rewrite <- (dict_setitem_fresh String.eqb _ _ hw G).
    apply (dict_wf_setitem_fresh _ String.eqb_eq); assumption.
Qed.

(** Whatever histories are added, in whatever order and with whatever
    repeated names, to a new [Country], every call returns normally, every
    key of the country is the name of the history it maps to, and no name
    occurs twice. *)
Theorem add_histories_invariants (histories : list HistoricalWeather) (n : string) :
  let c := snd (add_histories histories (Country_init n)) in
  fst (add_histories histories (Country_init n)) = Ok tt /\
  keys_are_names c /\
  NoDup (dict_keys (_histories c)).
Proof.
  cbv zeta.
  assert (H : forall c0,
             keys_are_names c0 -> dict_wf (_histories c0) ->
             fst (add_histories histories c0) = Ok tt /\
             keys_are_names (snd (add_histories histories c0)) /\
             dict_wf (_histories (snd (add_histories histories c0)))).
  { unfold add_histories.
    induction histories as [|hw histories IH]; intros c0 Hnames Hwf; simpl.
    - auto.
    - unfold bind. pose proof (add_history_keeps_invariants c0 hw Hnames Hwf) as Hk.
      rewrite add_history_run in *. simpl fst in *. simpl snd in *.
      apply IH; tauto. }
  apply H.
  - intros k hw Hget. discriminate Hget.
  - constructor.
Qed.

(** ** [snowiest_location]: frame, errors and ties *)

Lemma read_only_call_history {A : Type} (location : string)
    (method : M HistoricalWeather A) :
  read_only method -> read_only (call_history location method).
Proof.
  intros Hro c. unfold call_history.
  destruct (dict_get String.eqb (_histories c) location) as [hw|] eqn:G;
    [|reflexivity].
  specialize (Hro hw). destruct (method hw) as [o hw']. simpl in *. subst hw'.
  rewrite dict_setitem_same by exact G. destruct c. reflexivity.
Qed.

(** [snowiest_location] ends, normally or not, with the country, and
    every history in it, as it found them. *)
Theorem snowiest_location_leaves_country (c : Country) :
  snd (snowiest_location c) = c.
Proof.
  revert c. change (read_only snowiest_location). unfold snowiest_location.
  repeat (ro; try (apply read_only_call_history;
                   apply read_only_percentage_snowfall)).
Qed.

Lemma percentage_snowfall_outcome (hw : HistoricalWeather) :
  (exists p, fst (percentage_snowfall hw) = Ok p) \/
  fst (percentage_snowfall hw) = Raise ZeroDivisionError.
Proof.
  unfold percentage_snowfall. erewrite bind_ok by reflexivity.
  erewrite bind_ok.
  2:{ apply for_each_pure with
        (f := fun key a =>
                match dict_get date_eqb (_records hw) key with
                | Some w => (add_unless_trace (fst a) (snowfall w),
                             add_unless_trace (snd a) (rainfall w))
                | None => a
                end).
      intros key acc Hkey.
      destruct (In_keys_dict_get _ date_eqb_eq _ _ Hkey) as [w Hw].
      rewrite Hw. unfold add_unless_trace.
      cbv [bind records_getitem get lift ret dict_getitem].
      repeat (rewrite Hw; cbv beta iota).
      destruct (negb (Qeq_bool (rainfall w) (-1)));
        repeat (rewrite Hw; cbv beta iota);
        destruct (negb (Qeq_bool (snowfall w) (-1)));
        repeat (rewrite Hw; cbv beta iota);
        reflexivity. }
  unfold lift, py_truediv. simpl.
  match goal with
  | |- context [Qeq_bool ?y 0] => destruct (Qeq_bool y 0)
  end; simpl; eauto.
Qed.

(** When [percentage_snowfall] raises [ZeroDivisionError] on a contained
    location, as it does on a location without records,
    [snowiest_location] raises [ZeroDivisionError]. *)
Theorem snowiest_location_zero_division (c : Country) :
  (exists location hw,
      dict_get String.eqb (_histories c) location = Some hw /\
      fst (percentage_snowfall hw) = Raise ZeroDivisionError) ->
  fst (snowiest_location c) = Raise ZeroDivisionError.
Proof.
  intros (location & hw & Hget & Hraise).
  unfold snowiest_location. erewrite bind_ok by reflexivity.
  assert (Hlen : (List.length (_histories c) =? 0)%nat = false).
  { destruct (_histories c); [discriminate Hget | reflexivity]. }
  rewrite Hlen. unfold bind at 1.
  assert (Hin : In location (dict_keys (_histories c)))
    by (eapply dict_get_In_keys; [apply String.eqb_eq | exact Hget]).
  assert (Hloop : forall keys,
             incl keys (dict_keys (_histories c)) -> In location keys ->
             forall highest,
               fst (for_each keys
                      (fun location highest =>
                         bind (call_history location percentage_snowfall)
                           (fun p =>
                              if Qle_bool (snd highest) p
                              then bind (call_history location percentage_snowfall)
                                     (fun p' => ret (location, p'))
                              else ret highest))
                      highest c)
               = Raise ZeroDivisionError).
  { induction keys as [|key keys IH]; intros Hincl Hloc highest; [contradiction|].
    cbn [for_each]. unfold bind at 1. unfold bind at 1.
    destruct (In_keys_dict_get _ String.eqb_eq _ _ (Hincl key (or_introl eq_refl)))
      as [hwk Hk].
    rewrite (call_history_read_only c key hwk _ read_only_percentage_snowfall Hk).
    destruct (percentage_snowfall_outcome hwk) as [[p Hp] | Hz].
    - rewrite Hp.
      assert (Hnext : fst (for_each keys
                             (fun location highest =>
                                bind (call_history location percentage_snowfall)
                                  (fun p =>
                                     if Qle_bool (snd highest) p
                                     then bind (call_history location percentage_snowfall)
                                            (fun p' => ret (location, p'))
                                     else ret highest))
                             (if Qle_bool (snd highest) p then (key, p) else highest) c)
                      = Raise ZeroDivisionError).
      { apply IH.
        - intros k Hk'. apply Hincl. right. exact Hk'.
        - destruct Hloc as [-> | Hloc]; [|exact Hloc].
          rewrite Hget in Hk. injection Hk as <-. rewrite Hraise in Hp. discriminate. }
      destruct (Qle_bool (snd highest) p).
      + unfold bind at 1.
        rewrite (call_history_read_only c key hwk _ read_only_percentage_snowfall Hk), Hp.
        exact Hnext.
      + exact Hnext.
    - rewrite Hz. reflexivity. }
  specialize (Hloop (dict_keys (_histories c)) (incl_refl _) Hin (""%string, 0%Q)).
  destruct (for_each (dict_keys (_histories c)) _ (""%string, 0%Q) c) as [o s].
  simpl in Hloop. subst o. reflexivity.
Qed.

Lemma snowiest_location_zero_division_witness :
  fst (snowiest_location silent_country) = Raise ZeroDivisionError.
Proof.
  apply (snowiest_location_zero_division silent_country).
  exists "Alert"%string. eexists. split; vm_compute; reflexivity.
Defined.

Lemma snowiest_fold_last (c : Country) (keys : list string) :
  forall acc,
    let res := fold_left (fun a k => snowiest_step c k a) keys acc in
    (exists before after,
        keys = before ++ fst res :: after /\
        snd res = percentage_at c (fst res) /\
        forall k, In k after -> (percentage_at c k < snd res)%Q)
    \/ (res = acc /\ forall k, In k keys -> (percentage_at c k < snd acc)%Q).
Proof.
  induction keys as [|k keys IH]; intros acc; simpl.
  - right. split; [reflexivity | tauto].
  - destruct (IH (snowiest_step c k acc))
      as [(before & after & Hkeys & Hval & Hafter) | [Heq Hlt]].
    + left. exists (k :: before), after. rewrite Hkeys at 1. auto.
    + rewrite Heq. unfold snowiest_step in *.
      destruct (Qle_bool (snd acc) (percentage_at c k)) eqn:E.
      * left. exists [], keys. simpl. auto.
      * right. split; [reflexivity|].
        intros k' [<- | Hk']; [apply Qle_bool_false, E | auto].
Qed.

(** Under the precondition, and when some location has a percentage that
    is not negative, the location that [snowiest_location] returns is the
    last, in insertion order, of those with the greatest percentage: every
    location inserted after it has a smaller percentage. *)
Theorem snowiest_location_last_tie (c : Country) (loc : string) (p : Q) :
  (forall location hw,
      dict_get String.eqb (_histories c) location = Some hw ->
      exists q, fst (percentage_snowfall hw) = Ok q) ->
  (exists location hw q,
      dict_get String.eqb (_histories c) location = Some hw /\
      fst (percentage_snowfall hw) = Ok q /\ (0 <= q)%Q) ->
  fst (snowiest_location c) = Ok (Some loc, Some p) ->
  exists before after,
    dict_keys (_histories c) = before ++ loc :: after /\
    forall location hw q,
      In location after ->
      dict_get String.eqb (_histories c) location = Some hw ->
      fst (percentage_snowfall hw) = Ok q -> (q < p)%Q.
Proof.
  intros Hpre (loc0 & hw0 & q0 & Hget0 & Hq0 & Hpos) Hres.
  assert (Hne : _histories c <> []) by (destruct (_histories c); [discriminate Hget0 | discriminate]).
  rewrite (snowiest_location_run c Hne Hpre) in Hres. cbv zeta in Hres. simpl in Hres.
  destruct (snowiest_fold_last c (dict_keys (_histories c)) (""%string, 0%Q))
    as [(before & after & Hkeys & Hval & Hafter) | [_ Hlt]].
  - set (res := fold_left _ _ _) in *. injection Hres as <- <-.
    exists before, after. split; [exact Hkeys|].
    intros location hw q Hin Hget Hq.
    replace q with (percentage_at c location)
      by (unfold percentage_at; rewrite Hget, Hq; reflexivity).
    apply Hafter. exact Hin.
  - exfalso. specialize (Hlt loc0 (dict_get_In_keys _ String.eqb_eq _ _ _ Hget0)).
    unfold percentage_at in Hlt. rewrite Hget0, Hq0 in Hlt. simpl in Hlt. lra.
Qed.

Lemma tied_country_precondition :
  forall location hw,
    dict_get String.eqb (_histories tied_country) location = Some hw ->
    exists q, fst (percentage_snowfall hw) = Ok q.
Proof.
  apply (dict_get_Forall String.eqb
           (fun hw => exists q, fst (percentage_snowfall hw) = Ok q)).
  vm_compute. repeat constructor; eexists; reflexivity.
Defined.

Lemma snowiest_location_last_tie_witness :
  fst (snowiest_location tied_country) = Ok (Some "Montreal"%string, Some (2 # 5)) /\
  exists before after,
    dict_keys (_histories tied_country) = before ++ "Montreal"%string :: after /\
    forall location hw q,
      In location after ->
      dict_get String.eqb (_histories tied_country) location = Some hw ->
      fst (percentage_snowfall hw) = Ok q -> (q < 2 # 5)%Q.
Proof.
  assert (H : fst (snowiest_location tied_country)
              = Ok (Some "Montreal"%string, Some (2 # 5)))
    by (vm_compute; reflexivity).
  split; [exact H|].
  apply (snowiest_location_last_tie tied_country "Montreal" (2 # 5)
           tied_country_precondition).
  - exists "YYZ"%string. eexists. eexists.
    split; [reflexivity|]. split; [vm_compute; reflexivity|].
    vm_compute. discriminate.
  - exact H.
Defined.

(** * Further properties of [load_data] *)

Section LoadDataMore.
Variable str_to_float : string -> option Q.
Variable str_to_int : string -> option Z.

Lemma rows_tame_false_short (f : list string) :
  rows_tame str_to_float str_to_int (map cells f) = false ->
  exists line, In line f /\ (List.length (fields line) < 25)%nat.
Proof.
  unfold rows_tame. induction f as [|line f IH]; simpl; [discriminate|].
  destruct (row_ok str_to_float str_to_int (cells line)
            || row_failed str_to_float str_to_int (cells line)) eqn:E; simpl.
  - intros H. destruct (IH H) as (l & Hin & Hlen). exists l. auto.
  - intros _. exists line. split; [left; reflexivity|].
    destruct (le_lt_dec 25 (List.length (fields line))) as [Hlong | Hshort];
      [|exact Hshort].
    rewrite (row_tame_long str_to_float str_to_int line Hlong) in E. discriminate.
Qed.

(** What running [add_line] over the lines does: it ends normally or with
    the error that [date] raises on a well-formed row whose year, month
    and day form no date; it keeps the name and the coordinates, never
    removes a record, and keeps the dates distinct and dates of the
    calendar. *)
Lemma add_lines_outcome (f : list string) :
  forall hw0 o hw,
    for_each f (fun line _ => add_line str_to_float str_to_int line) tt hw0 = (o, hw) ->
    (o = Ok tt \/
     (exists line y m d w,
        In line f /\
        parse_row str_to_float str_to_int (fields line) = Some (y, m, d, w) /\
        valid_date (mkdate y m d) = false /\
        o = Raise (date_error y m d))) /\
    name hw = name hw0 /\ coordinates hw = coordinates hw0 /\
    (List.length (_records hw0) <= List.length (_records hw))%nat /\
    (dict_wf (_records hw0) -> dict_wf (_records hw)) /\
    ((forall key, In key (dict_keys (_records hw0)) -> valid_date key = true) ->
     forall key, In key (dict_keys (_records hw)) -> valid_date key = true).
Proof.
  induction f as [|line f IH]; intros hw0 o hw; simpl.
  - intros [= <- <-]. repeat split; auto.
  - unfold bind. rewrite add_line_run.
    destruct (parse_row str_to_float str_to_int (fields line))
      as [[[[y m] d] w]|] eqn:Hp.
    + destruct (valid_date (mkdate y m d)) eqn:Hv.
      * rewrite add_weather_run.
        set (hw1 := match dict_get date_eqb (_records hw0) (mkdate y m d) with
                    | Some _ => hw0
                    | None => set_records hw0 (_records hw0 ++ [(mkdate y m d, w)])
                    end).
        intros Hrun. destruct (IH hw1 o hw Hrun) as (Ho & Hn & Hc & Hlen & Hwf & Hval).
        assert (H1 : name hw1 = name hw0 /\ coordinates hw1 = coordinates hw0 /\
                     (List.length (_records hw0) <= List.length (_records hw1))%nat /\
                     (dict_wf (_records hw0) -> dict_wf (_records hw1)) /\
                     ((forall key, In key (dict_keys (_records hw0)) -> valid_date key = true) ->
                      forall key, In key (dict_keys (_records hw1)) -> valid_date key = true)).
        { unfold hw1.
          destruct (dict_get date_eqb (_records hw0) (mkdate y m d)) eqn:G.
          - repeat split; auto.
          - simpl. repeat split.
            + rewrite length_app. simpl. lia.
            + intros Hwf0. rewrite <- (dict_setitem_fresh date_eqb _ _ w G).
              apply (dict_wf_setitem_fresh _ date_eqb_eq); assumption.
            + intros Hval0 key Hkey. unfold dict_keys in Hkey.
              rewrite map_app in Hkey. apply in_app_iff in Hkey.
              destruct Hkey as [Hkey | [<- | []]]; [apply Hval0; exact Hkey | exact Hv]. }
        destruct H1 as (Hn1 & Hc1 & Hlen1 & Hwf1 & Hval1).
        split.
        { destruct Ho as [-> | (l & y' & m' & d' & w' & Hin & Hp' & Hv' & ->)];
            [left; reflexivity|].
          right. exists l, y', m', d', w'. auto. }
        repeat split; try congruence; try lia; auto.
      * intros [= <- <-]. split.
        { right. exists line, y, m, d, w. auto. }
        repeat split; auto.
    + intros Hrun. destruct (IH hw0 o hw Hrun) as (Ho & Hrest).
      split; [|exact Hrest].
      destruct Ho as [-> | (l & y' & m' & d' & w' & Hin & Hp' & Hv' & ->)];
        [left; reflexivity|].
      right. exists l, y', m', d', w'. auto.
Qed.

Lemma add_lines_not_empty (f : list string) :
  forall hw0 hw,
    for_each f (fun line _ => add_line str_to_float str_to_int line) tt hw0
    = (Ok tt, hw) ->
    (exists line, In line f /\ parses str_to_float str_to_int line = true) ->
    _records hw <> [].
Proof.
  induction f as [|line f IH]; intros hw0 hw; simpl.
  - intros _ (l & [] & _).
  - unfold bind.
    destruct (add_line str_to_float str_to_int line hw0) as [[[]|e|] hw1] eqn:Hstep;
      try discriminate.
    intros Hrun (l & [<- | Hin] & Hp).
    + rewrite add_line_run in Hstep. unfold parses in Hp.
      destruct (parse_row str_to_float str_to_int (fields line))
        as [[[[y m] d] w]|]; [|discriminate].
      destruct (valid_date (mkdate y m d)); [|discriminate].
      rewrite add_weather_run in Hstep. injection Hstep as <-.
      destruct (add_lines_outcome f _ _ _ Hrun) as (_ & _ & _ & Hlen & _).
      intros Hnil. rewrite Hnil in Hlen. simpl in Hlen.
      destruct (dict_get date_eqb (_records hw0) (mkdate y m d)) eqn:G.
      * destruct (_records hw0); [discriminate G | simpl in Hlen; lia].
      * simpl in Hlen. rewrite length_app in Hlen. simpl in Hlen. lia.
    + apply (IH hw1 hw Hrun). exists l. auto.
Qed.
End LoadDataMore.

(** [load_data] ends in one of four ways: it returns; or it raises
    [IndexError], and then some line has fewer than 25 fields; or it raises
    [ValueError], and then some well-formed row carries a year, a month and
    a day that fit a C [int] and form no date of the calendar; or it raises
    [OverflowError], and then the year, the month or the day of some
    well-formed row does not fit a C [int]. *)
Theorem load_data_errors
    (str_to_float : string -> option Q) (str_to_int : string -> option Z)
    (f : list string) :
  (exists result, load_data str_to_float str_to_int f = Ok result) \/
  (load_data str_to_float str_to_int f = Raise IndexError /\
   exists line, In line f /\ (List.length (fields line) < 25)%nat) \/
  (load_data str_to_float str_to_int f = Raise ValueError /\
   exists line y m d w,
     In line f /\
     parse_row str_to_float str_to_int (fields line) = Some (y, m, d, w) /\
     fits_c_int y && fits_c_int m && fits_c_int d = true /\
     valid_date (mkdate y m d) = false) \/
  (load_data str_to_float str_to_int f = Raise OverflowError /\
   exists line y m d w,
     In line f /\
     parse_row str_to_float str_to_int (fields line) = Some (y, m, d, w) /\
     fits_c_int y && fits_c_int m && fits_c_int d = false).
Proof.
  destruct (rows_tame str_to_float str_to_int (map cells f)) eqn:Ht.
  - destruct (load_data_spec str_to_float str_to_int f Ht) as [Hnone Hsome].
    destruct (filter (parses str_to_float str_to_int) f) as [|line0 lines].
    + left. exists None. apply Hnone. reflexivity.
    + destruct Hsome as (n & c & Hload); [discriminate|]. rewrite Hload.
      unfold exec.
      destruct (for_each f (fun line _ => add_line str_to_float str_to_int line) tt
                  (HistoricalWeather_init n c)) as [o hw] eqn:Hrun.
      destruct (add_lines_outcome str_to_float str_to_int f _ _ _ Hrun)
        as ([-> | (line & y & m & d & w & Hin & Hp & Hv & ->)] & _).
      * left. eauto.
      * right. right. unfold date_error.
        destruct (fits_c_int y && fits_c_int m && fits_c_int d) eqn:Hfits.
        -- left. split; [reflexivity|]. exists line, y, m, d, w. auto.
        -- right. split; [reflexivity|]. exists line, y, m, d, w. auto.
  - right. left. split.
    + apply load_data_index_error. exact Ht.
    + apply rows_tame_false_short with (1 := Ht).
Qed.

Example load_data_huge_year :
  load_data sample_float sample_int [sample_header; huge_year_line]
  = Raise OverflowError.
Proof. vm_compute. reflexivity. Qed.

(** A [HistoricalWeather] returned by [load_data] has at least one record,
    and its dates are pairwise distinct dates of the calendar. *)
Theorem load_data_result_invariants
    (str_to_float : string -> option Q) (str_to_int : string -> option Z)
    (f : list string) (hw : HistoricalWeather) :
  load_data str_to_float str_to_int f = Ok (Some hw) ->
  _records hw <> [] /\
  NoDup (dict_keys (_records hw)) /\
  forall key, In key (dict_keys (_records hw)) -> valid_date key = true.
Proof.
  intros Hload.
  destruct (rows_tame str_to_float str_to_int (map cells f)) eqn:Ht.
  2:{ rewrite (load_data_index_error str_to_float str_to_int f Ht) in Hload.
      discriminate Hload. }
  destruct (load_data_spec str_to_float str_to_int f Ht) as [Hnone Hsome].
  destruct (filter (parses str_to_float str_to_int) f) as [|line0 lines] eqn:E.
  { rewrite Hnone in Hload by reflexivity. discriminate Hload. }
  destruct Hsome as (n & c & Hl); [discriminate|].
  rewrite Hl in Hload. unfold exec in Hload.
  destruct (for_each f (fun line _ => add_line str_to_float str_to_int line) tt
              (HistoricalWeather_init n c)) as [[[]|e|] hw'] eqn:Hrun;
    try discriminate Hload.
  injection Hload as ->.
  destruct (add_lines_outcome str_to_float str_to_int f _ _ _ Hrun)
    as (_ & _ & _ & _ & Hwf & Hval).
  split; [|split].
  - apply (add_lines_not_empty str_to_float str_to_int f _ _ Hrun).
    exists line0.
    assert (In line0 (filter (parses str_to_float str_to_int) f)) as Hin
      by (rewrite E; left; reflexivity).
    apply filter_In in Hin. exact Hin.
  - apply Hwf. constructor.
  - apply Hval. intros key [].
Qed.

Lemma load_data_result_invariants_witness :
  _records (set_records (HistoricalWeather_init "TORONTO" (43.67, -79.4)%Q)
              [(mkdate 2020 1 2,
                DailyWeather_init (1.0, -1.5, 3.5)%Q (-1, 0.0, 1.2)%Q)]) <> [] /\
  NoDup (dict_keys
           (_records (set_records (HistoricalWeather_init "TORONTO" (43.67, -79.4)%Q)
                        [(mkdate 2020 1 2,
                          DailyWeather_init (1.0, -1.5, 3.5)%Q (-1, 0.0, 1.2)%Q)]))) /\
  forall key,
    In key (dict_keys
              (_records (set_records (HistoricalWeather_init "TORONTO" (43.67, -79.4)%Q)
                           [(mkdate 2020 1 2,
                             DailyWeather_init (1.0, -1.5, 3.5)%Q (-1, 0.0, 1.2)%Q)]))) ->
    valid_date key = true.
Proof.
  apply (load_data_result_invariants sample_float sample_int
           [sample_header; sample_line]).
  vm_compute. reflexivity.
Defined.

(** ** The identity of the result and the rows of a repeated date *)

Section FirstRow.
Variable str_to_float : string -> option Q.
Variable str_to_int : string -> option Z.

Ltac crunch :=
  cbv [convert_row convert_float convert_int convert_trace bind get put lift ret
       list_getitem list_setitem nth_error map py_float py_int cell_is_T
       LONG LAT STN_NAME YEAR MONTH DAY MAX_TEMP MIN_TEMP MEAN_TEMP TOTAL_RAIN
       TOTAL_RAIN_FLAG TOTAL_SNOW TOTAL_SNOW_FLAG TOTAL_PRECIP TOTAL_PRECIP_FLAG
       parse_row float_field int_field trace_field and_then fst snd
       number_at integer_at str_at as_number as_integer as_str
       first_row_record].

Ltac split_case :=
  match goal with
  | |- context [str_to_float ?s] => destruct (str_to_float s) eqn:?
  | |- context [str_to_int ?s] => destruct (str_to_int s) eqn:?
  | |- context [String.eqb ?s "T"] => destruct (String.eqb s "T") eqn:?
  end.

Ltac tidy :=
  repeat match goal with
         | H : Some _ = Some _ |- _ => injection H as H; subst
         | H : Some _ = None |- _ => discriminate H
         | H : None = Some _ |- _ => discriminate H
         end.

(** The object made from a converted well-formed row has the station
    name of the row and its latitude and longitude, in this order. *)
Lemma convert_row_identity (row : list string) :
  (25 <= List.length row)%nat ->
  match parse_row str_to_float str_to_int row with
  | Some _ =>
      exists row' stn lat long,
        convert_row str_to_float str_to_int (map CStr row) = (Ok tt, row') /\
        nth_error row STN_NAME = Some stn /\
        float_field str_to_float row LAT = Some lat /\
        float_field str_to_float row LONG = Some long /\
        forall rest,
          fst (first_row_record (row' :: rest) tt)
          = Ok (HistoricalWeather_init stn (lat, long))
  | None => True
  end.
Proof.
  intros Hlen.
  do 25 (destruct row as [|? row]; [simpl in Hlen; lia|]). clear Hlen.
  repeat (crunch; split_case); crunch; tidy; try exact I.
  all: do 4 eexists; repeat split; reflexivity.
Qed.

Lemma first_row_identity (line : string) :
  parses str_to_float str_to_int line = true ->
  exists stn lat long,
    nth_error (fields line) STN_NAME = Some stn /\
    float_field str_to_float (fields line) LAT = Some lat /\
    float_field str_to_float (fields line) LONG = Some long /\
    forall rest,
      fst (first_row_record
             (row_after str_to_float str_to_int (cells line) :: rest) tt)
      = Ok (HistoricalWeather_init stn (lat, long)).
Proof.
  unfold parses, row_after, cells. intros Hp.
  destruct (le_lt_dec 25 (List.length (fields line))) as [Hlong | Hshort].
  - pose proof (convert_row_identity (fields line) Hlong) as H.
    destruct (parse_row str_to_float str_to_int (fields line)); [|discriminate].
    destruct H as (row' & stn & lat & long & -> & H1 & H2 & H3 & H4).
    exists stn, lat, long. auto.
  - rewrite (parse_row_short str_to_float str_to_int _ Hshort) in Hp. discriminate.
Qed.

Lemma filter_head {A : Type} (p : A -> bool) (l : list A) (x : A) (xs : list A) :
  filter p l = x :: xs ->
  exists i, nth_error l i = Some x /\ p x = true /\
            forall j y, (j < i)%nat -> nth_error l j = Some y -> p y = false.
Proof.
  induction l as [|a l IH]; simpl; [discriminate|].
  destruct (p a) eqn:E.
  - intros [= -> <-]. exists 0%nat. split; [reflexivity|]. split; [exact E|].
    intros j y Hj. lia.
  - intros H. destruct (IH H) as (i & Hi & Hp & Hbefore). exists (S i).
    split; [exact Hi|]. split; [exact Hp|].
    intros [|j] y Hj; simpl.
    + intros [= <-]. exact E.
    + apply Hbefore. lia.
Qed.
End FirstRow.

(** The name and the coordinates of a [HistoricalWeather] returned by
    [load_data] are those of the first well-formed row: its station name,
    and its latitude and longitude in this order. *)
Theorem load_data_identity
    (str_to_float : string -> option Q) (str_to_int : string -> option Z)
    (f : list string) (hw : HistoricalWeather) :
  load_data str_to_float str_to_int f = Ok (Some hw) ->
  exists i line lat long,
    nth_error f i = Some line /\
    parses str_to_float str_to_int line = true /\
    (forall j line', (j < i)%nat -> nth_error f j = Some line' ->
                     parses str_to_float str_to_int line' = false) /\
    nth_error (fields line) STN_NAME = Some (name hw) /\
    float_field str_to_float (fields line) LAT = Some lat /\
    float_field str_to_float (fields line) LONG = Some long /\
    coordinates hw = (lat, long).
Proof.
  intros Hload.
  destruct (rows_tame str_to_float str_to_int (map cells f)) eqn:Ht.
  2:{ rewrite (load_data_index_error str_to_float str_to_int f Ht) in Hload.
      discriminate Hload. }
  unfold load_data in Hload.
  rewrite (surviving_rows_parses str_to_float str_to_int f Ht) in Hload.
  destruct (filter (parses str_to_float str_to_int) f) as [|line0 lines] eqn:E;
    [discriminate Hload|].
  destruct (filter_head _ _ _ _ E) as (i & Hi & Hp & Hbefore).
  destruct (first_row_identity str_to_float str_to_int line0 Hp)
    as (stn & lat & long & Hstn & Hlat & Hlong & Hfirst).
  cbn [map List.length Nat.eqb] in Hload. rewrite Hfirst in Hload.
  unfold exec in Hload.
  change (row_after str_to_float str_to_int (cells line0)
          :: map (fun line => row_after str_to_float str_to_int (cells line)) lines)
    with (map (fun line => row_after str_to_float str_to_int (cells line))
            (line0 :: lines)) in Hload.
  rewrite <- E, for_each_map in Hload.
  rewrite for_each_ext with
    (body' := fun line _ => add_line str_to_float str_to_int line) in Hload.
  2:{ intros line acc s Hin. apply filter_In in Hin.
      apply row_after_add_line. tauto. }
  rewrite (for_each_filter (parses str_to_float str_to_int) f
             (add_line str_to_float str_to_int)) in Hload.
  2:{ intros line s Hskip. apply add_line_skip. exact Hskip. }
  destruct (for_each f (fun line _ => add_line str_to_float str_to_int line) tt
              (HistoricalWeather_init stn (lat, long))) as [[[]|e|] hw'] eqn:Hrun;
    try discriminate Hload.
  injection Hload as ->.
  destruct (add_lines_outcome str_to_float str_to_int f _ _ _ Hrun)
    as (_ & Hn & Hc & _).
  exists i, line0, lat, long. simpl in Hn, Hc. rewrite Hn, Hc. auto 10.
Qed.

Lemma load_data_identity_witness :
  exists i line lat long,
    nth_error [sample_header; sample_line] i = Some line /\
    parses sample_float sample_int line = true /\
    (forall j line', (j < i)%nat ->
                     nth_error [sample_header; sample_line] j = Some line' ->
                     parses sample_float sample_int line' = false) /\
    nth_error (fields line) STN_NAME = Some "TORONTO"%string /\
    float_field sample_float (fields line) LAT = Some lat /\
    float_field sample_float (fields line) LONG = Some long /\
    (43.67, -79.4)%Q = (lat, long).
Proof.
  apply (load_data_identity sample_float sample_int [sample_header; sample_line]
           (set_records (HistoricalWeather_init "TORONTO" (43.67, -79.4)%Q)
              [(mkdate 2020 1 2,
                DailyWeather_init (1.0, -1.5, 3.5)%Q (-1, 0.0, 1.2)%Q)])).
  vm_compute. reflexivity.
Defined.

Lemma first_row_of_date
    (str_to_float : string -> option Q) (str_to_int : string -> option Z)
    (y m d : Z) (f : list string) :
  forall i line w,
    nth_error f i = Some line ->
    parse_row str_to_float str_to_int (fields line) = Some (y, m, d, w) ->
    exists j line' w',
      (j <= i)%nat /\ nth_error f j = Some line' /\
      parse_row str_to_float str_to_int (fields line') = Some (y, m, d, w') /\
      forall k line'' y' m' d' w'',
        (k < j)%nat -> nth_error f k = Some line'' ->
        parse_row str_to_float str_to_int (fields line'') = Some (y', m', d', w'') ->
        (y', m', d') <> (y, m, d).
Proof.
  induction f as [|l0 f IH]; intros i line w Hnth Hp; [destruct i; discriminate|].
  assert (Hdec : (exists w0, parse_row str_to_float str_to_int (fields l0)
                             = Some (y, m, d, w0)) \/
                 (forall y' m' d' w',
                     parse_row str_to_float str_to_int (fields l0) = Some (y', m', d', w') ->
                     (y', m', d') <> (y, m, d))).
  { destruct (parse_row str_to_float str_to_int (fields l0))
      as [[[[y0 m0] d0] w0]|]; [|right; discriminate].
    destruct (Z.eq_dec y0 y) as [-> | Hy];
      [|right; intros ? ? ? ? [= <- <- <- <-]; congruence].
    destruct (Z.eq_dec m0 m) as [-> | Hm];
      [|right; intros ? ? ? ? [= <- <- <- <-]; congruence].
    destruct (Z.eq_dec d0 d) as [-> | Hd];
      [|right; intros ? ? ? ? [= <- <- <- <-]; congruence].
    left. eauto. }
  destruct Hdec as [[w0 Hp0] | Hother].
  - exists 0%nat, l0, w0. split; [lia|]. split; [reflexivity|]. split; [exact Hp0|].
    intros k ? ? ? ? ? Hk. lia.
  - destruct i as [|i]; simpl in Hnth.
    + injection Hnth as <-. exfalso. exact (Hother y m d w Hp eq_refl).
    + destruct (IH i line w Hnth Hp) as (j & line' & w' & Hj & Hnth' & Hp' & Hfirst).
      exists (S j), line', w'. split; [lia|]. split; [exact Hnth'|].
      split; [exact Hp'|].
      intros [|k] line'' y' m' d' w'' Hk Hnth'' Hp''; simpl in Hnth''.
      * injection Hnth'' as <-. apply (Hother y' m' d' w'' Hp'').
      * apply (Hfirst k line'' y' m' d' w''); [lia | exact Hnth'' | exact Hp''].
Qed.

(** When several well-formed rows carry the same year, month and day, the
    first of them wins: the record retrieved from the result of
    [load_data] at the date of a well-formed row is the weather of the
    first well-formed row of that date. *)
Theorem load_data_first_row_wins
    (str_to_float : string -> option Q) (str_to_int : string -> option Z)
    (f : list string) (hw : HistoricalWeather)
    (i : nat) (line : string) (y m d : Z) (w : DailyWeather) :
  load_data str_to_float str_to_int f = Ok (Some hw) ->
  nth_error f i = Some line ->
  parse_row str_to_float str_to_int (fields line) = Some (y, m, d, w) ->
  exists j line' w',
    (j <= i)%nat /\ nth_error f j = Some line' /\
    parse_row str_to_float str_to_int (fields line') = Some (y, m, d, w') /\
    (forall k line'' y' m' d' w'',
        (k < j)%nat -> nth_error f k = Some line'' ->
        parse_row str_to_float str_to_int (fields line'') = Some (y', m', d', w'') ->
        (y', m', d') <> (y, m, d)) /\
    retrieve_weather (mkdate y m d) hw = (Ok (Some w'), hw).
Proof.
  intros Hload Hnth Hp.
  destruct (first_row_of_date str_to_float str_to_int y m d f i line w Hnth Hp)
    as (j & line' & w' & Hj & Hnth' & Hp' & Hfirst).
  exists j, line', w'. repeat (split; [assumption|]).
  destruct (rows_tame str_to_float str_to_int (map cells f)) eqn:Ht.
  2:{ rewrite (load_data_index_error str_to_float str_to_int f Ht) in Hload.
      discriminate Hload. }
  destruct (load_data_spec str_to_float str_to_int f Ht) as [_ Hsome].
  destruct Hsome as (n & c & Hl).
  { intros Hnil.
    assert (In line (filter (parses str_to_float str_to_int) f)) as Hf.
    { apply filter_In. split; [eapply nth_error_In; exact Hnth|].
      apply parses_true. eauto. }
    rewrite Hnil in Hf. contradiction. }
  rewrite Hl in Hload. unfold exec in Hload.
  destruct (for_each f (fun line _ => add_line str_to_float str_to_int line) tt
              (HistoricalWeather_init n c)) as [[[]|e|] hw'] eqn:Hrun;
    try discriminate Hload.
  injection Hload as ->.
  destruct (add_lines_retrieve str_to_float str_to_int f _ _ Hrun) as [_ Hget].
  destruct (Hget j line' y m d w' Hnth' Hp' eq_refl Hfirst) as [_ Hg].
  rewrite retrieve_weather_run, Hg. reflexivity.
Qed.

Lemma load_data_first_row_wins_witness :
  exists j line' w',
    (j <= 2)%nat /\
    nth_error [sample_header; sample_line; sample_line_again] j = Some line' /\
    parse_row sample_float sample_int (fields line') = Some (2020, 1, 2, w')%Z /\
    (forall k line'' y' m' d' w'',
        (k < j)%nat ->
        nth_error [sample_header; sample_line; sample_line_again] k = Some line'' ->
        parse_row sample_float sample_int (fields line'') = Some (y', m', d', w'') ->
        (y', m', d') <> (2020, 1, 2)%Z) /\
    retrieve_weather (mkdate 2020 1 2)
      (set_records (HistoricalWeather_init "TORONTO" (43.67, -79.4)%Q)
         [(mkdate 2020 1 2,
           DailyWeather_init (1.0, -1.5, 3.5)%Q (-1, 0.0, 1.2)%Q)])
    = (Ok (Some w'),
       set_records (HistoricalWeather_init "TORONTO" (43.67, -79.4)%Q)
         [(mkdate 2020 1 2,
           DailyWeather_init (1.0, -1.5, 3.5)%Q (-1, 0.0, 1.2)%Q)]).
Proof.
  apply (load_data_first_row_wins sample_float sample_int
           [sample_header; sample_line; sample_line_again] _ 2 sample_line_again
           2020 1 2
           (DailyWeather_init (2.0, -0.5, 4.5)%Q (-1, 0.0, 1.2)%Q)).
  - vm_compute. reflexivity.
  - reflexivity.
  - vm_compute. reflexivity.
Defined.

(** ** [_delete_specified_rows] on arbitrary lists of indices *)

Lemma insert_desc_In (i : nat) (l : list nat) (x : nat) :
  In x (insert_desc i l) <-> x = i \/ In x l.
Proof.
  induction l as [|j l IH]; simpl.
  - intuition.
  - destruct (j <? i)%nat; simpl; [intuition|]. rewrite IH. intuition.
Qed.

Lemma insert_desc_descending (i : nat) (l : list nat) :
  descending l -> ~ In i l -> descending (insert_desc i l).
Proof.
  induction l as [|j l IH]; simpl; intros Hd Hnot.
  - split; [intros j []|exact I].
  - destruct Hd as [Hlt Hd]. destruct (j <? i)%nat eqn:E.
    + apply Nat.ltb_lt in E. simpl. split; [|split; assumption].
      intros x [<- | Hx]; [exact E|]. apply Hlt in Hx. lia.
    + apply Nat.ltb_ge in E. simpl. split.
      * intros x Hx. apply insert_desc_In in Hx. destruct Hx as [-> | Hx].
        -- assert (i <> j) by (intros ->; apply Hnot; left; reflexivity). lia.
        -- apply Hlt. exact Hx.
      * apply IH; [exact Hd|]. intros Hin. apply Hnot. right. exact Hin.
Qed.

Lemma sorted_reverse_In (l : list nat) (x : nat) :
  In x (sorted_reverse l) <-> In x l.
Proof.
  induction l as [|i l IH]; simpl; [tauto|].
  rewrite insert_desc_In, IH. intuition.
Qed.

Lemma sorted_reverse_descending (l : list nat) :
  NoDup l -> descending (sorted_reverse l).
Proof.
  induction 1 as [|i l Hnot Hnd IH]; simpl; [exact I|].
  apply insert_desc_descending; [exact IH|].
  rewrite sorted_reverse_In. exact Hnot.
Qed.

Lemma descending_unique (l1 : list nat) :
  forall l2, descending l1 -> descending l2 ->
             (forall x, In x l1 <-> In x l2) -> l1 = l2.
Proof.
  induction l1 as [|a l1 IH]; intros [|b l2] H1 H2 Hsame.
  - reflexivity.
  - exfalso. apply (Hsame b). left. reflexivity.
  - exfalso. apply (Hsame a). left. reflexivity.
  - destruct H1 as [Ha H1], H2 as [Hb H2].
    assert (a = b) as ->.
    { assert (In a (b :: l2)) as Hab by (apply Hsame; left; reflexivity).
      assert (In b (a :: l1)) as Hba by (apply Hsame; left; reflexivity).
      destruct Hab as [-> | Hab]; [reflexivity|].
      destruct Hba as [-> | Hba]; [reflexivity|].
      apply Ha in Hba. apply Hb in Hab. lia. }
    f_equal. apply IH; [assumption..|].
    intros x. split; intros Hx.
    + assert (In x (b :: l2)) as [-> | H] by (apply Hsame; right; exact Hx);
        [apply Ha in Hx; lia | exact H].
    + assert (In x (b :: l1)) as [-> | H] by (apply Hsame; right; exact Hx);
        [apply Hb in Hx; lia | exact H].
Qed.

Lemma descending_snoc (l : list nat) (k : nat) :
  descending l -> (forall x, In x l -> (k < x)%nat) -> descending (l ++ [k]).
Proof.
  induction l as [|i l IH]; simpl; intros Hd Hk.
  - split; [intros j []|exact I].
  - destruct Hd as [Hlt Hd]. split.
    + intros j Hj. apply in_app_or in Hj. destruct Hj as [Hj | [<- | []]].
      * apply Hlt. exact Hj.
      * apply Hk. left. reflexivity.
    + apply IH; [exact Hd|]. intros x Hx. apply Hk. right. exact Hx.
Qed.

Lemma descending_rev_positions (flags : list bool) :
  forall k, descending (rev (positions k flags)).
Proof.
  induction flags as [|b flags IH]; intros k; simpl; [exact I|].
  destruct b; simpl; [|apply IH].
  apply descending_snoc; [apply IH|].
  intros x Hx. apply in_rev in Hx. apply positions_ge in Hx. lia.
Qed.

Lemma positions_map_seq_In (h : nat -> bool) (n : nat) :
  forall k i, In i (positions k (map h (seq k n)))
              <-> (k <= i < k + n)%nat /\ h i = true.
Proof.
  induction n as [|n IH]; intros k i; simpl.
  - split; [intros [] | lia].
  - destruct (h k) eqn:E; simpl; rewrite IH.
    + split.
      * intros [<- | [Hr Hh]]; [split; [lia | exact E] | split; [lia | exact Hh]].
      * intros [Hr Hh]. destruct (Nat.eq_dec k i) as [-> | Hne]; [left; reflexivity|].
        right. split; [lia | exact Hh].
    + split.
      * intros [Hr Hh]. split; [lia | exact Hh].
      * intros [Hr Hh]. destruct (Nat.eq_dec k i) as [-> | Hne]; [congruence|].
        split; [lia | exact Hh].
Qed.

Lemma keep_map_seq {A : Type} (h : nat -> bool) (l : list A) :
  forall k,
    keep l (map h (seq k (List.length l)))
    = map snd (filter (fun p => negb (h (fst p))) (combine (seq k (List.length l)) l)).
Proof.
  induction l as [|x l IH]; intros k; simpl; [reflexivity|].
  destruct (h k); simpl; rewrite IH; reflexivity.
Qed.

Lemma existsb_eqb_In (rows : list nat) (i : nat) :
  existsb (Nat.eqb i) rows = true <-> In i rows.
Proof.
  rewrite existsb_exists. split.
  - intros (x & Hx & E). apply Nat.eqb_eq in E. subst. exact Hx.
  - intros Hi. exists i. split; [exact Hi | apply Nat.eqb_refl].
Qed.

(** Given distinct indices within the list, in any order,
    [_delete_specified_rows] returns normally and leaves in [main_list]
    exactly the items whose position is not listed, in their order. *)
Theorem delete_specified_rows_any_order {A : Type}
    (main_list : list A) (list_of_rows : list nat) :
  NoDup list_of_rows ->
  (forall i, In i list_of_rows -> (i < List.length main_list)%nat) ->
  _delete_specified_rows list_of_rows main_list
  = (Ok tt,
     map snd
       (filter (fun p => negb (existsb (Nat.eqb (fst p)) list_of_rows))
          (combine (seq 0 (List.length main_list)) main_list))).
Proof.
  intros Hnd Hin.
  set (h := fun i => existsb (Nat.eqb i) list_of_rows).
  set (flags := map h (seq 0 (List.length main_list))).
  assert (Hsorted : sorted_reverse list_of_rows = rev (positions 0 flags)).
  { apply descending_unique.
    - apply sorted_reverse_descending. exact Hnd.
    - apply descending_rev_positions.
    - intros x. rewrite sorted_reverse_In, <- in_rev.
      unfold flags. rewrite positions_map_seq_In. unfold h.
      rewrite existsb_eqb_In. split.
      + intros Hx. split; [|exact Hx]. apply Hin in Hx. lia.
      + intros [_ Hx]. exact Hx. }
  unfold _delete_specified_rows. rewrite fold_snoc. simpl app.
  rewrite Hsorted.
  assert (Hlen : List.length flags = List.length main_list).
  { unfold flags. rewrite length_map, length_seq. reflexivity. }
  pose proof (delete_positions main_list flags [] Hlen) as Hrun.
  simpl in Hrun. rewrite Hrun.
  unfold flags. rewrite keep_map_seq. reflexivity.
Qed.

Lemma delete_specified_rows_any_order_witness :
  _delete_specified_rows [2; 0]%nat ["a"; "b"; "c"; "d"]%string
  = (Ok tt, ["b"; "d"]%string).
Proof.
  apply (delete_specified_rows_any_order ["a"; "b"; "c"; "d"]%string [2; 0]%nat).
  - repeat constructor; simpl; intuition discriminate.
  - simpl. intros i [<- | [<- | []]]; lia.
Defined.

Lemma insert_desc_head (i : nat) (l : list nat) :
  exists m rest,
    insert_desc i l = m :: rest /\ (i <= m)%nat /\
    forall j rest', l = j :: rest' -> (j <= m)%nat.
Proof.
  destruct l as [|j l]; simpl.
  - exists i, []. split; [reflexivity|]. split; [lia|]. discriminate.
  - destruct (j <? i)%nat eqn:E.
    + apply Nat.ltb_lt in E. exists i, (j :: l). split; [reflexivity|].
      split; [lia|]. intros ? ? [= <- <-]. lia.
    + apply Nat.ltb_ge in E. exists j, (insert_desc i l). split; [reflexivity|].
      split; [lia|]. intros ? ? [= <- <-]. lia.
Qed.

Lemma sorted_reverse_head (l : list nat) (i : nat) :
  In i l -> exists m rest, sorted_reverse l = m :: rest /\ (i <= m)%nat.
Proof.
  induction l as [|j l IH]; simpl; [intros []|].
  intros Hi.
  destruct (insert_desc_head j (sorted_reverse l)) as (m & rest & E & Hj & Hhead).
  exists m, rest. split; [exact E|].
  destruct Hi as [<- | Hi]; [exact Hj|].
  destruct (IH Hi) as (m' & rest' & E' & Hm').
  specialize (Hhead m' rest' E'). lia.
Qed.

Lemma list_delitem_out_of_range {A : Type} (l : list A) :
  forall i, (List.length l <= i)%nat -> list_delitem l i = Raise IndexError.
Proof.
  induction l as [|x l IH]; intros i Hi; simpl in *.
  - reflexivity.
  - destruct i as [|i]; [lia|]. rewrite IH by lia. reflexivity.
Qed.

(** When one of the indices is out of range, [_delete_specified_rows]
    raises [IndexError] and deletes nothing, whatever the other indices:
    the deletions go from the greatest index down, so the first one fails. *)
Theorem delete_specified_rows_index_error {A : Type}
    (main_list : list A) (list_of_rows : list nat) (i : nat) :
  In i list_of_rows ->
  (List.length main_list <= i)%nat ->
  _delete_specified_rows list_of_rows main_list = (Raise IndexError, main_list).
Proof.
  intros Hi Hlen. unfold _delete_specified_rows. rewrite fold_snoc. simpl app.
  destruct (sorted_reverse_head list_of_rows i Hi) as (m & rest & -> & Hm).
  simpl. unfold bind, get, lift.
  rewrite list_delitem_out_of_range by lia. reflexivity.
Qed.

Lemma delete_specified_rows_index_error_witness :
  _delete_specified_rows [0; 4; 1]%nat ["a"; "b"; "c"; "d"]%string
  = (Raise IndexError, ["a"; "b"; "c"; "d"]%string).
Proof.
  apply (delete_specified_rows_index_error
           ["a"; "b"; "c"; "d"]%string [0; 4; 1]%nat 4%nat).
  - simpl. auto.
  - simpl. lia.
Defined.

(** ** [load_country] *)

Section LoadCountryFacts.
Variable str_to_float : string -> option Q.
Variable str_to_int : string -> option Z.

Lemma load_country_body_run (entry : string * list string) (c : Country) :
  load_country_body str_to_float str_to_int entry c =
  if startswith_dot (fst entry) then (Ok tt, c)
  else match load_data str_to_float str_to_int (snd entry) with
       | Ok (Some hw) => add_history hw c
       | Ok None => (Ok tt, c)
       | Raise x => (Raise x, c)
       | OutOfFuel => (OutOfFuel, c)
       end.
Proof.
  unfold load_country_body, bind, lift, ret.
  destruct (startswith_dot (fst entry)); simpl; [reflexivity|].
  destruct (load_data str_to_float str_to_int (snd entry)) as [[hw|]|x|]; reflexivity.
Qed.

Lemma load_country_loop (folder : list (string * list string)) :
  forall c0 c,
    for_each folder (fun entry _ => load_country_body str_to_float str_to_int entry)
      tt c0 = (Ok tt, c) ->
    country_name c = country_name c0 /\
    forall k,
      dict_get String.eqb (_histories c) k =
      match dict_get String.eqb (_histories c0) k with
      | Some hw => Some hw
      | None => first_history str_to_float str_to_int folder k
      end.
Proof.
  induction folder as [|entry folder IH]; intros c0 c; simpl.
  - intros [= <-]. split; [reflexivity|]. intros k.
    destruct (dict_get String.eqb (_histories c0) k); reflexivity.
  - unfold bind. rewrite load_country_body_run.
    destruct (startswith_dot (fst entry)); [apply IH|].
    destruct (load_data str_to_float str_to_int (snd entry)) as [[hw|]|x|];
      try discriminate; [|apply IH].
    rewrite add_history_run.
    destruct (dict_get String.eqb (_histories c0) (name hw)) as [hw0|] eqn:G.
    + intros Hrun. destruct (IH _ _ Hrun) as [Hn Hk]. split; [exact Hn|].
      intros k. rewrite Hk.
      destruct (dict_get String.eqb (_histories c0) k) eqn:Gk; [reflexivity|].
      destruct (String.eqb (name hw) k) eqn:E; [|reflexivity].
      apply String.eqb_eq in E. congruence.
    + intros Hrun. destruct (IH _ _ Hrun) as [Hn Hk]. split; [exact Hn|].
      intros k. rewrite Hk. simpl. rewrite dict_get_app. simpl.
      destruct (dict_get String.eqb (_histories c0) k); [reflexivity|].
      destruct (String.eqb (name hw) k); reflexivity.
Qed.

Lemma first_history_spec (folder : list (string * list string)) (k : string)
    (hw : HistoricalWeather) :
  first_history str_to_float str_to_int folder k = Some hw <->
  exists i entry,
    nth_error folder i = Some entry /\
    startswith_dot (fst entry) = false /\
    load_data str_to_float str_to_int (snd entry) = Ok (Some hw) /\
    name hw = k /\
    forall j entry' hw',
      (j < i)%nat -> nth_error folder j = Some entry' ->
      startswith_dot (fst entry') = false ->
      load_data str_to_float str_to_int (snd entry') = Ok (Some hw') ->
      name hw' <> k.
Proof.
  induction folder as [|e folder IH]; simpl.
  - split; [discriminate|]. intros ([|i] & entry & H & _); discriminate H.
  - assert (Hskip :
      (forall h, startswith_dot (fst e) = false ->
                 load_data str_to_float str_to_int (snd e) = Ok (Some h) ->
                 name h <> k) ->
      ((exists i entry,
           nth_error folder i = Some entry /\
           startswith_dot (fst entry) = false /\
           load_data str_to_float str_to_int (snd entry) = Ok (Some hw) /\
           name hw = k /\
           forall j entry' hw',
             (j < i)%nat -> nth_error folder j = Some entry' ->
             startswith_dot (fst entry') = false ->
             load_data str_to_float str_to_int (snd entry') = Ok (Some hw') ->
             name hw' <> k) <->
       (exists i entry,
           nth_error (e :: folder) i = Some entry /\
           startswith_dot (fst entry) = false /\
           load_data str_to_float str_to_int (snd entry) = Ok (Some hw) /\
           name hw = k /\
           forall j entry' hw',
             (j < i)%nat -> nth_error (e :: folder) j = Some entry' ->
             startswith_dot (fst entry') = false ->
             load_data str_to_float str_to_int (snd entry') = Ok (Some hw') ->
             name hw' <> k))).
    { intros Hne. split.
      - intros (i & entry & Hnth & Hv & Hl & Hn & Hfirst).
        exists (S i), entry. repeat (split; [assumption|]).
        intros [|j] entry' hw' Hj Hnth' Hv' Hl'; simpl in Hnth'.
        + injection Hnth' as <-. apply (Hne hw' Hv' Hl').
        + apply (Hfirst j entry' hw'); [lia | assumption..].
      - intros ([|i] & entry & Hnth & Hv & Hl & Hn & Hfirst); simpl in Hnth.
        + injection Hnth as <-. exfalso. exact (Hne hw Hv Hl Hn).
        + exists i, entry. repeat (split; [assumption|]).
          intros j entry' hw' Hj Hnth' Hv' Hl'.
          apply (Hfirst (S j) entry' hw'); [lia | exact Hnth' | assumption..]. }
    destruct (startswith_dot (fst e)) eqn:Hdot.
    { rewrite IH. apply Hskip. intros h Hf. discriminate Hf. }
    destruct (load_data str_to_float str_to_int (snd e)) as [[h|]|x|] eqn:Hload;
      try (rewrite IH; apply Hskip; intros h' _ Hl'; discriminate Hl').
    destruct (String.eqb (name h) k) eqn:E.
    + apply String.eqb_eq in E. split.
      * intros [= <-]. exists 0%nat, e. simpl. repeat (split; [assumption || reflexivity|]).
        intros j ? ? Hj. lia.
      * intros ([|i] & entry & Hnth & Hv & Hl & Hn & Hfirst); simpl in Hnth.
        -- injection Hnth as <-. congruence.
        -- exfalso. apply (Hfirst 0%nat e h); [lia | reflexivity | exact Hdot | exact Hload | exact E].
    + rewrite IH. apply Hskip. intros h' _ [= <-].
      intros Hn. apply String.eqb_eq in Hn. congruence.
Qed.

Lemma load_country_loop_outcome (folder : list (string * list string)) :
  forall c0 o c,
    for_each folder (fun entry _ => load_country_body str_to_float str_to_int entry)
      tt c0 = (o, c) ->
    match o with
    | Ok _ =>
        forall entry, In entry folder -> startswith_dot (fst entry) = false ->
                      exists r, load_data str_to_float str_to_int (snd entry) = Ok r
    | _ =>
        exists i entry,
          nth_error folder i = Some entry /\
          startswith_dot (fst entry) = false /\
          load_data str_to_float str_to_int (snd entry)
          = match o with Ok _ => OutOfFuel | Raise x => Raise x | OutOfFuel => OutOfFuel end /\
          forall j entry',
            (j < i)%nat -> nth_error folder j = Some entry' ->
            startswith_dot (fst entry') = false ->
            exists r, load_data str_to_float str_to_int (snd entry') = Ok r
    end.
Proof.
  induction folder as [|e folder IH]; intros c0 o c; simpl.
  - intros [= <- <-]. intros entry [].
  - unfold bind. rewrite load_country_body_run.
    assert (Hcont : forall c1,
      (startswith_dot (fst e) = false ->
       exists r, load_data str_to_float str_to_int (snd e) = Ok r) ->
      for_each folder (fun entry _ => load_country_body str_to_float str_to_int entry)
        tt c1 = (o, c) ->
      match o with
      | Ok _ =>
          forall entry, e = entry \/ In entry folder -> startswith_dot (fst entry) = false ->
                        exists r, load_data str_to_float str_to_int (snd entry) = Ok r
      | _ =>
          exists i entry,
            nth_error (e :: folder) i = Some entry /\
            startswith_dot (fst entry) = false /\
            load_data str_to_float str_to_int (snd entry)
            = match o with Ok _ => OutOfFuel | Raise x => Raise x | OutOfFuel => OutOfFuel end /\
            forall j entry',
              (j < i)%nat -> nth_error (e :: folder) j = Some entry' ->
              startswith_dot (fst entry') = false ->
              exists r, load_data str_to_float str_to_int (snd entry') = Ok r
      end).
    { intros c1 He Hrun. specialize (IH c1 o c Hrun).
      destruct o as [[]|x|].
      - intros entry [<- | Hin] Hv; [apply He; exact Hv | apply IH; assumption].
      - destruct IH as (i & entry & Hnth & Hv & Hl & Hfirst).
        exists (S i), entry. repeat (split; [assumption|]).
        intros [|j] entry' Hj Hnth' Hv'; simpl in Hnth'.
        + injection Hnth' as <-. apply He. exact Hv'.
        + apply (Hfirst j entry'); [lia | assumption..].
      - destruct IH as (i & entry & Hnth & Hv & Hl & Hfirst).
        exists (S i), entry. repeat (split; [assumption|]).
        intros [|j] entry' Hj Hnth' Hv'; simpl in Hnth'.
        + injection Hnth' as <-. apply He. exact Hv'.
        + apply (Hfirst j entry'); [lia | assumption..]. }
    destruct (startswith_dot (fst e)) eqn:Hdot.
    { apply Hcont. discriminate. }
    destruct (load_data str_to_float str_to_int (snd e)) as [[h|]|x|] eqn:Hload.
    + rewrite add_history_run. apply Hcont. eauto.
    + apply Hcont. eauto.
    + intros [= <- <-]. exists 0%nat, e. simpl.
      repeat (split; [assumption || reflexivity|]). intros j ? Hj. lia.
    + intros [= <- <-]. exists 0%nat, e. simpl.
      repeat (split; [assumption || reflexivity|]). intros j ? Hj. lia.
Qed.
End LoadCountryFacts.

(** When [load_country] returns a country, the country has the given name,
    and [retrieve_history] gives for a location exactly the history that
    [load_data] returns for the first file of the folder, dot files apart,
    whose station has that name: files whose name starts with a dot, files
    without a row of data and later files of the same station leave no
    trace. *)
Theorem load_country_result
    (str_to_float : string -> option Q) (str_to_int : string -> option Z)
    (folder : list (string * list string)) (n : string) (c : Country) :
  load_country str_to_float str_to_int folder n = Ok c ->
  country_name c = n /\
  forall k hw,
    retrieve_history k c = (Ok (Some hw), c) <->
    exists i entry,
      nth_error folder i = Some entry /\
      startswith_dot (fst entry) = false /\
      load_data str_to_float str_to_int (snd entry) = Ok (Some hw) /\
      name hw = k /\
      forall j entry' hw',
        (j < i)%nat -> nth_error folder j = Some entry' ->
        startswith_dot (fst entry') = false ->
        load_data str_to_float str_to_int (snd entry') = Ok (Some hw') ->
        name hw' <> k.
Proof.
  unfold load_country, exec.
  destruct (for_each folder
              (fun entry _ => load_country_body str_to_float str_to_int entry) tt
              (Country_init n)) as [[[]|x|] c'] eqn:Hrun; try discriminate.
  intros [= ->].
  destruct (load_country_loop str_to_float str_to_int folder _ _ Hrun) as [Hn Hk].
  split; [exact Hn|]. intros k hw.
  rewrite retrieve_history_run, Hk. simpl.
  rewrite <- first_history_spec. split.
  - intros [= ->]. reflexivity.
  - intros ->. reflexivity.
Qed.

Lemma load_country_result_witness :
  exists c,
    load_country sample_float sample_int sample_folder "Canada" = Ok c /\
    country_name c = "Canada"%string /\
    forall k hw,
      retrieve_history k c = (Ok (Some hw), c) <->
      exists i entry,
        nth_error sample_folder i = Some entry /\
        startswith_dot (fst entry) = false /\
        load_data sample_float sample_int (snd entry) = Ok (Some hw) /\
        name hw = k /\
        forall j entry' hw',
          (j < i)%nat -> nth_error sample_folder j = Some entry' ->
          startswith_dot (fst entry') = false ->
          load_data sample_float sample_int (snd entry') = Ok (Some hw') ->
          name hw' <> k.
Proof.
  eexists. split; [vm_compute; reflexivity|].
  apply (load_country_result sample_float sample_int sample_folder "Canada").
  vm_compute. reflexivity.
Defined.

(** [load_country] returns a country exactly when [load_data] returns on
    every file whose name does not start with a dot; when it raises, it
    raises what [load_data] raises on the first such file on which
    [load_data] does not return. *)
Theorem load_country_errors
    (str_to_float : string -> option Q) (str_to_int : string -> option Z)
    (folder : list (string * list string)) (n : string) :
  ((exists c, load_country str_to_float str_to_int folder n = Ok c) <->
   (forall entry, In entry folder -> startswith_dot (fst entry) = false ->
                  exists r, load_data str_to_float str_to_int (snd entry) = Ok r)) /\
  (forall x,
      load_country str_to_float str_to_int folder n = Raise x ->
      exists i entry,
        nth_error folder i = Some entry /\
        startswith_dot (fst entry) = false /\
        load_data str_to_float str_to_int (snd entry) = Raise x /\
        forall j entry',
          (j < i)%nat -> nth_error folder j = Some entry' ->
          startswith_dot (fst entry') = false ->
          exists r, load_data str_to_float str_to_int (snd entry') = Ok r).
Proof.
  unfold load_country, exec.
  destruct (for_each folder
              (fun entry _ => load_country_body str_to_float str_to_int entry) tt
              (Country_init n)) as [o c'] eqn:Hrun.
  pose proof (load_country_loop_outcome str_to_float str_to_int folder _ _ _ Hrun)
    as Hout.
  destruct o as [[]|x|].
  - split; [|discriminate]. split; [intros _; exact Hout | eauto].
  - split.
    + split; [intros [c H]; discriminate H|].
      intros Hall. exfalso.
      destruct Hout as (i & entry & Hnth & Hv & Hl & _).
      destruct (Hall entry (nth_error_In _ _ Hnth) Hv) as [r Hr]. congruence.
    + intros x' [= <-]. exact Hout.
  - split; [|discriminate].
    split; [intros [c H]; discriminate H|].
    intros Hall. exfalso.
    destruct Hout as (i & entry & Hnth & Hv & Hl & _).
    destruct (Hall entry (nth_error_In _ _ Hnth) Hv) as [r Hr]. congruence.
Qed.
